(** * IPMI API gateway: the service layer of [src/services/ipmi_service.py]

    A shallow embedding of [IPMIService] and [MultiServerIPMIService]
    and the properties of their dispatch and normalisation logic.

    Conventions of the embedding.
    - A Python [str] is a [string]; every character stands for the code
      point with the same number (0..255).
    - A Python object (JSON document, result mapping, keyword argument)
      is a [value]; a [dict] is an association list in insertion order
      whose keys are strings.  JSON numbers with a fraction are not
      represented.
    - A computation that may raise returns a [result]; a computation
      that also runs the external tool is in the monad [M], whose state
      is the outside world together with the list of [subprocess.run]
      invocations made so far.
    - The texts of interpreter-raised errors follow CPython 3.12. *)

From Stdlib Require Import String Ascii List ZArith Bool Arith Lia DecimalString.
Import ListNotations.
Open Scope string_scope.
Open Scope nat_scope.
Set Warnings "-register-all".

(** ** Python strings *)

Module PyStr.

(** [str.isspace] on one character (code points below 256). *)
Definition is_space (c : ascii) : bool :=
  let n := nat_of_ascii c in
  ((9 <=? n) && (n <=? 13)) || ((28 <=? n) && (n <=? 32))
  || (n =? 133) || (n =? 160).

(** [str.lower] on one character (code points below 256). *)
Definition lower_char (c : ascii) : ascii :=
  let n := nat_of_ascii c in
  if ((65 <=? n) && (n <=? 90))
     || ((192 <=? n) && (n <=? 222) && negb (n =? 215))
  then ascii_of_nat (n + 32) else c.

(** [s.lower()] *)
Fixpoint lower (s : string) : string :=
  match s with
  | EmptyString => EmptyString
  | String c s' => String (lower_char c) (lower s')
  end.

(** [s.lstrip()] *)
Fixpoint lstrip (s : string) : string :=
  match s with
  | EmptyString => EmptyString
  | String c s' => if is_space c then lstrip s' else s
  end.

(** [s.rstrip()] *)
Fixpoint rstrip (s : string) : string :=
  match s with
  | EmptyString => EmptyString
  | String c s' =>
      match rstrip s' with
      | EmptyString => if is_space c then EmptyString else String c EmptyString
      | r => String c r
      end
  end.

(** [s.strip()] *)
Definition strip (s : string) : string := rstrip (lstrip s).

(** [s.split(sep)] for a separator of one character: never empty. *)
Fixpoint split_on (sep : ascii) (s : string) : list string :=
  match s with
  | EmptyString => [EmptyString]
  | String c s' =>
      if Ascii.eqb c sep then EmptyString :: split_on sep s'
      else match split_on sep s' with
           | w :: ws => String c w :: ws
           | [] => [String c EmptyString]
           end
  end.

(** [s.split()]: the maximal runs of non-space characters. *)
Fixpoint split_ws (s : string) : list string :=
  match s with
  | EmptyString => []
  | String c s' =>
      if is_space c then split_ws s'
      else match s' with
           | EmptyString => [String c EmptyString]
           | String c' _ =>
               if is_space c' then String c EmptyString :: split_ws s'
               else match split_ws s' with
                    | w :: ws => String c w :: ws
                    | [] => [String c EmptyString]
                    end
           end
  end.

(** [s.split(sep, 1)] when [sep in s]: the text before the first
    separator and the text after it; [None] when there is no [sep]. *)
Fixpoint split_first (sep : ascii) (s : string) : option (string * string) :=
  match s with
  | EmptyString => None
  | String c s' =>
      if Ascii.eqb c sep then Some (EmptyString, s')
      else match split_first sep s' with
           | Some (k, v) => Some (String c k, v)
           | None => None
           end
  end.

(** [s.startswith(p)] *)
Fixpoint starts_with (p s : string) : bool :=
  match p, s with
  | EmptyString, _ => true
  | String a p', String b s' => Ascii.eqb a b && starts_with p' s'
  | String _ _, EmptyString => false
  end.

(** [needle in hay] *)
Fixpoint contains (needle hay : string) : bool :=
  starts_with needle hay
  || match hay with
     | EmptyString => false
     | String _ hay' => contains needle hay'
     end.

(** [c in s] for one character. *)
Fixpoint has_char (c : ascii) (s : string) : bool :=
  match s with
  | EmptyString => false
  | String c' s' => Ascii.eqb c' c || has_char c s'
  end.

(** [s.replace(a, b)] for single characters. *)
Fixpoint replace_char (a b : ascii) (s : string) : string :=
  match s with
  | EmptyString => EmptyString
  | String c s' => String (if Ascii.eqb c a then b else c) (replace_char a b s')
  end.

(** [sep.join(l)] *)
Fixpoint join (sep : string) (l : list string) : string :=
  match l with
  | [] => EmptyString
  | [x] => x
  | x :: l' => x ++ sep ++ join sep l'
  end.

(** [repr(s)] of a string without quotes, backslashes or control
    characters: the text between single quotes. *)
Definition repr (s : string) : string := "'" ++ s ++ "'".

(** [s.startswith("_")] *)
Definition starts_with_underscore (s : string) : bool :=
  match s with
  | String c _ => Ascii.eqb c "_"
  | EmptyString => false
  end.

End PyStr.
Import PyStr.

Definition newline : ascii := ascii_of_nat 10.

(** ** Python values and exceptions *)

Inductive value : Type :=
| VNone
| VBool (b : bool)
| VInt (n : Z)
| VStr (s : string)
| VList (l : list value)
| VDict (d : list (string * value)).

Definition dict : Type := list (string * value).

Fixpoint dict_get (d : dict) (k : string) : option value :=
  match d with
  | [] => None
  | (k', v) :: d' => if String.eqb k' k then Some v else dict_get d' k
  end.

(** [d[k] = v]: replaces in place, or appends a new key. *)
Fixpoint dict_set (d : dict) (k : string) (v : value) : dict :=
  match d with
  | [] => [(k, v)]
  | (k', v') :: d' =>
      if String.eqb k' k then (k, v) :: d' else (k', v') :: dict_set d' k v
  end.

Definition has_key (d : dict) (k : string) : bool :=
  match dict_get d k with Some _ => true | None => false end.

Definition dict_keys (d : dict) : list string := map fst d.
Definition dict_values (d : dict) : list value := map snd d.

(** [bool(v)] *)
Definition truthy (v : value) : bool :=
  match v with
  | VNone => false
  | VBool b => b
  | VInt n => negb (n =? 0)%Z
  | VStr s => negb (String.eqb s "")
  | VList l => match l with [] => false | _ => true end
  | VDict d => match d with [] => false | _ => true end
  end.

(** [type(v).__name__] *)
Definition type_name (v : value) : string :=
  match v with
  | VNone => "NoneType"
  | VBool _ => "bool"
  | VInt _ => "int"
  | VStr _ => "str"
  | VList _ => "list"
  | VDict _ => "dict"
  end.

Inductive exn : Type :=
| PlainException (msg : string)     (* raise Exception(msg) *)
| ValueError (msg : string)
| KeyError (key : string)
| TypeError (msg : string)
| AttributeError (msg : string)
| StopIteration
| TimeoutExpired (msg : string)     (* subprocess.TimeoutExpired *)
| OtherError (msg : string).        (* any other Exception of subprocess.run *)

(** [str(e)] *)
Definition exn_str (e : exn) : string :=
  match e with
  | PlainException m | ValueError m | TypeError m
  | AttributeError m | TimeoutExpired m | OtherError m => m
  | KeyError k => repr k
  | StopIteration => ""
  end.

Inductive result (A : Type) : Type :=
| Ok (a : A)
| Raise (e : exn).
Arguments Ok {A} a.
Arguments Raise {A} e.

Definition rbind {A B} (r : result A) (f : A -> result B) : result B :=
  match r with Ok a => f a | Raise e => Raise e end.

Definition is_str (k : string) (v : value) : bool :=
  match v with VStr s => String.eqb s k | _ => false end.

(** [k in v] for a string [k]. *)
Definition py_in (k : string) (v : value) : result bool :=
  match v with
  | VDict d => Ok (has_key d k)
  | VList l => Ok (existsb (is_str k) l)
  | VStr s => Ok (contains k s)
  | _ => Raise (TypeError ("argument of type '" ++ type_name v ++ "' is not iterable"))
  end.

(** [v[k]] for a string [k]. *)
Definition py_getitem (v : value) (k : string) : result value :=
  match v with
  | VDict d =>
      match dict_get d k with Some x => Ok x | None => Raise (KeyError k) end
  | VStr _ => Raise (TypeError "string indices must be integers, not 'str'")
  | VList _ => Raise (TypeError "list indices must be integers or slices, not str")
  | _ => Raise (TypeError ("'" ++ type_name v ++ "' object is not subscriptable"))
  end.

(** [list(v.keys())] *)
Definition py_keys (v : value) : result (list string) :=
  match v with
  | VDict d => Ok (dict_keys d)
  | _ => Raise (AttributeError ("'" ++ type_name v ++ "' object has no attribute 'keys'"))
  end.

Notation "x <-? r ; k" := (rbind r (fun x => k))
  (at level 61, r at next level, right associativity).

(** ** Configuration: [IPMIService._load_config] and [__init__] *)

(** What the process sees of a path: no file, a file that is not JSON,
    or a file holding a JSON document.  An existing path is taken to be
    a readable file. *)
Inductive file_state : Type :=
| NoFile
| InvalidJson
| Json (document : value).

Record Env : Type := {
  environ : string -> option string;     (* os.environ *)
  file_at : string -> file_state
}.

(** [os.environ.get(k, default)] *)
Definition environ_get (env : Env) (k default : string) : string :=
  match environ env k with Some v => v | None => default end.

(** [os.environ.get(k)] as a Python object *)
Definition environ_value (env : Env) (k : string) : value :=
  match environ env k with Some v => VStr v | None => VNone end.

Definition required_fields : list string := ["hostname"; "username"; "password"].

(** The body of the loop of [_parse_multi_server_env]. *)
Definition parse_host_config (env : Env) (servers : dict) (host_config : string) : dict :=
  let parts := split_on ":" (strip host_config) in
  if 4 <=? length parts then
    let server_name := nth 0 parts "" in
    dict_set servers server_name
      (VDict [("hostname", VStr (nth 1 parts ""));
              ("username", VStr (nth 2 parts ""));
              ("password", VStr (nth 3 parts ""))])
  else if length parts =? 2 then
    let server_name := nth 0 parts "" in
    dict_set servers server_name
      (VDict [("hostname", VStr (nth 1 parts ""));
              ("username", VStr (environ_get env "IPMI_USER" "admin"));
              ("password", VStr (environ_get env "IPMI_PASSWORD" "admin"))])
  else servers.

Definition _parse_multi_server_env (env : Env) (ipmi_hosts : string) : dict :=
  fold_left (parse_host_config env) (split_on "," ipmi_hosts) [].

(** The loop over [required_fields] of a single-server config file. *)
Fixpoint check_required_fields (config : value) (fields : list string) : result unit :=
  match fields with
  | [] => Ok tt
  | field :: rest =>
      present <-? py_in field config;
      if negb present then Raise (ValueError ("Missing required field: " ++ field))
      else check_required_fields config rest
  end.

(** [repr] of a list of plain strings *)
Definition repr_list (l : list string) : string :=
  "[" ++ join ", " (map repr l) ++ "]".

Definition default_config_path : string := "/etc/ipmi/config.json".

(** The last part of [_load_config]: the three single-server variables. *)
Definition _load_single_server_env (env : Env) (config_path : string) : result value :=
  let config :=
    [("hostname", environ_value env "IPMI_HOST");
     ("username", environ_value env "IPMI_USER");
     ("password", environ_value env "IPMI_PASSWORD")] in
  let missing_fields :=
    filter (fun field =>
              negb (truthy (match dict_get config field with
                            | Some v => v | None => VNone end)))
           required_fields in
  match missing_fields with
  | _ :: _ =>
      Raise (PlainException
               ("Missing required environment variables: "
                ++ repr_list missing_fields ++ ". "
                ++ "Please set IPMI_HOST, IPMI_USER, and IPMI_PASSWORD environment variables "
                ++ "or provide a config file at " ++ config_path))
  | [] => Ok (VDict config)
  end.

Definition _load_config (env : Env) (config_path : string) : result value :=
  match file_at env config_path with
  | InvalidJson => Raise (PlainException "Invalid IPMI configuration format")
  | Json config =>
      multi <-? py_in "servers" config;
      if multi then py_getitem config "servers"
      else
        _ <-? check_required_fields config required_fields;
        Ok config
  | NoFile =>
      match environ env "IPMI_HOSTS" with
      | Some ipmi_hosts =>
          if truthy (VStr ipmi_hosts)
          then Ok (VDict (_parse_multi_server_env env ipmi_hosts))
          else _load_single_server_env env config_path
      | None => _load_single_server_env env config_path
      end
  end.

Record IPMIService : Type := {
  config_path : string;
  server_id : option string;
  servers_config : value;
  config : value
}.

(** [isinstance(servers_config, dict) and 'hostname' in servers_config] *)
Definition is_single_server (servers_config : value) : bool :=
  match servers_config with
  | VDict d => has_key d "hostname"
  | _ => false
  end.

(** [if server_id:] on an optional string *)
Definition given (server_id : option string) : bool :=
  match server_id with
  | Some s => negb (String.eqb s "")
  | None => false
  end.

(** [IPMIService(server_id=...)] *)
Definition IPMIService_init (env : Env) (sid : option string) : result IPMIService :=
  let path := environ_get env "IPMI_CONFIG_PATH" default_config_path in
  sc <-? _load_config env path;
  if given sid then
    let id := match sid with Some s => s | None => "" end in
    found <-? py_in id sc;
    if negb found then
      Raise (ValueError ("Server '" ++ id ++ "' not found in configuration"))
    else
      cfg <-? py_getitem sc id;
      Ok {| config_path := path; server_id := sid; servers_config := sc; config := cfg |}
  else if is_single_server sc then
    Ok {| config_path := path; server_id := sid; servers_config := sc; config := sc |}
  else
    keys <-? py_keys sc;
    match keys with
    | [] => Raise StopIteration
    | first_server :: _ =>
        cfg <-? py_getitem sc first_server;
        Ok {| config_path := path; server_id := Some first_server;
              servers_config := sc; config := cfg |}
    end.

Definition get_available_servers (self : IPMIService) : result (list string) :=
  if is_single_server (servers_config self) then Ok ["default"]
  else py_keys (servers_config self).

(** [self.server_id] as it appears in a result mapping *)
Definition server_id_value (self : IPMIService) : value :=
  match server_id self with Some s => VStr s | None => VNone end.

(** ** Output parsers (pure) *)

(** [parts[i] if len(parts) > i else ''] *)
Definition item_or_empty (parts : list string) (i : nat) : string :=
  if i <? length parts then nth i parts "" else "".

(** Lines 201-207 of [get_power_status]. *)
Definition power_state_of (output : string) : string :=
  let output := lower output in
  if contains "power is on" output then "on"
  else if contains "power is off" output then "off"
  else "unknown".

Definition sensor_of_parts (parts : list string) : value :=
  VDict [("name", VStr (nth 0 parts ""));
         ("value", VStr (nth 1 parts ""));
         ("unit", VStr (item_or_empty parts 2));
         ("status", VStr (item_or_empty parts 3));
         ("lower_nr", VStr (item_or_empty parts 4));
         ("lower_cr", VStr (item_or_empty parts 5));
         ("lower_nc", VStr (item_or_empty parts 6));
         ("upper_nc", VStr (item_or_empty parts 7));
         ("upper_cr", VStr (item_or_empty parts 8));
         ("upper_nr", VStr (item_or_empty parts 9))].

(** The body of the loop of [_parse_sensor_output]. *)
Definition parse_sensor_line (sensors : list value) (line : string) : list value :=
  if has_char "|" line then
    let parts := map strip (split_on "|" line) in
    if 3 <=? length parts then (sensors ++ [sensor_of_parts parts])%list
    else sensors
  else sensors.

Definition _parse_sensor_output (output : string) : list value :=
  fold_left parse_sensor_line (split_on newline output) [].

Definition event_of_parts (parts : list string) : value :=
  VDict [("id", VStr (nth 0 parts ""));
         ("timestamp",
          VStr (if 2 <? length parts
                then nth 1 parts "" ++ " " ++ nth 2 parts ""
                else nth 1 parts ""));
         ("sensor", VStr (item_or_empty parts 3));
         ("event", VStr (item_or_empty parts 4));
         ("value", VStr (item_or_empty parts 5))].

(** The body of the loop of [_parse_sel_output]. *)
Definition parse_sel_line (events : list value) (line : string) : list value :=
  if truthy (VStr (strip line)) then
    let parts := map strip (split_on "|" line) in
    if 4 <=? length parts then (events ++ [event_of_parts parts])%list
    else events
  else events.

(** [l[:n]] for an integer [n] *)
Definition take_int {A} (n : Z) (l : list A) : list A :=
  if (0 <=? n)%Z then firstn (Z.to_nat n) l
  else firstn (length l - Z.to_nat (- n)) l.

(** [l[:limit]] *)
Definition slice_to {A} (l : list A) (limit : value) : result (list A) :=
  match limit with
  | VNone => Ok l
  | VInt n => Ok (take_int n l)
  | VBool b => Ok (take_int (if b then 1 else 0) l)
  | _ => Raise (TypeError "slice indices must be integers or None or have an __index__ method")
  end.

Definition _parse_sel_output (output : string) (limit : value) : result (list value) :=
  lines <-? slice_to (split_on newline output) limit;
  Ok (fold_left parse_sel_line lines []).

(** The body of the loop of [_parse_boot_device_output]. *)
Definition parse_boot_line (boot_info : dict) (line : string) : dict :=
  if has_char ":" line then
    match split_first ":" line with
    | Some (key, val) =>
        dict_set boot_info (replace_char " " "_" (lower (strip key))) (VStr (strip val))
    | None => boot_info
    end
  else boot_info.

Definition _parse_boot_device_output (output : string) : dict :=
  fold_left parse_boot_line (split_on newline output) [].

(** The receiver of a [str] method: [v.method()] raises when [v] is
    not a string. *)
Definition str_of (method : string) (v : value) : result string :=
  match v with
  | VStr s => Ok s
  | _ => Raise (AttributeError ("'" ++ type_name v ++ "' object has no attribute '"
                                ++ method ++ "'"))
  end.

(** [sep.join(items)], the items numbered from [i]. *)
Fixpoint py_join_from (i : nat) (items : list value) : result (list string) :=
  match items with
  | [] => Ok []
  | VStr s :: rest => l <-? py_join_from (S i) rest; Ok (s :: l)
  | v :: _ =>
      Raise (TypeError ("sequence item " ++ NilEmpty.string_of_uint (Nat.to_uint i)
                        ++ ": expected str instance, " ++ type_name v ++ " found"))
  end.

Definition py_join (sep : string) (items : list value) : result string :=
  l <-? py_join_from 0 items; Ok (join sep l).

(** ** The external tool *)

(** What one [subprocess.run] does: it completes with an exit status
    and the two captured streams, it times out, or it raises another
    exception; [msg] is the text of that exception. *)
Inductive proc_outcome : Type :=
| Completed (returncode : Z) (stdout stderr : string)
| TimedOut (msg : string)
| Failed (msg : string).

Definition invocation : Type := (list value * Z)%type.

(** [r['success']] read as a flag; false when the key is absent. *)
Definition succeeded (r : dict) : bool :=
  match dict_get r "success" with Some v => truthy v | None => false end.

Section Service.

(** The outside world and the behaviour of [subprocess.run] in it. *)
Variable World : Type.
Variable tool : list value -> Z -> World -> proc_outcome * World.

Record sys : Type := {
  world : World;
  calls : list invocation    (* the invocations of [subprocess.run] so far *)
}.

Definition M (A : Type) : Type := sys -> result A * sys.

Definition ret {A} (a : A) : M A := fun s => (Ok a, s).

Definition bind {A B} (m : M A) (f : A -> M B) : M B :=
  fun s => match m s with
           | (Ok a, s') => f a s'
           | (Raise e, s') => (Raise e, s')
           end.

Definition lift {A} (r : result A) : M A := fun s => (r, s).

(** [try: m  except Exception as e: h e] *)
Definition try_except {A} (m : M A) (h : exn -> M A) : M A :=
  fun s => match m s with
           | (Ok a, s') => (Ok a, s')
           | (Raise e, s') => h e s'
           end.

Notation "x <- m ;; k" := (bind m (fun x => k))
  (at level 61, m at next level, right associativity).

(** [subprocess.run(cmd, capture_output=True, text=True, timeout=timeout)] *)
Definition subprocess_run (cmd : list value) (timeout : Z) : M (Z * string * string) :=
  fun s =>
    let (o, w) := tool cmd timeout (world s) in
    let s' := {| world := w; calls := (calls s ++ [(cmd, timeout)])%list |} in
    match o with
    | Completed returncode stdout stderr => (Ok (returncode, stdout, stderr), s')
    | TimedOut msg => (Raise (TimeoutExpired msg), s')
    | Failed msg => (Raise (OtherError msg), s')
    end.

(** ** [IPMIService]: the runner and the operations *)

Definition command_result (self : IPMIService) (success : bool) (output : string)
    (error hostname : value) : dict :=
  [("success", VBool success);
   ("output", VStr output);
   ("error", error);
   ("server_id", server_id_value self);
   ("hostname", hostname)].

(** The argument vector built by the runner. *)
Definition ipmitool_cmd (hostname username password : value) (command : string)
    : list value :=
  ([VStr "ipmitool"; VStr "-I"; VStr "lanplus"; VStr "-H"; hostname;
    VStr "-U"; username; VStr "-P"; password]
   ++ map VStr (split_ws command))%list.

(** The source reads [self.config['hostname']] anew for every log line
    and result mapping; nothing mutates the configuration, so each
    block reads it once here.  Logging has no other effect. *)
Definition _execute_ipmi_command (self : IPMIService) (command : string) (timeout : Z)
    : M dict :=
  try_except
    (hostname <- lift (py_getitem (config self) "hostname");;
     username <- lift (py_getitem (config self) "username");;
     password <- lift (py_getitem (config self) "password");;
     let cmd := ipmitool_cmd hostname username password command in
     let safe_cmd := ipmitool_cmd hostname username (VStr "[HIDDEN]") command in
     _ <- lift (py_join " " safe_cmd);;          (* logger.info *)
     r <- subprocess_run cmd timeout;;
     let '(returncode, stdout, stderr) := r in
     if (returncode =? 0)%Z
     then ret (command_result self true (strip stdout) VNone hostname)
     else ret (command_result self false (strip stdout) (VStr (strip stderr)) hostname))
    (fun e =>
       hostname <- lift (py_getitem (config self) "hostname");;   (* logger.error *)
       match e with
       | TimeoutExpired _ =>
           ret (command_result self false "" (VStr "Command timed out") hostname)
       | _ =>
           ret (command_result self false "" (VStr (exn_str e)) hostname)
       end).

Definition power_on (self : IPMIService) : M dict :=
  _execute_ipmi_command self "chassis power on" 30.

Definition power_off (self : IPMIService) (force : value) : M dict :=
  if truthy force then _execute_ipmi_command self "chassis power off" 30
  else _execute_ipmi_command self "chassis power soft" 30.

Definition power_reset (self : IPMIService) : M dict :=
  _execute_ipmi_command self "chassis power reset" 30.

Definition get_power_status (self : IPMIService) : M dict :=
  result <- _execute_ipmi_command self "chassis power status" 30;;
  success <- lift (py_getitem (VDict result) "success");;
  if truthy success then
    raw <- lift (py_getitem (VDict result) "output");;
    output <- lift (str_of "lower" raw);;
    ret (dict_set result "power_state" (VStr (power_state_of output)))
  else ret result.

(** The [commands] mapping of [get_system_info], in its order. *)
Definition system_info_commands : list (string * string) :=
  [("fru", "fru");
   ("bmc_info", "bmc info");
   ("chassis_status", "chassis status");
   ("system_info", "fru print")].

(** The loop of [get_system_info]. *)
Fixpoint run_commands (self : IPMIService) (commands : list (string * string))
    (results : dict) : M dict :=
  match commands with
  | [] => ret results
  | (key, cmd) :: rest =>
      result <- _execute_ipmi_command self cmd 30;;
      run_commands self rest (dict_set results key (VDict result))
  end.

(** [all(r['success'] for r in values)] *)
Fixpoint all_success (values : list value) : result bool :=
  match values with
  | [] => Ok true
  | r :: rest =>
      success <-? py_getitem r "success";
      if truthy success then all_success rest else Ok false
  end.

Definition get_system_info (self : IPMIService) : M dict :=
  results <- run_commands self system_info_commands [];;
  success <- lift (all_success (dict_values results));;
  hostname <- lift (py_getitem (config self) "hostname");;
  ret [("success", VBool success);
       ("system_info", VDict results);
       ("server_id", server_id_value self);
       ("hostname", hostname)].

Definition get_sensor_data (self : IPMIService) : M dict :=
  result <- _execute_ipmi_command self "sensor" 45;;
  success <- lift (py_getitem (VDict result) "success");;
  if truthy success then
    raw <- lift (py_getitem (VDict result) "output");;
    output <- lift (str_of "split" raw);;
    let sensors := _parse_sensor_output output in
    let result := dict_set result "sensors" (VList sensors) in
    ret (dict_set result "sensor_count" (VInt (Z.of_nat (length sensors))))
  else ret result.

Definition get_system_event_log (self : IPMIService) (limit : value) : M dict :=
  result <- _execute_ipmi_command self "sel list" 30;;
  success <- lift (py_getitem (VDict result) "success");;
  if truthy success then
    raw <- lift (py_getitem (VDict result) "output");;
    output <- lift (str_of "split" raw);;
    events <- lift (_parse_sel_output output limit);;
    let result := dict_set result "events" (VList events) in
    ret (dict_set result "event_count" (VInt (Z.of_nat (length events))))
  else ret result.

Definition clear_system_event_log (self : IPMIService) : M dict :=
  _execute_ipmi_command self "sel clear" 30.

Definition get_sel_info (self : IPMIService) : M dict :=
  _execute_ipmi_command self "sel info" 30.

Definition valid_devices : list string :=
  ["pxe"; "disk"; "cdrom"; "bios"; "floppy"; "safe"].

Definition set_boot_device (self : IPMIService) (device persistent : value) : M dict :=
  name <- lift (str_of "lower" device);;
  if negb (existsb (String.eqb (lower name)) valid_devices) then
    let error := "Invalid boot device '" ++ name ++ "'. Valid options: "
                 ++ join ", " valid_devices in
    hostname <- lift (py_getitem (config self) "hostname");;
    ret [("success", VBool false);
         ("error", VStr error);
         ("server_id", server_id_value self);
         ("hostname", hostname)]
  else
    let options := if truthy persistent then "options=persistent" else "options=efiboot" in
    _execute_ipmi_command self ("chassis bootdev " ++ name ++ " " ++ options) 30.

Definition get_boot_device (self : IPMIService) : M dict :=
  result <- _execute_ipmi_command self "chassis bootparam get 5" 30;;
  success <- lift (py_getitem (VDict result) "success");;
  if truthy success then
    raw <- lift (py_getitem (VDict result) "output");;
    output <- lift (str_of "split" raw);;
    ret (dict_set result "boot_device" (VDict (_parse_boot_device_output output)))
  else ret result.

Definition check_health (self : IPMIService) : M dict :=
  try_except
    (result <- _execute_ipmi_command self "chassis status" 30;;
     success <- lift (py_getitem (VDict result) "success");;
     if truthy success then
       output <- lift (py_getitem (VDict result) "output");;
       hostname <- lift (py_getitem (config self) "hostname");;
       let details :=
         [("ipmi_connection", VStr "healthy");
          ("chassis_status", output);
          ("server_id", server_id_value self);
          ("hostname", hostname)] in
       power_result <- get_power_status self;;
       power_success <- lift (py_getitem (VDict power_result) "success");;
       details <-
         (if truthy power_success then
            power_state <- lift (py_getitem (VDict power_result) "power_state");;
            ret (dict_set details "power_status" power_state)
          else ret details);;
       ret [("success", VBool true); ("details", VDict details)]
     else
       error <- lift (py_getitem (VDict result) "error");;
       hostname <- lift (py_getitem (config self) "hostname");;
       ret [("success", VBool false);
            ("error", error);
            ("server_id", server_id_value self);
            ("hostname", hostname)])
    (fun e =>
       hostname <- lift (py_getitem (config self) "hostname");;
       ret [("success", VBool false);
            ("error", VStr (exn_str e));
            ("server_id", server_id_value self);
            ("hostname", hostname)]).

(** Legacy methods *)
Definition start_server (self : IPMIService) (ip_address : value) : M dict :=
  power_on self.

Definition stop_server (self : IPMIService) (ip_address : value) : M dict :=
  power_off self (VBool false).

Definition check_status (self : IPMIService) (ip_address : value) : M dict :=
  get_power_status self.

(** ** [MultiServerIPMIService] *)

Record MultiServerIPMIService : Type := {
  base_service : IPMIService;
  servers : list string
}.

Definition MultiServerIPMIService_init (env : Env) : result MultiServerIPMIService :=
  base <-? IPMIService_init env None;
  ids <-? get_available_servers base;
  Ok {| base_service := base; servers := ids |}.

(** The configuration is read again for every per-server service. *)
Definition get_service_for_server (env : Env) (server_id : string) : result IPMIService :=
  IPMIService_init env (Some server_id).

(** A method of [IPMIService]: its parameters after [self], each with
    its default if it has one, and its body on the bound arguments. *)
Record method : Type := {
  qualname : string;
  params : list (string * option value);
  body : IPMIService -> list value -> M value
}.

Inductive attribute : Type :=
| Method (m : method)
| Data (v : value).

Definition as_value (m : M dict) : M value := d <- m;; ret (VDict d).

Definition arg (i : nat) (args : list value) : value := nth i args VNone.

Definition no_params : list (string * option value) := [].
Definition ip_address_param : list (string * option value) := [("ip_address", Some VNone)].

(** The methods of the class whose names do not begin with an underscore. *)
Definition public_methods : list (string * method) :=
  [("get_available_servers",
    {| qualname := "IPMIService.get_available_servers"; params := no_params;
       body := fun self _ =>
                 ids <- lift (get_available_servers self);; ret (VList (map VStr ids)) |});
   ("power_on",
    {| qualname := "IPMIService.power_on"; params := no_params;
       body := fun self _ => as_value (power_on self) |});
   ("power_off",
    {| qualname := "IPMIService.power_off"; params := [("force", Some (VBool false))];
       body := fun self args => as_value (power_off self (arg 0 args)) |});
   ("power_reset",
    {| qualname := "IPMIService.power_reset"; params := no_params;
       body := fun self _ => as_value (power_reset self) |});
   ("get_power_status",
    {| qualname := "IPMIService.get_power_status"; params := no_params;
       body := fun self _ => as_value (get_power_status self) |});
   ("get_system_info",
    {| qualname := "IPMIService.get_system_info"; params := no_params;
       body := fun self _ => as_value (get_system_info self) |});
   ("get_sensor_data",
    {| qualname := "IPMIService.get_sensor_data"; params := no_params;
       body := fun self _ => as_value (get_sensor_data self) |});
   ("get_system_event_log",
    {| qualname := "IPMIService.get_system_event_log"; params := [("limit", Some (VInt 50))];
       body := fun self args => as_value (get_system_event_log self (arg 0 args)) |});
   ("clear_system_event_log",
    {| qualname := "IPMIService.clear_system_event_log"; params := no_params;
       body := fun self _ => as_value (clear_system_event_log self) |});
   ("get_sel_info",
    {| qualname := "IPMIService.get_sel_info"; params := no_params;
       body := fun self _ => as_value (get_sel_info self) |});
   ("set_boot_device",
    {| qualname := "IPMIService.set_boot_device";
       params := [("device", None); ("persistent", Some (VBool false))];
       body := fun self args => as_value (set_boot_device self (arg 0 args) (arg 1 args)) |});
   ("get_boot_device",
    {| qualname := "IPMIService.get_boot_device"; params := no_params;
       body := fun self _ => as_value (get_boot_device self) |});
   ("check_health",
    {| qualname := "IPMIService.check_health"; params := no_params;
       body := fun self _ => as_value (check_health self) |});
   ("start_server",
    {| qualname := "IPMIService.start_server"; params := ip_address_param;
       body := fun self args => as_value (start_server self (arg 0 args)) |});
   ("stop_server",
    {| qualname := "IPMIService.stop_server"; params := ip_address_param;
       body := fun self args => as_value (stop_server self (arg 0 args)) |});
   ("check_status",
    {| qualname := "IPMIService.check_status"; params := ip_address_param;
       body := fun self args => as_value (check_status self (arg 0 args)) |})].

(** The attributes set by [__init__]. *)
Definition data_attributes (service : IPMIService) : list (string * value) :=
  [("config_path", VStr (config_path service));
   ("server_id", server_id_value service);
   ("servers_config", servers_config service);
   ("config", config service)].

Fixpoint assoc {A} (l : list (string * A)) (k : string) : option A :=
  match l with
  | [] => None
  | (k', a) :: l' => if String.eqb k' k then Some a else assoc l' k
  end.

(** [hasattr(service, name)] and [getattr(service, name)] for a name
    that does not begin with an underscore.  The private helpers of the
    class and the attributes inherited from [object] all begin with an
    underscore; this table does not resolve them. *)
Definition getattr (service : IPMIService) (name : string) : option attribute :=
  match assoc public_methods name with
  | Some m => Some (Method m)
  | None =>
      match assoc (data_attributes service) name with
      | Some v => Some (Data v)
      | None => None
      end
  end.

(** The first keyword that does not name a parameter. *)
Fixpoint check_keywords (m : method) (keywords : list string) : result unit :=
  match keywords with
  | [] => Ok tt
  | k :: rest =>
      if String.eqb k "self" then
        Raise (TypeError (qualname m ++ "() got multiple values for argument 'self'"))
      else if existsb (String.eqb k) (map fst (params m)) then check_keywords m rest
      else Raise (TypeError (qualname m ++ "() got an unexpected keyword argument '"
                             ++ k ++ "'"))
  end.

(** The arguments in parameter order, from the keywords or the defaults. *)
Fixpoint bind_params (m : method) (ps : list (string * option value)) (kwargs : dict)
    : result (list value) :=
  match ps with
  | [] => Ok []
  | (p, default) :: rest =>
      v <-? match dict_get kwargs p, default with
            | Some v, _ => Ok v
            | None, Some d => Ok d
            | None, None =>
                Raise (TypeError (qualname m ++ "() missing 1 required positional argument: '"
                                  ++ p ++ "'"))
            end;
      vs <-? bind_params m rest kwargs;
      Ok (v :: vs)
  end.

(** The call of [attr] with the keyword arguments [kwargs]. *)
Definition call (service : IPMIService) (attr : attribute) (kwargs : dict) : M value :=
  match attr with
  | Method m =>
      _ <- lift (check_keywords m (dict_keys kwargs));;
      args <- lift (bind_params m (params m) kwargs);;
      body m service args
  | Data v => lift (Raise (TypeError ("'" ++ type_name v ++ "' object is not callable")))
  end.

(** The [try] block of the loop of [execute_on_all_servers]. *)
Definition attempt (env : Env) (operation : string) (kwargs : dict) (server_id : string)
    : M value :=
  service <- lift (get_service_for_server env server_id);;
  match getattr service operation with
  | Some attr => call service attr kwargs
  | None =>
      ret (VDict [("success", VBool false);
                  ("error", VStr ("Operation '" ++ operation ++ "' not supported"));
                  ("server_id", VStr server_id)])
  end.

(** The result synthesized for a caught exception. *)
Definition failure_entry (server_id : string) (e : exn) : value :=
  VDict [("success", VBool false);
         ("error", VStr (exn_str e));
         ("server_id", VStr server_id)].

(** The body of the loop of [execute_on_all_servers]: what is stored
    under [results[server_id]]. *)
Definition dispatch (env : Env) (operation : string) (kwargs : dict) (server_id : string)
    : M value :=
  try_except
    (attempt env operation kwargs server_id)
    (fun e => ret (failure_entry server_id e)).

Fixpoint dispatch_all (env : Env) (operation : string) (kwargs : dict)
    (ids : list string) (results : dict) : M dict :=
  match ids with
  | [] => ret results
  | server_id :: rest =>
      r <- dispatch env operation kwargs server_id;;
      dispatch_all env operation kwargs rest (dict_set results server_id r)
  end.

(** [r.get('success', False)] *)
Definition get_success (r : value) : result value :=
  match r with
  | VDict d => Ok (match dict_get d "success" with Some v => v | None => VBool false end)
  | _ => Raise (AttributeError ("'" ++ type_name r ++ "' object has no attribute 'get'"))
  end.

(** [sum(1 for r in values if r.get('success', False))] *)
Fixpoint count_successful (values : list value) : result nat :=
  match values with
  | [] => Ok 0
  | r :: rest =>
      flag <-? get_success r;
      n <-? count_successful rest;
      Ok (if truthy flag then S n else n)
  end.

Definition execute_on_all_servers (self : MultiServerIPMIService) (env : Env)
    (operation : string) (kwargs : dict) : M dict :=
  results <- dispatch_all env operation kwargs (servers self) [];;
  successful <- lift (count_successful (dict_values results));;
  ret [("operation", VStr operation);
       ("total_servers", VInt (Z.of_nat (length (servers self))));
       ("successful", VInt (Z.of_nat successful));
       ("results", VDict results)].

Definition get_servers_status (self : MultiServerIPMIService) (env : Env) : M dict :=
  execute_on_all_servers self env "get_power_status" [].

(** ** The per-server API as the HTTP front end calls it *)

Inductive api_call : Type :=
| PowerOn
| PowerOff (force : bool)
| PowerReset
| GetPowerStatus
| GetSystemInfo
| GetSensorData
| GetSystemEventLog (limit : Z)
| ClearSystemEventLog
| GetSelInfo
| SetBootDevice (device : string) (persistent : bool)
| GetBootDevice
| CheckHealth.

Definition run_api (self : IPMIService) (c : api_call) : M dict :=
  match c with
  | PowerOn => power_on self
  | PowerOff force => power_off self (VBool force)
  | PowerReset => power_reset self
  | GetPowerStatus => get_power_status self
  | GetSystemInfo => get_system_info self
  | GetSensorData => get_sensor_data self
  | GetSystemEventLog limit => get_system_event_log self (VInt limit)
  | ClearSystemEventLog => clear_system_event_log self
  | GetSelInfo => get_sel_info self
  | SetBootDevice device persistent => set_boot_device self (VStr device) (VBool persistent)
  | GetBootDevice => get_boot_device self
  | CheckHealth => check_health self
  end.

(** The entries of a broadcast over [ids], computed one server after
    the other, each from the state its predecessors left. *)
Fixpoint dispatch_each (env : Env) (operation : string) (kwargs : dict)
    (ids : list string) (s : sys) : list (string * value) * sys :=
  match ids with
  | [] => ([], s)
  | server_id :: rest =>
      match dispatch env operation kwargs server_id s with
      | (Ok r, s1) =>
          let (entries, s2) := dispatch_each env operation kwargs rest s1 in
          ((server_id, r) :: entries, s2)
      | (Raise _, s1) => ([], s1)
      end
  end.

(** The computation returns a mapping that satisfies [P]. *)
Definition returns_with (P : dict -> Prop) (x : result dict * sys) : Prop :=
  exists r s', x = (Ok r, s') /\ P r.

(** The computation raises. *)
Definition raises {A} (x : result A * sys) : Prop :=
  exists e s', x = (Raise e, s').

(** The result of the computation is the same from every state. *)
Definition blind {A} (m : M A) : Prop :=
  forall s1 s2, fst (m s1) = fst (m s2).

(** The outcome of the tool for an invocation does not depend on the
    invocations made before it. *)
Definition memoryless_tool : Prop :=
  forall cmd timeout w w', fst (tool cmd timeout w) = fst (tool cmd timeout w').

(** The operation [op] runs the command [command] through the runner
    and attaches the derived [fields] to its result exactly when the
    command succeeded: on success the fields are added to the raw
    result, whose own fields are kept; on failure the raw result is
    returned as it is; and [op] raises only what the runner raises. *)
Definition derives (self : IPMIService) (op : M dict) (command : string) (timeout : Z)
    (fields : list string) : Prop :=
  forall s,
    match _execute_ipmi_command self command timeout s with
    | (Ok raw, s') =>
        exists r,
          op s = (Ok r, s')
          /\ (forall f, In f fields -> has_key r f = succeeded raw)
          /\ (succeeded raw = false -> r = raw)
          /\ (forall k, ~ In k fields -> dict_get r k = dict_get raw k)
    | (Raise e, s') => op s = (Raise e, s')
    end.

End Service.

Arguments sys : clear implicits.
Arguments M : clear implicits.
Arguments world {World} s.
Arguments calls {World} s.
Arguments returns_with {World} P x.
Arguments raises {World A} x.
Arguments blind {World A} m.

(** ** The HTTP front end: [src/controllers/ipmi_controller.py]

    The module-level services, the server parameter of a request and
    the routes that act on every server.  A response is the mapping
    handed to [jsonify] and the status code. *)

(** The body of a request: not JSON by its content type, JSON that
    parses to a document, or JSON that does not parse; [msg] is then
    the text of the exception that [request.json] raises. *)
Inductive request_body : Type :=
| NotJson
| JsonBody (document : value)
| InvalidBody (msg : string).

Record request : Type := {
  args : string -> option string;     (* request.args *)
  payload : request_body             (* request.is_json, request.json *)
}.

(** [request.args.get(key)] *)
Definition args_get (req : request) (key : string) : value :=
  match args req key with Some v => VStr v | None => VNone end.

(** [v.get(key, default)] *)
Definition py_get (v : value) (key : string) (default : value) : result value :=
  match v with
  | VDict d => Ok (match dict_get d key with Some x => x | None => default end)
  | _ => Raise (AttributeError ("'" ++ type_name v ++ "' object has no attribute 'get'"))
  end.

(** [request.args.get('server_id') or request.json.get('server_id')
    if request.is_json else None]: the conditional is the outermost
    operator, and [or] does not read the body when the query value is
    truthy. *)
Definition handle_server_parameter (req : request) : result value :=
  match payload req with
  | NotJson => Ok VNone
  | JsonBody document =>
      if truthy (args_get req "server_id") then Ok (args_get req "server_id")
      else py_get document "server_id" VNone
  | InvalidBody msg =>
      if truthy (args_get req "server_id") then Ok (args_get req "server_id")
      else Raise (OtherError msg)
  end.

(** The two module-level services; [None] when the initialisation failed. *)
Record services : Type := {
  multi_server_service : option MultiServerIPMIService;
  ipmi_service : option IPMIService
}.

Definition no_services : services :=
  {| multi_server_service := None; ipmi_service := None |}.

(** The initialisation at import: both constructors in one [try]. *)
Definition init_services (env : Env) : services :=
  match MultiServerIPMIService_init env with
  | Ok multi =>
      match IPMIService_init env None with
      | Ok single => {| multi_server_service := Some multi; ipmi_service := Some single |}
      | Raise _ => no_services
      end
  | Raise _ => no_services
  end.

Definition response : Type := (value * Z)%type.

Definition service_unavailable : response :=
  (VDict [("status", VStr "error");
          ("message", VStr "Multi-server service not available")], 500%Z).

(** The handler of every route: [except Exception as e]. *)
Definition route_error (e : exn) : response :=
  (VDict [("status", VStr "error"); ("message", VStr (exn_str e))], 500%Z).

(** A Python integer; [bool] is a subclass of [int]. *)
Definition as_int (v : value) : option Z :=
  match v with
  | VInt n => Some n
  | VBool b => Some (if b then 1%Z else 0%Z)
  | _ => None
  end.

(** [a - b] *)
Definition py_sub (a b : value) : result value :=
  match as_int a, as_int b with
  | Some x, Some y => Ok (VInt (x - y))
  | _, _ => Raise (TypeError ("unsupported operand type(s) for -: '" ++ type_name a
                              ++ "' and '" ++ type_name b ++ "'"))
  end.

(** The [summary] mapping of the routes that act on every server. *)
Definition bulk_summary (r : dict) : result value :=
  total <-? py_getitem (VDict r) "total_servers";
  successful <-? py_getitem (VDict r) "successful";
  total' <-? py_getitem (VDict r) "total_servers";
  successful' <-? py_getitem (VDict r) "successful";
  failed <-? py_sub total' successful';
  Ok (VDict [("total_servers", total); ("successful", successful); ("failed", failed)]).

Section Controller.

Variable World : Type.
Variable tool : list value -> Z -> World -> proc_outcome * World.

Local Notation "x <- m ;; k" := (bind World m (fun x => k))
  (at level 61, m at next level, right associativity).

Definition list_servers (ctl : services) : M World response :=
  try_except World
    (match multi_server_service ctl with
     | None => ret World service_unavailable
     | Some service =>
         let servers := servers service in
         ret World (VDict [("status", VStr "success");
                           ("servers", VList (map VStr servers));
                           ("count", VInt (Z.of_nat (length servers)))], 200%Z)
     end)
    (fun e => ret World (route_error e)).

Definition all_servers_status (ctl : services) (env : Env) : M World response :=
  try_except World
    (match multi_server_service ctl with
     | None => ret World service_unavailable
     | Some service =>
         result <- get_servers_status World tool service env;;
         operation <- lift World (py_getitem (VDict result) "operation");;
         summary <- lift World (bulk_summary result);;
         results <- lift World (py_getitem (VDict result) "results");;
         ret World (VDict [("status", VStr "success"); ("operation", operation);
                           ("summary", summary); ("results", results)], 200%Z)
     end)
    (fun e => ret World (route_error e)).

Definition bulk_power_on (ctl : services) (env : Env) : M World response :=
  try_except World
    (match multi_server_service ctl with
     | None => ret World service_unavailable
     | Some service =>
         result <- execute_on_all_servers World tool service env "power_on" [];;
         summary <- lift World (bulk_summary result);;
         results <- lift World (py_getitem (VDict result) "results");;
         ret World (VDict [("status", VStr "success"); ("operation", VStr "bulk_power_on");
                           ("summary", summary); ("results", results)], 200%Z)
     end)
    (fun e => ret World (route_error e)).

Definition bulk_power_off (ctl : services) (env : Env) (req : request) : M World response :=
  try_except World
    (match multi_server_service ctl with
     | None => ret World service_unavailable
     | Some service =>
         force <- lift World (match payload req with
                              | NotJson => Ok (VBool false)
                              | JsonBody document => py_get document "force" (VBool false)
                              | InvalidBody msg => Raise (OtherError msg)
                              end);;
         result <- execute_on_all_servers World tool service env "power_off"
                     [("force", force)];;
         summary <- lift World (bulk_summary result);;
         results <- lift World (py_getitem (VDict result) "results");;
         ret World (VDict [("status", VStr "success"); ("operation", VStr "bulk_power_off");
                           ("force", force);
                           ("summary", summary); ("results", results)], 200%Z)
     end)
    (fun e => ret World (route_error e)).

Definition bulk_sensor_readings (ctl : services) (env : Env) : M World response :=
  try_except World
    (match multi_server_service ctl with
     | None => ret World service_unavailable
     | Some service =>
         result <- execute_on_all_servers World tool service env "get_sensor_data" [];;
         summary <- lift World (bulk_summary result);;
         results <- lift World (py_getitem (VDict result) "results");;
         ret World (VDict [("status", VStr "success");
                           ("operation", VStr "bulk_sensor_readings");
                           ("summary", summary); ("results", results)], 200%Z)
     end)
    (fun e => ret World (route_error e)).

End Controller.

(** ** Vocabulary of the properties *)

(** The three fields of a connection profile, when the bound
    configuration is a mapping that holds them as strings. *)
Definition profile (self : IPMIService) : option (string * string * string) :=
  match config self with
  | VDict d =>
      match dict_get d "hostname", dict_get d "username", dict_get d "password" with
      | Some (VStr h), Some (VStr u), Some (VStr p) => Some (h, u, p)
      | _, _, _ => None
      end
  | _ => None
  end.

(** A per-server entry whose success flag is true. *)
Definition is_success (r : value) : bool :=
  match r with VDict d => succeeded d | _ => false end.

(** The entries of [results] for the servers other than [server_id]. *)
Definition without (server_id : string) (results : dict) : dict :=
  filter (fun entry => negb (String.eqb (fst entry) server_id)) results.

(** Some character of [s] is a space. *)
Fixpoint has_space (s : string) : bool :=
  match s with
  | EmptyString => false
  | String c s' => is_space c || has_space s'
  end.

(** The mapping names both the server and its host. *)
Definition attributed (r : dict) : bool :=
  has_key r "server_id" && has_key r "hostname".

(** The mapping under [r['details']] names both the server and its host. *)
Definition attributed_in_details (r : dict) : bool :=
  match dict_get r "details" with
  | Some (VDict details) => attributed details
  | _ => false
  end.

(** The server and its host are named at the top of the mapping or in
    its details. *)
Definition carries (r : dict) : bool := attributed r || attributed_in_details r.

(** The two shapes of a health result: a success names the server and
    its host in its details only, a failure names them at the top. *)
Definition health_shape (r : dict) : bool :=
  if succeeded r then negb (has_key r "server_id") && negb (has_key r "hostname")
                      && attributed_in_details r
  else attributed r.

(** [needle] occurs in [text] when letter case is ignored. *)
Definition occurs_ignoring_case (needle text : string) : Prop :=
  exists pre mid post, text = pre ++ mid ++ post /\ lower mid = lower needle.

(** A line of the event log that yields an entry: it is not blank and
    has at least 4 fields between bars. *)
Definition sel_line_kept (line : string) : bool :=
  negb (String.eqb (strip line) "") && (4 <=? length (split_on "|" line)).

Definition sel_entry (line : string) : value :=
  event_of_parts (map strip (split_on "|" line)).

(** An entry of the multi-server variable that the parser accepts under
    the name [id]: it has 2 parts, or 4 or more, and [id] is the first. *)
Definition accepted_as (id host_config : string) : Prop :=
  let parts := split_on ":" (strip host_config) in
  (length parts = 2 \/ 4 <= length parts) /\ nth 0 parts "" = id.

(** The result mapping that the runner gives for one outcome of the
    tool, case by case. *)
Definition normalized (self : IPMIService) (hostname : value) (o : proc_outcome) : dict :=
  match o with
  | Completed returncode stdout stderr =>
      if (returncode =? 0)%Z
      then command_result self true (strip stdout) VNone hostname
      else command_result self false (strip stdout) (VStr (strip stderr)) hostname
  | TimedOut _ => command_result self false "" (VStr "Command timed out") hostname
  | Failed msg => command_result self false "" (VStr msg) hostname
  end.

(** A line of the sensor table that yields a reading: it has at least
    3 fields between bars. *)
Definition sensor_line_kept (line : string) : bool :=
  3 <=? length (split_on "|" line).

Definition sensor_entry (line : string) : value :=
  sensor_of_parts (map strip (split_on "|" line)).

(** The key under which a line of the boot parameters is stored. *)
Definition boot_key (key : string) : string :=
  replace_char " " "_" (lower (strip key)).

(** A line of the boot parameters that is stored under [k]: it has a
    colon and the text before its first colon normalises to [k]. *)
Definition stored_as (k line : string) : Prop :=
  exists key val, split_first ":" line = Some (key, val) /\ boot_key key = k.

(** The keys of a sensor reading, in the order of the fields of a line. *)
Definition sensor_keys : list string :=
  ["name"; "value"; "unit"; "status"; "lower_nr"; "lower_cr"; "lower_nc";
   "upper_nc"; "upper_cr"; "upper_nr"].

(** The environment variable [k] is unset or holds the empty string. *)
Definition unset_or_empty (env : Env) (k : string) : bool :=
  match environ env k with
  | Some v => String.eqb v ""
  | None => true
  end.

(** The fields of the single-server configuration and the variables
    they are read from. *)
Definition single_server_variables : list (string * string) :=
  [("hostname", "IPMI_HOST"); ("username", "IPMI_USER"); ("password", "IPMI_PASSWORD")].

(** The mapping that a route acting on every server hands to [jsonify]
    for the entries [results]: the number of servers, of entries whose
    success flag is true, and of the other entries. *)
Definition bulk_answer (label : list (string * value)) (results : dict) : response :=
  (VDict ([("status", VStr "success")] ++ label
          ++ [("summary",
               VDict [("total_servers", VInt (Z.of_nat (length results)));
                      ("successful",
                       VInt (Z.of_nat (length (filter is_success (dict_values results)))));
                      ("failed",
                       VInt (Z.of_nat
                               (length (filter (fun r => negb (is_success r))
                                          (dict_values results)))))]);
              ("results", VDict results)])%list, 200%Z).

(** ** Concrete data for the examples *)

(** A world that plays a fixed list of outcomes, one per invocation. *)
Definition script : Type := list proc_outcome.

Definition play (cmd : list value) (timeout : Z) (w : script) : proc_outcome * script :=
  match w with
  | [] => (Failed "script exhausted", [])
  | o :: w' => (o, w')
  end.

Definition start (w : script) : sys script := {| world := w; calls := [] |}.

(** A tool without memory: every invocation powers the chassis up. *)
Definition always_up (cmd : list value) (timeout : Z) (w : unit) : proc_outcome * unit :=
  (Completed 0 "Chassis Power Control: Up/On" "", tt).

Definition idle : sys unit := {| world := tt; calls := [] |}.

(** Single-server mode: the three variables and no file. *)
Definition env_single : Env :=
  {| environ := fun k =>
       if String.eqb k "IPMI_HOST" then Some "10.0.0.1"
       else if String.eqb k "IPMI_USER" then Some "root"
       else if String.eqb k "IPMI_PASSWORD" then Some "secret"
       else None;
     file_at := fun _ => NoFile |}.

(** Multi-server mode: the multi-server variable and no file. *)
Definition env_multi : Env :=
  {| environ := fun k =>
       if String.eqb k "IPMI_HOSTS"
       then Some "a:10.0.0.1:u:p,b:10.0.0.2,c:10.0.0.3:u3:p3"
       else None;
     file_at := fun _ => NoFile |}.

(** The service bound to server [a] of [env_multi]. *)
Definition service_a : IPMIService :=
  {| config_path := default_config_path;
     server_id := Some "a";
     servers_config := VDict (_parse_multi_server_env env_multi "a:10.0.0.1:u:p,b:10.0.0.2,c:10.0.0.3:u3:p3");
     config := VDict [("hostname", VStr "10.0.0.1"); ("username", VStr "u"); ("password", VStr "p")] |}.

(** The fixed part of the argument vector for [service_a]. *)
Definition base_cmd_a : list value :=
  [VStr "ipmitool"; VStr "-I"; VStr "lanplus"; VStr "-H"; VStr "10.0.0.1";
   VStr "-U"; VStr "u"; VStr "-P"; VStr "p"].

(** A configuration file with three servers; the profile of [b] has no
    hostname. *)
Definition env_file : Env :=
  {| environ := fun _ => None;
     file_at := fun path =>
       if String.eqb path default_config_path then
         Json (VDict
                 [("servers",
                   VDict
                     [("a", VDict [("hostname", VStr "10.0.0.1"); ("username", VStr "u");
                                   ("password", VStr "p")]);
                      ("b", VDict [("username", VStr "u"); ("password", VStr "p")]);
                      ("c", VDict [("hostname", VStr "10.0.0.3"); ("username", VStr "u3");
                                   ("password", VStr "p3")])])])
       else NoFile |}.

(** The dispatcher built in [env_file]. *)
Definition fleet_file : MultiServerIPMIService :=
  match MultiServerIPMIService_init env_file with
  | Ok fleet => fleet
  | Raise _ => {| base_service := service_a; servers := [] |}
  end.

(** The service bound to server [b] of [env_file], whose profile has no
    hostname. *)
Definition service_b : IPMIService :=
  match IPMIService_init env_file (Some "b") with
  | Ok service => service
  | Raise _ => service_a
  end.

(** * Properties *)

(** ** Strings *)

Lemma lower_app (a b : string) : lower (a ++ b) = lower a ++ lower b.
Proof.
  induction a as [|c a IH]; simpl; [reflexivity | now rewrite IH].
Qed.

Lemma lower_inv_app (s a b : string) :
  lower s = a ++ b ->
  exists a' b', s = a' ++ b' /\ lower a' = a /\ lower b' = b.
Proof.
  revert s; induction a as [|c a IH]; intros s H; simpl in H.
  - exists "", s. auto.
  - destruct s as [|c' s]; simpl in H; [discriminate|].
    injection H as Hc Hs.
    destruct (IH _ Hs) as (a' & b' & -> & Ha & Hb).
    exists (String c' a'), b'. simpl. rewrite Hc, Ha. auto.
Qed.

Lemma starts_with_spec (p s : string) :
  starts_with p s = true <-> exists post, s = p ++ post.
Proof.
  revert s; induction p as [|a p IH]; intros s; simpl.
  - split; [intros _; now exists s | reflexivity].
  - destruct s as [|b s].
    + split; [discriminate | intros [post H]; discriminate].
    + rewrite andb_true_iff, Ascii.eqb_eq, IH. split.
      * intros [-> [post ->]]. now exists post.
      * intros [post H]. injection H as -> ->. split; [reflexivity | now exists post].
Qed.

Lemma contains_spec (needle hay : string) :
  contains needle hay = true <-> exists pre post, hay = pre ++ needle ++ post.
Proof.
  induction hay as [|c hay IH]; simpl.
  - rewrite orb_false_r, starts_with_spec. split.
    + intros [post H]. now exists "", post.
    + intros (pre & post & H). destruct pre; simpl in H; [now exists post | discriminate].
  - rewrite orb_true_iff, starts_with_spec, IH. split.
    + intros [[post H] | (pre & post & ->)].
      * now exists "", post.
      * now exists (String c pre), post.
    + intros (pre & post & H). destruct pre as [|c' pre]; simpl in H.
      * left. now exists post.
      * right. injection H as _ ->. now exists pre, post.
Qed.

Lemma contains_lower_iff (needle text : string) :
  contains (lower needle) (lower text) = true <-> occurs_ignoring_case needle text.
Proof.
  rewrite contains_spec. unfold occurs_ignoring_case. split.
  - intros (pre & post & H).
    apply lower_inv_app in H as (pre' & rest & -> & Hpre & Hrest).
    apply lower_inv_app in Hrest as (mid & post' & -> & Hmid & Hpost).
    now exists pre', mid, post'.
  - intros (pre & mid & post & -> & Hmid).
    exists (lower pre), (lower post). now rewrite !lower_app, Hmid.
Qed.

Lemma contains_lower_false (needle text : string) :
  ~ occurs_ignoring_case needle text -> contains (lower needle) (lower text) = false.
Proof.
  intros H. destruct (contains (lower needle) (lower text)) eqn:E; [|reflexivity].
  now apply contains_lower_iff in E.
Qed.

(** ** C8: the power state *)



(** ** C7: the event log parser *)

(** A loop that appends [f x] for the elements it keeps. *)
Lemma fold_left_append {A B} (keep : A -> bool) (f : A -> B) (step : list B -> A -> list B) :
  (forall acc x, step acc x = if keep x then (acc ++ [f x])%list else acc) ->
  forall l acc, fold_left step l acc = (acc ++ map f (filter keep l))%list.
Proof.
  intros Hstep l; induction l as [|x l IH]; intros acc; simpl.
  - now rewrite app_nil_r.
  - rewrite IH, Hstep. destruct (keep x); simpl; [|reflexivity].
    now rewrite <- app_assoc.
Qed.

Lemma parse_sel_line_step (events : list value) (line : string) :
  parse_sel_line events line
  = if sel_line_kept line then (events ++ [sel_entry line])%list else events.
Proof.
  unfold parse_sel_line, sel_line_kept, sel_entry. simpl truthy.
  rewrite length_map.
  destruct (String.eqb (strip line) ""); simpl; [reflexivity|].
  destruct (length (split_on "|" line)) as [|[|[|[|n]]]]; reflexivity.
Qed.

(** C7, as the code has it.  For every text and every limit [n >= 0],
    the parser reads the first [n] raw lines only, and among them
    exactly the lines that are not blank and have at least 4 fields
    between bars give an entry, in order; the other lines are dropped
    and nothing is raised.  A negative limit is a slice bound: for
    [n < 0] the parser reads every raw line but the last [-n], in the
    same way. *)
Theorem parse_sel_output_first_lines (output : string) (n : Z) :
  ((0 <= n)%Z ->
   _parse_sel_output output (VInt n)
   = Ok (map sel_entry
           (filter sel_line_kept (firstn (Z.to_nat n) (split_on newline output)))))
  /\ ((n < 0)%Z ->
      _parse_sel_output output (VInt n)
      = Ok (map sel_entry
              (filter sel_line_kept
                 (firstn (length (split_on newline output) - Z.to_nat (- n))
                    (split_on newline output))))).
Proof.
  unfold _parse_sel_output, slice_to, take_int. cbn [rbind].
  rewrite !(fold_left_append sel_line_kept sel_entry _ parse_sel_line_step).
  split; intros Hn.
  - apply Z.leb_le in Hn. now rewrite Hn.
  - apply Z.leb_gt in Hn. now rewrite Hn.
Qed.

Lemma parse_sel_output_first_lines_witness :
  let text :=
    String.concat (String newline "")
      ["1 | 01/02/2024 | 10:00:00 | Fan 1 | Lower Critical | Asserted";
       "";
       "2 | 01/02/2024";
       "3 | 01/02/2024 | 10:05:00 | Temp | Upper Critical | Asserted"] in
  let first :=
    VDict [("id", VStr "1"); ("timestamp", VStr "01/02/2024 10:00:00");
           ("sensor", VStr "Fan 1"); ("event", VStr "Lower Critical");
           ("value", VStr "Asserted")] in
  _parse_sel_output text (VInt 3) = Ok [first]
  /\ _parse_sel_output text (VInt (-3)) = Ok [first].
Proof.
  intros text first. split.
  - rewrite (proj1 (parse_sel_output_first_lines text 3)); [reflexivity | lia].
  - rewrite (proj2 (parse_sel_output_first_lines text (-3))); [reflexivity | lia].
Defined.

(** With the limit [-1] the parser does not stop before the first line:
    it gives the entries of all lines but the last one, where the first
    [n] lines for a count [n] that is not positive are no line at all. *)
Lemma negative_limit_reads_all_but_last_line :
  let text :=
    String.concat (String newline "")
      ["1 | 01/02/2024 | 10:00:00 | Fan 1 | Lower Critical | Asserted";
       "2 | 01/02/2024 | 10:05:00 | Temp | Upper Critical | Asserted";
       "3 | 01/02/2024 | 10:09:00 | PSU | Failure | Asserted"] in
  _parse_sel_output text (VInt (-1))
  = Ok [VDict [("id", VStr "1"); ("timestamp", VStr "01/02/2024 10:00:00");
               ("sensor", VStr "Fan 1"); ("event", VStr "Lower Critical");
               ("value", VStr "Asserted")];
        VDict [("id", VStr "2"); ("timestamp", VStr "01/02/2024 10:05:00");
               ("sensor", VStr "Temp"); ("event", VStr "Upper Critical");
               ("value", VStr "Asserted")]]
  /\ firstn (Z.to_nat (-1)) (split_on newline text) = [].
Proof. split; reflexivity. Qed.

(** ** C5: the multi-server variable *)

Lemma dict_get_set_same (d : dict) (k : string) (v : value) :
  dict_get (dict_set d k v) k = Some v.
Proof.
  induction d as [|[k' v'] d IH]; simpl.
  - now rewrite String.eqb_refl.
  - destruct (String.eqb k' k) eqn:E; simpl.
    + now rewrite String.eqb_refl.
    + now rewrite E.
Qed.

Lemma dict_get_set_other (d : dict) (k k' : string) (v : value) :
  k <> k' -> dict_get (dict_set d k v) k' = dict_get d k'.
Proof.
  intros Hne. induction d as [|[k0 v0] d IH]; simpl.
  - apply String.eqb_neq in Hne. now rewrite Hne.
  - destruct (String.eqb k0 k) eqn:E; simpl.
    + apply String.eqb_eq in E; subst k0.
      apply String.eqb_neq in Hne. now rewrite Hne.
    + destruct (String.eqb k0 k'); [reflexivity | exact IH].
Qed.

Lemma parse_host_config_other (env : Env) (d : dict) (id e : string) :
  ~ accepted_as id e ->
  dict_get (parse_host_config env d e) id = dict_get d id.
Proof.
  unfold accepted_as, parse_host_config. intros H.
  destruct (4 <=? length (split_on ":" (strip e))) eqn:E4.
  - apply Nat.leb_le in E4. apply dict_get_set_other.
    intros Heq. apply H. auto.
  - destruct (length (split_on ":" (strip e)) =? 2) eqn:E2; [|reflexivity].
    apply Nat.eqb_eq in E2. apply dict_get_set_other.
    intros Heq. apply H. auto.
Qed.

Lemma parse_rest_other (env : Env) (id : string) (post : list string) (d : dict) :
  (forall e, In e post -> ~ accepted_as id e) ->
  dict_get (fold_left (parse_host_config env) post d) id = dict_get d id.
Proof.
  revert d; induction post as [|e post IH]; intros d H; simpl; [reflexivity|].
  rewrite IH by (intros e' He'; apply H; now right).
  apply parse_host_config_other, H. now left.
Qed.

(** C5, as the code has it.  In the registry read from a multi-server
    value: an entry with 4 or more parts [id:host:user:pass...] maps
    [id] to the host, user and password of its first four parts; an
    entry with exactly 2 parts [id:host] maps [id] to that host with
    the user and the password of the single-server variables, each
    ["admin"] when unset; both provided that no later accepted entry
    has the same [id]; and an [id] that only entries of 1 or 3 parts
    (or none) carry is not in the registry.  The parser is a total
    function: nothing is raised. *)
Theorem parse_multi_server_env_entries (env : Env) (ipmi_hosts id : string) :
  (forall pre e post h u p rest,
      split_on "," ipmi_hosts = (pre ++ e :: post)%list ->
      split_on ":" (strip e) = id :: h :: u :: p :: rest ->
      (forall e', In e' post -> ~ accepted_as id e') ->
      dict_get (_parse_multi_server_env env ipmi_hosts) id
      = Some (VDict [("hostname", VStr h); ("username", VStr u); ("password", VStr p)]))
  /\ (forall pre e post h,
      split_on "," ipmi_hosts = (pre ++ e :: post)%list ->
      split_on ":" (strip e) = [id; h] ->
      (forall e', In e' post -> ~ accepted_as id e') ->
      dict_get (_parse_multi_server_env env ipmi_hosts) id
      = Some (VDict [("hostname", VStr h);
                     ("username", VStr (environ_get env "IPMI_USER" "admin"));
                     ("password", VStr (environ_get env "IPMI_PASSWORD" "admin"))]))
  /\ ((forall e, In e (split_on "," ipmi_hosts) -> ~ accepted_as id e) ->
      dict_get (_parse_multi_server_env env ipmi_hosts) id = None).
Proof.
  unfold _parse_multi_server_env. repeat split.
  - intros pre e post h u p rest Hsplit Hparts Hpost.
    rewrite Hsplit, fold_left_app. simpl.
    rewrite parse_rest_other by exact Hpost.
    unfold parse_host_config. rewrite Hparts. simpl.
    apply dict_get_set_same.
  - intros pre e post h Hsplit Hparts Hpost.
    rewrite Hsplit, fold_left_app. simpl.
    rewrite parse_rest_other by exact Hpost.
    unfold parse_host_config. rewrite Hparts. simpl.
    apply dict_get_set_same.
  - intros H. now rewrite parse_rest_other.
Qed.

Lemma parse_multi_server_env_entries_witness :
  let env := env_multi in
  let hosts := "a:10.0.0.1:u:p, b:10.0.0.2 ,bad,c:1:2" in
  dict_get (_parse_multi_server_env env hosts) "a"
  = Some (VDict [("hostname", VStr "10.0.0.1"); ("username", VStr "u"); ("password", VStr "p")])
  /\ dict_get (_parse_multi_server_env env hosts) "b"
     = Some (VDict [("hostname", VStr "10.0.0.2"); ("username", VStr "admin");
                    ("password", VStr "admin")])
  /\ dict_get (_parse_multi_server_env env hosts) "c" = None.
Proof.
  intros env hosts. split; [|split].
  - apply (proj1 (parse_multi_server_env_entries env hosts "a")
             [] "a:10.0.0.1:u:p" [" b:10.0.0.2 "; "bad"; "c:1:2"] "10.0.0.1" "u" "p" []);
      [reflexivity | reflexivity |].
    intros e' [<-|[<-|[<-|[]]]] [Hlen Hid]; vm_compute in Hid; discriminate.
  - apply (proj1 (proj2 (parse_multi_server_env_entries env hosts "b"))
             ["a:10.0.0.1:u:p"] " b:10.0.0.2 " ["bad"; "c:1:2"] "10.0.0.2");
      [reflexivity | reflexivity |].
    intros e' [<-|[<-|[]]] [Hlen Hid]; vm_compute in Hid; discriminate.
  - apply (proj2 (proj2 (parse_multi_server_env_entries env hosts "c"))).
    intros e' [<-|[<-|[<-|[<-|[]]]]] [Hlen Hid]; vm_compute in Hid; try discriminate.
    vm_compute in Hlen. lia.
Defined.

(** An entry with 5 parts is not skipped: its first four parts give a
    registry entry. *)
Lemma five_part_entry_is_kept :
  length (split_on ":" (strip "a:10.0.0.1:u:p:extra")) = 5
  /\ dict_get (_parse_multi_server_env env_multi "a:10.0.0.1:u:p:extra") "a"
     = Some (VDict [("hostname", VStr "10.0.0.1"); ("username", VStr "u");
                    ("password", VStr "p")]).
Proof. split; reflexivity. Qed.

(** ** The registry has distinct identifiers *)

Lemma dict_set_keys (d : dict) (k : string) (v : value) :
  dict_keys (dict_set d k v)
  = if has_key d k then dict_keys d else (dict_keys d ++ [k])%list.
Proof.
  unfold has_key. induction d as [|[k' v'] d IH]; simpl; [reflexivity|].
  destruct (String.eqb_spec k' k); simpl.
  - now subst.
  - rewrite IH. now destruct (dict_get d k).
Qed.

Lemma has_key_in_keys (d : dict) (k : string) :
  has_key d k = true <-> In k (dict_keys d).
Proof.
  unfold has_key. induction d as [|[k' v'] d IH]; simpl.
  - split; [discriminate | contradiction].
  - destruct (String.eqb_spec k' k).
    + split; auto.
    + rewrite IH. split; [auto | intros [?|?]; [contradiction | assumption]].
Qed.

Lemma dict_set_distinct (d : dict) (k : string) (v : value) :
  NoDup (dict_keys d) -> NoDup (dict_keys (dict_set d k v)).
Proof.
  intros Hnd. rewrite dict_set_keys. destruct (has_key d k) eqn:E; [assumption|].
  apply NoDup_app; [assumption | repeat constructor; simpl; tauto |].
  intros a Ha [<-|[]]. apply has_key_in_keys in Ha. congruence.
Qed.

Lemma parse_multi_server_env_distinct (env : Env) (ipmi_hosts : string) :
  NoDup (dict_keys (_parse_multi_server_env env ipmi_hosts)).
Proof.
  unfold _parse_multi_server_env.
  assert (H : forall l d, NoDup (dict_keys d) ->
                          NoDup (dict_keys (fold_left (parse_host_config env) l d))).
  { induction l as [|e l IH]; intros d Hd; simpl; [assumption|].
    apply IH. unfold parse_host_config.
    repeat match goal with
           | |- context [if ?b then _ else _] => destruct b
           end; auto using dict_set_distinct. }
  apply H. constructor.
Qed.

Lemma init_servers_config (env : Env) (sid : option string) (base : IPMIService) :
  IPMIService_init env sid = Ok base ->
  _load_config env (environ_get env "IPMI_CONFIG_PATH" default_config_path)
  = Ok (servers_config base).
Proof.
  unfold IPMIService_init.
  destruct (_load_config env _) as [sc|]; [|discriminate]. cbn [rbind].
  destruct (given sid).
  - destruct (py_in _ sc) as [found|]; [|discriminate]. cbn [rbind].
    destruct (negb found); [discriminate|].
    destruct (py_getitem sc _); [|discriminate]. now intros [= <-].
  - destruct (is_single_server sc); [now intros [= <-]|].
    destruct (py_keys sc) as [[|first rest]|]; try discriminate. cbn [rbind].
    destruct (py_getitem sc first); [|discriminate]. now intros [= <-].
Qed.

Lemma load_config_env_distinct (env : Env) (path : string) (sc : value) :
  file_at env path = NoFile ->
  _load_config env path = Ok sc ->
  exists d, sc = VDict d /\ NoDup (dict_keys d).
Proof.
  intros Hfile. unfold _load_config. rewrite Hfile.
  assert (Hsingle : _load_single_server_env env path = Ok sc ->
                    exists d, sc = VDict d /\ NoDup (dict_keys d)).
  { unfold _load_single_server_env.
    destruct (filter _ required_fields); [|discriminate].
    intros [= <-]. eexists. split; [reflexivity|].
    repeat constructor; simpl; intuition discriminate. }
  destruct (environ env "IPMI_HOSTS") as [hosts|]; [|exact Hsingle].
  destruct (truthy (VStr hosts)); [|exact Hsingle].
  intros [= <-]. eexists. split; [reflexivity|].
  apply parse_multi_server_env_distinct.
Qed.

(** Without a configuration file, the dispatcher lists every server once. *)
Lemma fleet_servers_distinct (env : Env) (fleet : MultiServerIPMIService) :
  file_at env (environ_get env "IPMI_CONFIG_PATH" default_config_path) = NoFile ->
  MultiServerIPMIService_init env = Ok fleet ->
  NoDup (servers fleet).
Proof.
  intros Hfile. unfold MultiServerIPMIService_init.
  destruct (IPMIService_init env None) as [base|] eqn:Einit; [|discriminate].
  cbn [rbind]. apply init_servers_config in Einit.
  destruct (load_config_env_distinct _ _ _ Hfile Einit) as (d & Hsc & Hd).
  unfold get_available_servers. rewrite Hsc.
  destruct (is_single_server (VDict d)); cbn [rbind py_keys];
    intros [= <-]; cbn [servers]; [|assumption].
  repeat constructor; simpl; tauto.
Qed.

(** ** The runner *)

Lemma py_join_from_strs (l : list string) (i : nat) :
  py_join_from i (map VStr l) = Ok l.
Proof.
  revert i; induction l as [|x l IH]; intros i; simpl; [reflexivity|].
  now rewrite IH.
Qed.

Lemma py_join_cmd (sep h u p command : string) :
  exists text,
    py_join sep (ipmitool_cmd (VStr h) (VStr u) (VStr p) command) = Ok text.
Proof.
  unfold py_join, ipmitool_cmd. simpl. rewrite py_join_from_strs. simpl. eauto.
Qed.

Lemma profile_fields (self : IPMIService) (h u p : string) :
  profile self = Some (h, u, p) ->
  py_getitem (config self) "hostname" = Ok (VStr h)
  /\ py_getitem (config self) "username" = Ok (VStr u)
  /\ py_getitem (config self) "password" = Ok (VStr p).
Proof.
  unfold profile, py_getitem. destruct (config self); try discriminate.
  destruct (dict_get d "hostname") as [[]|]; try discriminate.
  destruct (dict_get d "username") as [[]|]; try discriminate.
  destruct (dict_get d "password") as [[]|]; try discriminate.
  intros [= -> -> ->]. auto.
Qed.

Section ServiceProperties.

Variable World : Type.
Variable tool : list value -> Z -> World -> proc_outcome * World.

Local Abbreviation exec := (_execute_ipmi_command World tool).

(** With a hostname in the bound configuration the runner returns a
    command result, whatever the tool does. *)
Lemma execute_total (self : IPMIService) (command : string) (timeout : Z)
    (hn : value) (s : sys World) :
  py_getitem (config self) "hostname" = Ok hn ->
  exists b out err s',
    exec self command timeout s = (Ok (command_result self b out err hn), s').
Proof.
  intros H. unfold _execute_ipmi_command, try_except, bind, lift, ret, subprocess_run.
  rewrite H.
  destruct (py_getitem (config self) "username") as [un|e]; [|destruct e; eauto 6].
  destruct (py_getitem (config self) "password") as [pw|e]; [|destruct e; eauto 6].
  destruct (py_join _ _) as [text|e]; [|destruct e; eauto 6].
  destruct (tool _ timeout (world s)) as [o w].
  destruct o as [rc out err | msg | msg]; [|eauto 6..].
  destruct (rc =? 0)%Z; eauto 6.
Qed.

(** Without one it raises what the lookup raises, before any invocation. *)
Lemma execute_raises (self : IPMIService) (command : string) (timeout : Z)
    (e : exn) (s : sys World) :
  py_getitem (config self) "hostname" = Raise e ->
  exec self command timeout s = (Raise e, s).
Proof.
  intros H. unfold _execute_ipmi_command, try_except, bind, lift, ret.
  now rewrite H.
Qed.

(** The run of the runner on a connection profile, in full. *)
Lemma execute_on_profile (self : IPMIService) (command : string)
    (timeout : Z) (h u p : string) (s : sys World) :
  profile self = Some (h, u, p) ->
  exec self command timeout s
  = (Ok (normalized self (VStr h)
           (fst (tool (ipmitool_cmd (VStr h) (VStr u) (VStr p) command) timeout (world s)))),
     {| world := snd (tool (ipmitool_cmd (VStr h) (VStr u) (VStr p) command)
                        timeout (world s));
        calls := (calls s ++ [(ipmitool_cmd (VStr h) (VStr u) (VStr p) command,
                               timeout)])%list |}).
Proof.
  intros Hp. destruct (profile_fields _ _ _ _ Hp) as (Hh & Hu & Hpw).
  destruct (py_join_cmd " " h u "[HIDDEN]" command) as [text Hjoin].
  unfold _execute_ipmi_command, try_except, bind, lift, ret, subprocess_run.
  rewrite Hh, Hu, Hpw, Hjoin.
  destruct (tool _ timeout (world s)) as [o w]. simpl.
  destruct o as [rc out err | msg | msg]; simpl; try reflexivity.
  destruct (rc =? 0)%Z; reflexivity.
Qed.

(** C6, as the code has it.  On a connection profile the tool is run
    once and its outcome is normalised by case: exit status 0 gives
    success with the trimmed standard output and no error; any other
    exit status gives failure with the trimmed standard output kept and
    the trimmed standard error as the error; a timeout gives failure
    with an empty output and the error "Command timed out"; any other
    exception gives failure with its message as the error.  Whenever
    the bound configuration has a hostname the runner returns a command
    result: it does not raise.  When the lookup of the hostname raises,
    the handlers of the runner look it up again: the runner raises that
    exception, and the tool is not run. *)
Theorem execute_ipmi_command_normalizes (self : IPMIService) (command : string)
    (timeout : Z) (s : sys World) :
  (forall h u p,
      profile self = Some (h, u, p) ->
      let cmd := ipmitool_cmd (VStr h) (VStr u) (VStr p) command in
      exec self command timeout s
      = (Ok (match fst (tool cmd timeout (world s)) with
             | Completed returncode stdout stderr =>
                 if (returncode =? 0)%Z
                 then [("success", VBool true); ("output", VStr (strip stdout));
                       ("error", VNone); ("server_id", server_id_value self);
                       ("hostname", VStr h)]
                 else [("success", VBool false); ("output", VStr (strip stdout));
                       ("error", VStr (strip stderr)); ("server_id", server_id_value self);
                       ("hostname", VStr h)]
             | TimedOut _ =>
                 [("success", VBool false); ("output", VStr "");
                  ("error", VStr "Command timed out"); ("server_id", server_id_value self);
                  ("hostname", VStr h)]
             | Failed msg =>
                 [("success", VBool false); ("output", VStr "");
                  ("error", VStr msg); ("server_id", server_id_value self);
                  ("hostname", VStr h)]
             end),
         {| world := snd (tool cmd timeout (world s));
            calls := (calls s ++ [(cmd, timeout)])%list |}))
  /\ (forall hn,
        py_getitem (config self) "hostname" = Ok hn ->
        exists b out err s',
          exec self command timeout s = (Ok (command_result self b out err hn), s'))
  /\ (forall e,
        py_getitem (config self) "hostname" = Raise e ->
        exec self command timeout s = (Raise e, s)).
Proof.
  split; [|split].
  - intros h u p Hp cmd. exact (execute_on_profile self command timeout h u p s Hp).
  - intros hn Hh. exact (execute_total self command timeout hn s Hh).
  - intros e Hr. exact (execute_raises self command timeout e s Hr).
Qed.

(** Whatever the runner returns is a command result. *)
Lemma execute_shape (self : IPMIService) (command : string) (timeout : Z)
    (s s' : sys World) (raw : dict) :
  exec self command timeout s = (Ok raw, s') ->
  exists b out err hn, raw = command_result self b out err hn.
Proof.
  intros H. destruct (py_getitem (config self) "hostname") as [hn|e] eqn:Hh.
  - destruct (execute_total self command timeout hn s Hh) as (b & out & err & s1 & E).
    rewrite E in H. injection H as <- _. eauto.
  - rewrite (execute_raises self command timeout e s Hh) in H. discriminate.
Qed.

Lemma getitem_success (self : IPMIService) b out err hn :
  py_getitem (VDict (command_result self b out err hn)) "success" = Ok (VBool b).
Proof. reflexivity. Qed.

Lemma getitem_output (self : IPMIService) b out err hn :
  py_getitem (VDict (command_result self b out err hn)) "output" = Ok (VStr out).
Proof. reflexivity. Qed.

Lemma getitem_error (self : IPMIService) b out err hn :
  py_getitem (VDict (command_result self b out err hn)) "error" = Ok err.
Proof. reflexivity. Qed.

(** One step of an operation on a known command result. *)
Ltac step_op :=
  first [ rewrite getitem_success | rewrite getitem_output | rewrite getitem_error ];
  cbv beta iota zeta delta [truthy str_of _parse_sel_output slice_to rbind].

Ltac derive_from_raw Hexec :=
  let b := fresh "b" in
  destruct (execute_shape _ _ _ _ _ _ Hexec) as (b & ? & ? & ? & ->);
  unfold bind, lift, ret; rewrite Hexec;
  destruct b; repeat step_op;
  (eexists; split; [reflexivity|]; split; [|split];
   [ intros f Hf; simpl in Hf;
     repeat match goal with H : _ \/ _ |- _ => destruct H end;
     subst; try contradiction; reflexivity
   | intros H; try reflexivity; compute in H; discriminate H
   | intros k Hk;
     repeat (rewrite dict_get_set_other
               by (intros <-; apply Hk; simpl; tauto));
     reflexivity ]).

(** C10. Each parsing operation returns the derived field(s) exactly
    when the underlying command succeeded: [power_state] for the power
    status, [sensors] and [sensor_count] for the sensors, [events] and
    [event_count] for the event log, [boot_device] for the boot device;
    when the command fails its raw result is returned unchanged. *)
Theorem parsing_operations_derive_on_success (self : IPMIService) (limit : Z) :
  derives World tool self (get_power_status World tool self)
    "chassis power status" 30 ["power_state"]
  /\ derives World tool self (get_sensor_data World tool self)
       "sensor" 45 ["sensors"; "sensor_count"]
  /\ derives World tool self (get_system_event_log World tool self (VInt limit))
       "sel list" 30 ["events"; "event_count"]
  /\ derives World tool self (get_boot_device World tool self)
       "chassis bootparam get 5" 30 ["boot_device"].
Proof.
  unfold derives. split; [|split; [|split]]; intros s.
  - destruct (exec self "chassis power status" 30 s) as [[raw|e] s'] eqn:Hexec.
    + unfold get_power_status. derive_from_raw Hexec.
    + unfold get_power_status, bind. now rewrite Hexec.
  - destruct (exec self "sensor" 45 s) as [[raw|e] s'] eqn:Hexec.
    + unfold get_sensor_data. derive_from_raw Hexec.
    + unfold get_sensor_data, bind. now rewrite Hexec.
  - destruct (exec self "sel list" 30 s) as [[raw|e] s'] eqn:Hexec.
    + unfold get_system_event_log. derive_from_raw Hexec.
    + unfold get_system_event_log, bind. now rewrite Hexec.
  - destruct (exec self "chassis bootparam get 5" 30 s) as [[raw|e] s'] eqn:Hexec.
    + unfold get_boot_device. derive_from_raw Hexec.
    + unfold get_boot_device, bind. now rewrite Hexec.
Qed.

(** ** C9: the system information *)

Lemma normalized_shape (self : IPMIService) (hn : value) (o : proc_outcome) :
  exists b out err, normalized self hn o = command_result self b out err hn.
Proof.
  destruct o as [rc out err | msg | msg]; simpl; eauto.
  destruct (rc =? 0)%Z; eauto.
Qed.

Lemma all_success_results (rs : list dict) :
  (forall r, In r rs -> exists b, dict_get r "success" = Some (VBool b)) ->
  all_success (map VDict rs) = Ok (forallb succeeded rs).
Proof.
  induction rs as [|r rs IH]; intros H; simpl; [reflexivity|].
  destruct (H r (or_introl eq_refl)) as [b Hb].
  unfold succeeded. rewrite Hb. simpl. destruct b; [|reflexivity].
  apply IH. intros r' Hr'. apply H. now right.
Qed.

(** C9, as the code has it.  Whenever the bound configuration has a
    hostname, [get_system_info] invokes the runner exactly four times,
    in this order: [fru], [bmc info], [chassis status] and [fru print].
    Its result holds the four sub-results, one per key, however many of
    them failed, and its success flag is true exactly when all four
    sub-results succeeded.  On a connection profile these are four
    invocations of the tool.  When the lookup of the hostname raises,
    [get_system_info] raises that exception at the first sub-command:
    it returns no result and runs nothing. *)
Theorem get_system_info_runs_four_commands (self : IPMIService) (s : sys World) :
  (forall hn,
      py_getitem (config self) "hostname" = Ok hn ->
      exists r1 s1 r2 s2 r3 s3 r4 s4,
        exec self "fru" 30 s = (Ok r1, s1)
        /\ exec self "bmc info" 30 s1 = (Ok r2, s2)
        /\ exec self "chassis status" 30 s2 = (Ok r3, s3)
        /\ exec self "fru print" 30 s3 = (Ok r4, s4)
        /\ get_system_info World tool self s
           = (Ok [("success",
                   VBool (succeeded r1 && succeeded r2 && succeeded r3 && succeeded r4));
                  ("system_info",
                   VDict [("fru", VDict r1); ("bmc_info", VDict r2);
                          ("chassis_status", VDict r3); ("system_info", VDict r4)]);
                  ("server_id", server_id_value self);
                  ("hostname", hn)],
              s4)
        /\ (forall h u p,
              profile self = Some (h, u, p) ->
              calls s4
              = (calls s
                 ++ [(ipmitool_cmd (VStr h) (VStr u) (VStr p) "fru", 30%Z);
                     (ipmitool_cmd (VStr h) (VStr u) (VStr p) "bmc info", 30%Z);
                     (ipmitool_cmd (VStr h) (VStr u) (VStr p) "chassis status", 30%Z);
                     (ipmitool_cmd (VStr h) (VStr u) (VStr p) "fru print", 30%Z)])%list))
  /\ (forall e,
        py_getitem (config self) "hostname" = Raise e ->
        get_system_info World tool self s = (Raise e, s)).
Proof.
  split.
  - intros hn Hh.
    destruct (execute_total self "fru" 30 hn s Hh) as (b1 & o1 & e1 & s1 & E1).
    destruct (execute_total self "bmc info" 30 hn s1 Hh) as (b2 & o2 & e2 & s2 & E2).
    destruct (execute_total self "chassis status" 30 hn s2 Hh) as (b3 & o3 & e3 & s3 & E3).
    destruct (execute_total self "fru print" 30 hn s3 Hh) as (b4 & o4 & e4 & s4 & E4).
    do 8 eexists.
    split; [exact E1|]. split; [exact E2|]. split; [exact E3|]. split; [exact E4|].
    split.
    + unfold get_system_info, system_info_commands, run_commands, bind, lift, ret.
      rewrite E1. cbv beta iota. rewrite E2. cbv beta iota.
      rewrite E3. cbv beta iota. rewrite E4. cbv beta iota.
      change (dict_values ?d) with (map snd d).
      cbn [dict_set String.eqb Ascii.eqb Bool.eqb map snd].
      match goal with
      | |- context [all_success ?l] =>
          match l with
          | [VDict ?a; VDict ?b; VDict ?c; VDict ?d] =>
              change l with (map VDict [a; b; c; d]);
              rewrite (all_success_results [a; b; c; d])
          end
      end.
      * rewrite Hh. cbn [forallb]. rewrite andb_true_r, !andb_assoc. reflexivity.
      * intros r Hr. simpl in Hr.
        repeat (destruct Hr as [<-|Hr]); try contradiction; eexists; reflexivity.
    + intros h u p Hp.
      pose proof (execute_on_profile self "fru" 30 h u p s Hp) as P1.
      pose proof (execute_on_profile self "bmc info" 30 h u p s1 Hp) as P2.
      pose proof (execute_on_profile self "chassis status" 30 h u p s2 Hp) as P3.
      pose proof (execute_on_profile self "fru print" 30 h u p s3 Hp) as P4.
      rewrite E1 in P1. rewrite E2 in P2. rewrite E3 in P3. rewrite E4 in P4.
      apply (f_equal snd) in P1, P2, P3, P4. cbn [snd] in P1, P2, P3, P4.
      rewrite P4. cbn [calls]. rewrite P3. cbn [calls].
      rewrite P2. cbn [calls]. rewrite P1. cbn [calls].
      rewrite <- !app_assoc. reflexivity.
  - intros e Hr. unfold get_system_info, system_info_commands. cbn [run_commands].
    unfold bind. now rewrite (execute_raises self "fru" 30 e s Hr).
Qed.

(** ** C3: the boot device *)

Lemma is_space_lower_char (c : ascii) : is_space (lower_char c) = is_space c.
Proof.
  destruct c as [[] [] [] [] [] [] [] []]; reflexivity.
Qed.

Lemma has_space_lower (s : string) : has_space (lower s) = has_space s.
Proof.
  induction s as [|c s IH]; simpl; [reflexivity|].
  now rewrite is_space_lower_char, IH.
Qed.

Lemma valid_device_word (device : string) :
  existsb (String.eqb (lower device)) valid_devices = true ->
  has_space device = false /\ device <> "".
Proof.
  intros H. apply existsb_exists in H as (v & Hin & Heq).
  apply String.eqb_eq in Heq. split.
  - rewrite <- has_space_lower, Heq. simpl in Hin.
    repeat (destruct Hin as [<-|Hin]; [reflexivity|]). contradiction.
  - intros ->. simpl in Heq. subst v. simpl in Hin.
    repeat (destruct Hin as [Hin|Hin]; [discriminate|]). contradiction.
Qed.

Lemma split_ws_cons (c c' : ascii) (t : string) :
  is_space c = false -> is_space c' = false ->
  split_ws (String c (String c' t))
  = match split_ws (String c' t) with
    | w :: ws => String c w :: ws
    | [] => [String c ""]
    end.
Proof.
  intros Hc Hc'.
  change (split_ws (String c (String c' t)))
    with (if is_space c then split_ws (String c' t)
          else if is_space c' then String c "" :: split_ws (String c' t)
               else match split_ws (String c' t) with
                    | w :: ws => String c w :: ws
                    | [] => [String c ""]
                    end).
  now rewrite Hc, Hc'.
Qed.

Lemma split_ws_word (w rest : string) :
  has_space w = false -> w <> "" ->
  split_ws (w ++ String " " rest) = w :: split_ws rest.
Proof.
  induction w as [|c w IH]; intros Hs Hne; [contradiction|].
  simpl in Hs. apply orb_false_iff in Hs as [Hc Hw].
  destruct w as [|c' w].
  - simpl. now rewrite Hc.
  - assert (Hc' : is_space c' = false)
      by (simpl in Hw; now apply orb_false_iff in Hw).
    change (String c (String c' w) ++ String " " rest)
      with (String c (String c' (w ++ String " " rest))).
    rewrite split_ws_cons by assumption.
    change (String c' (w ++ String " " rest)) with (String c' w ++ String " " rest).
    rewrite IH by (auto; discriminate). reflexivity.
Qed.

(** The words of the boot-device command of an accepted device. *)
Lemma bootdev_words (device options : string) :
  existsb (String.eqb (lower device)) valid_devices = true ->
  options = "options=persistent" \/ options = "options=efiboot" ->
  split_ws ("chassis bootdev " ++ device ++ " " ++ options)
  = ["chassis"; "bootdev"; device; options].
Proof.
  intros Hv Ho. destruct (valid_device_word device Hv) as [Hs Hne].
  change ("chassis bootdev " ++ device ++ " " ++ options)
    with ("chassis" ++ String " " ("bootdev" ++ String " " (device ++ String " " options))).
  rewrite !split_ws_word by (auto; discriminate).
  destruct Ho as [-> | ->]; reflexivity.
Qed.

(** C3, as the code has it.  On a connection profile, a device whose
    lower-casing is outside [pxe, disk, cdrom, bios, floppy, safe] gives
    a validation failure and the tool is not run; a device whose
    lower-casing is inside runs the tool exactly once, and the argument
    that names the device is the device as the caller wrote it. *)
Theorem set_boot_device_behaviour (self : IPMIService) (device : string)
    (persistent : bool) (h u p : string) (s : sys World) :
  profile self = Some (h, u, p) ->
  let options := if persistent then "options=persistent" else "options=efiboot" in
  let cmd := [VStr "ipmitool"; VStr "-I"; VStr "lanplus"; VStr "-H"; VStr h;
              VStr "-U"; VStr u; VStr "-P"; VStr p;
              VStr "chassis"; VStr "bootdev"; VStr device; VStr options] in
  (existsb (String.eqb (lower device)) valid_devices = false ->
   set_boot_device World tool self (VStr device) (VBool persistent) s
   = (Ok [("success", VBool false);
          ("error", VStr ("Invalid boot device '" ++ device
                          ++ "'. Valid options: pxe, disk, cdrom, bios, floppy, safe"));
          ("server_id", server_id_value self);
          ("hostname", VStr h)],
      s))
  /\ (existsb (String.eqb (lower device)) valid_devices = true ->
      set_boot_device World tool self (VStr device) (VBool persistent) s
      = (Ok (normalized self (VStr h) (fst (tool cmd 30%Z (world s)))),
         {| world := snd (tool cmd 30%Z (world s));
            calls := (calls s ++ [(cmd, 30%Z)])%list |})).
Proof.
  intros Hp options cmd. destruct (profile_fields _ _ _ _ Hp) as (Hh & _).
  unfold set_boot_device, bind, lift, ret, str_of. split; intros Hv; rewrite Hv.
  - cbn [negb]. rewrite Hh. reflexivity.
  - cbn [negb truthy]. fold options.
    rewrite (execute_on_profile _ _ _ _ _ _ _ Hp).
    unfold ipmitool_cmd.
    rewrite (bootdev_words device options Hv)
      by (unfold options; destruct persistent; auto).
    reflexivity.
Qed.

(** ** C4: the identifier of the single server *)

(** C4, as the code has it.  When the loaded configuration is a
    single-server one (a mapping with a [hostname] field, and no field
    called [default]), the service lists the identifier ["default"],
    yet the lookup of ["default"] raises: the identifier is searched
    among the field names of the profile.  Every broadcast therefore
    records a failure for ["default"] without running the tool. *)
Theorem single_server_default_not_found (env : Env) (d : dict) :
  _load_config env (environ_get env "IPMI_CONFIG_PATH" default_config_path) = Ok (VDict d) ->
  has_key d "hostname" = true ->
  has_key d "default" = false ->
  IPMIService_init env (Some "default")
  = Raise (ValueError "Server 'default' not found in configuration")
  /\ (exists fleet,
        MultiServerIPMIService_init env = Ok fleet /\ servers fleet = ["default"])
  /\ (forall operation kwargs s,
        dispatch World tool env operation kwargs "default" s
        = (Ok (VDict [("success", VBool false);
                      ("error", VStr "Server 'default' not found in configuration");
                      ("server_id", VStr "default")]),
           s)).
Proof.
  intros Hload Hhost Hdef.
  assert (Hinit : IPMIService_init env (Some "default")
                  = Raise (ValueError "Server 'default' not found in configuration")).
  { unfold IPMIService_init. rewrite Hload. simpl. now rewrite Hdef. }
  split; [exact Hinit|]. split.
  - unfold MultiServerIPMIService_init, IPMIService_init, get_available_servers.
    rewrite Hload. simpl. rewrite Hhost. simpl. rewrite Hhost. simpl.
    eexists; split; reflexivity.
  - intros operation kwargs s.
    unfold dispatch, attempt, try_except, bind, lift, get_service_for_server.
    now rewrite Hinit.
Qed.

(** ** The results of the operations *)

Ltac run_exec Hh :=
  match goal with
  | |- context [_execute_ipmi_command _ _ ?self ?c ?t ?s] =>
      let b := fresh "b" in
      let E := fresh "E" in
      destruct (execute_total self c t _ s Hh) as (b & ? & ? & ? & E);
      rewrite E; clear E
  end.

Ltac run_op Hh :=
  unfold bind, lift, ret, try_except;
  repeat first
    [ rewrite Hh
    | run_exec Hh
    | step_op
    | progress cbv beta iota
    | match goal with
      | |- context [if ?b then _ else _] => is_var b; destruct b
      end ].

Ltac returned := unfold returns_with; do 2 eexists; split; reflexivity.

Section WithHostname.

Variable self : IPMIService.
Variable hn : value.
Hypothesis Hh : py_getitem (config self) "hostname" = Ok hn.

Lemma power_on_attributed s :
  returns_with (fun r => attributed r = true) (power_on World tool self s).
Proof. unfold power_on. run_op Hh. returned. Qed.

Lemma power_off_attributed force s :
  returns_with (fun r => attributed r = true) (power_off World tool self force s).
Proof. unfold power_off. destruct (truthy force); run_op Hh; returned. Qed.

Lemma power_reset_attributed s :
  returns_with (fun r => attributed r = true) (power_reset World tool self s).
Proof. unfold power_reset. run_op Hh. returned. Qed.

Lemma clear_system_event_log_attributed s :
  returns_with (fun r => attributed r = true) (clear_system_event_log World tool self s).
Proof. unfold clear_system_event_log. run_op Hh. returned. Qed.

Lemma get_sel_info_attributed s :
  returns_with (fun r => attributed r = true) (get_sel_info World tool self s).
Proof. unfold get_sel_info. run_op Hh. returned. Qed.

Lemma get_power_status_attributed s :
  returns_with (fun r => attributed r = true) (get_power_status World tool self s).
Proof. unfold get_power_status. run_op Hh; returned. Qed.

Lemma get_sensor_data_attributed s :
  returns_with (fun r => attributed r = true) (get_sensor_data World tool self s).
Proof. unfold get_sensor_data. run_op Hh; returned. Qed.

Lemma get_boot_device_attributed s :
  returns_with (fun r => attributed r = true) (get_boot_device World tool self s).
Proof. unfold get_boot_device. run_op Hh; returned. Qed.


Lemma get_system_info_attributed s :
  returns_with (fun r => attributed r = true) (get_system_info World tool self s).
Proof.
  unfold get_system_info, system_info_commands. cbn [run_commands].
  run_op Hh.
  repeat match goal with b : bool |- _ => destruct b end;
    simpl; rewrite ?Hh; returned.
Qed.

Lemma get_system_event_log_attributed limit s :
  returns_with (fun r => attributed r = true)
    (get_system_event_log World tool self limit s)
  \/ raises (get_system_event_log World tool self limit s).
Proof.
  unfold get_system_event_log.
  destruct limit; run_op Hh;
    first [ left; returned | right; unfold raises; do 2 eexists; reflexivity ].
Qed.

Lemma get_system_event_log_int_attributed limit s :
  returns_with (fun r => attributed r = true)
    (get_system_event_log World tool self (VInt limit) s).
Proof. unfold get_system_event_log. run_op Hh; returned. Qed.

Lemma set_boot_device_attributed device persistent s :
  returns_with (fun r => attributed r = true)
    (set_boot_device World tool self device persistent s)
  \/ raises (set_boot_device World tool self device persistent s).
Proof.
  unfold set_boot_device.
  destruct device; unfold bind at 1, lift at 1, str_of; cbv beta iota;
    try (right; unfold raises; do 2 eexists; reflexivity).
  left. destruct (negb _); run_op Hh; returned.
Qed.

Lemma set_boot_device_str_attributed device persistent s :
  returns_with (fun r => attributed r = true)
    (set_boot_device World tool self (VStr device) persistent s).
Proof.
  unfold set_boot_device, str_of. unfold bind at 1, lift at 1. cbv beta iota.
  destruct (negb _); run_op Hh; returned.
Qed.

Lemma check_health_shape s :
  returns_with (fun r => health_shape r = true) (check_health World tool self s).
Proof.
  unfold check_health, get_power_status. run_op Hh; simpl; returned.
Qed.

End WithHostname.

Section WithoutHostname.

Variable self : IPMIService.
Variable e : exn.
Hypothesis Hr : py_getitem (config self) "hostname" = Raise e.

Ltac raise_op :=
  unfold bind, lift, ret, try_except;
  rewrite ?(fun c t s => execute_raises self c t e s Hr), ?Hr;
  unfold raises; do 2 eexists; reflexivity.

Lemma power_on_raises s : raises (power_on World tool self s).
Proof. unfold power_on. raise_op. Qed.

Lemma power_off_raises force s : raises (power_off World tool self force s).
Proof. unfold power_off. destruct (truthy force); raise_op. Qed.

Lemma power_reset_raises s : raises (power_reset World tool self s).
Proof. unfold power_reset. raise_op. Qed.

Lemma clear_system_event_log_raises s :
  raises (clear_system_event_log World tool self s).
Proof. unfold clear_system_event_log. raise_op. Qed.

Lemma get_sel_info_raises s : raises (get_sel_info World tool self s).
Proof. unfold get_sel_info. raise_op. Qed.

Lemma get_power_status_raises s : raises (get_power_status World tool self s).
Proof. unfold get_power_status. raise_op. Qed.

Lemma get_sensor_data_raises s : raises (get_sensor_data World tool self s).
Proof. unfold get_sensor_data. raise_op. Qed.

Lemma get_boot_device_raises s : raises (get_boot_device World tool self s).
Proof. unfold get_boot_device. raise_op. Qed.

Lemma get_system_info_raises s : raises (get_system_info World tool self s).
Proof. unfold get_system_info, system_info_commands. cbn [run_commands]. raise_op. Qed.

Lemma get_system_event_log_raises limit s :
  raises (get_system_event_log World tool self limit s).
Proof. unfold get_system_event_log. raise_op. Qed.

Lemma set_boot_device_raises device persistent s :
  raises (set_boot_device World tool self device persistent s).
Proof.
  unfold set_boot_device, str_of.
  destruct device; try (unfold raises, bind, lift; do 2 eexists; reflexivity).
  unfold bind at 1, lift at 1. cbv beta iota. destruct (negb _); raise_op.
Qed.

Lemma check_health_raises s : raises (check_health World tool self s).
Proof. unfold check_health. raise_op. Qed.

End WithoutHostname.

Lemma health_shape_carries (r : dict) : health_shape r = true -> carries r = true.
Proof.
  unfold health_shape, carries. destruct (succeeded r).
  - intros H. apply andb_true_iff in H as [_ ->]. apply orb_true_r.
  - now intros ->.
Qed.

Lemma attributed_carries (r : dict) : attributed r = true -> carries r = true.
Proof. unfold carries. now intros ->. Qed.

Lemma outcome_by_hostname (self : IPMIService) (P : dict -> Prop)
    (x : result dict * sys World) :
  (forall hn, py_getitem (config self) "hostname" = Ok hn -> returns_with P x \/ raises x) ->
  (forall e, py_getitem (config self) "hostname" = Raise e -> raises x) ->
  (forall r, P r -> carries r = true) ->
  returns_with (fun r => carries r = true) x \/ raises x.
Proof.
  intros Hok Hko HP.
  destruct (py_getitem (config self) "hostname") as [hn|e].
  - destruct (Hok hn eq_refl) as [(r & s' & E & Hr)|H]; [left|now right].
    exists r, s'. auto.
  - right. now apply (Hko e).
Qed.

Lemma as_value_outcome (m : M World dict) (s : sys World) :
  returns_with (fun r => carries r = true) (m s) \/ raises (m s) ->
  (exists d s', as_value World m s = (Ok (VDict d), s') /\ carries d = true)
  \/ raises (as_value World m s).
Proof.
  unfold as_value, bind, ret.
  intros [(r & s' & E & Hr)|(e & s' & E)]; rewrite E.
  - left. eauto.
  - right. unfold raises. eauto.
Qed.

Ltac op_outcome ok ko carry :=
  apply as_value_outcome;
  eapply outcome_by_hostname;
  [ intros hn Hh; first [ left; eapply ok; exact Hh | eapply ok; exact Hh ]
  | intros e Hr; eapply ko; exact Hr
  | exact carry ].

(** A public method other than [get_available_servers] returns a
    mapping that names the server and its host, or raises. *)
Lemma public_method_outcome (name : string) (m : method World) :
  assoc (public_methods World tool) name = Some m ->
  name <> "get_available_servers" ->
  forall self args s,
    (exists d s', body World m self args s = (Ok (VDict d), s') /\ carries d = true)
    \/ raises (body World m self args s).
Proof.
  intros Hm Hne self args s. unfold public_methods, assoc in Hm.
  destruct (String.eqb_spec "get_available_servers" name); [congruence|].
  repeat match type of Hm with
         | (if String.eqb ?k name then _ else _) = _ =>
             destruct (String.eqb k name);
             [ injection Hm as <-; cbn [body] | ]
         end; try discriminate.
  - op_outcome power_on_attributed power_on_raises attributed_carries.
  - op_outcome power_off_attributed power_off_raises attributed_carries.
  - op_outcome power_reset_attributed power_reset_raises attributed_carries.
  - op_outcome get_power_status_attributed get_power_status_raises attributed_carries.
  - op_outcome get_system_info_attributed get_system_info_raises attributed_carries.
  - op_outcome get_sensor_data_attributed get_sensor_data_raises attributed_carries.
  - op_outcome get_system_event_log_attributed get_system_event_log_raises
      attributed_carries.
  - op_outcome clear_system_event_log_attributed clear_system_event_log_raises
      attributed_carries.
  - op_outcome get_sel_info_attributed get_sel_info_raises attributed_carries.
  - op_outcome set_boot_device_attributed set_boot_device_raises attributed_carries.
  - op_outcome get_boot_device_attributed get_boot_device_raises attributed_carries.
  - op_outcome check_health_shape check_health_raises health_shape_carries.
  - unfold start_server.
    op_outcome power_on_attributed power_on_raises attributed_carries.
  - unfold stop_server.
    op_outcome power_off_attributed power_off_raises attributed_carries.
  - unfold check_status.
    op_outcome get_power_status_attributed get_power_status_raises attributed_carries.
Qed.

(** ** The fleet dispatcher *)

Local Abbreviation dispatch' := (dispatch World tool).
Local Abbreviation dispatch_each' := (dispatch_each World tool).

(** The loop body never raises: the handler turns every exception of
    the attempt into an entry. *)
Lemma dispatch_total env operation kwargs sid s :
  exists v s', dispatch' env operation kwargs sid s = (Ok v, s').
Proof.
  unfold dispatch, try_except, ret.
  destruct (attempt World tool env operation kwargs sid s) as [[v|e] s']; eauto.
Qed.

Lemma dispatch_catches env operation kwargs sid s e s' :
  attempt World tool env operation kwargs sid s = (Raise e, s') ->
  dispatch' env operation kwargs sid s = (Ok (failure_entry sid e), s').
Proof. unfold dispatch, try_except, ret. now intros ->. Qed.

Lemma dispatch_construction_fails env operation kwargs sid s e :
  get_service_for_server env sid = Raise e ->
  attempt World tool env operation kwargs sid s = (Raise e, s).
Proof. unfold attempt, bind, lift. now intros ->. Qed.

(** An entry is a mapping that names the server and its host, or one of
    the two synthesized mappings, which name the server only. *)
Lemma dispatch_entry env operation kwargs sid s :
  operation <> "get_available_servers" ->
  exists d s',
    dispatch' env operation kwargs sid s = (Ok (VDict d), s')
    /\ (carries d = true
        \/ exists msg, d = [("success", VBool false); ("error", VStr msg);
                            ("server_id", VStr sid)]).
Proof.
  intros Hne.
  unfold dispatch, try_except.
  destruct (attempt World tool env operation kwargs sid s) as [[v|e] s'] eqn:E;
    [|unfold ret, failure_entry; eauto 6].
  revert E. unfold attempt, bind, lift.
  destruct (get_service_for_server env sid) as [svc|e]; [|discriminate].
  unfold getattr.
  destruct (assoc (public_methods World tool) operation) as [m|] eqn:Hm.
  - unfold call, bind, lift.
    destruct (check_keywords World m (dict_keys kwargs)); [|discriminate].
    destruct (bind_params World m (params World m) kwargs) as [args|]; [|discriminate].
    destruct (public_method_outcome operation m Hm Hne svc args s)
      as [(d & s1 & Eb & Hd)|(e & s1 & Eb)]; rewrite Eb; [|discriminate].
    intros [= <- <-]. eauto.
  - destruct (assoc (data_attributes svc) operation); [discriminate|].
    unfold ret. intros [= <- <-]. eauto 6.
Qed.

(** C1, as the code has it.  Every operation of the per-server API,
    run on a configuration with a hostname, returns a result that names
    [server_id] and [hostname] at its top, except a successful health
    check, which names them inside its [details] and not at its top.
    Every entry of a broadcast is such a result or a synthesized one
    (unsupported operation, caught exception), and a synthesized entry
    names [server_id] only.  The operation names meant are those that
    do not begin with an underscore, [get_available_servers] apart. *)
Theorem results_name_server_and_host :
  (forall self hn c s,
      py_getitem (config self) "hostname" = Ok hn ->
      exists r s',
        run_api World tool self c s = (Ok r, s')
        /\ match c with
           | CheckHealth => health_shape r = true
           | _ => attributed r = true
           end)
  /\ (forall env operation kwargs sid s,
        starts_with_underscore operation = false ->
        operation <> "get_available_servers" ->
        exists d s',
          dispatch' env operation kwargs sid s = (Ok (VDict d), s')
          /\ (carries d = true
              \/ exists msg, d = [("success", VBool false); ("error", VStr msg);
                                  ("server_id", VStr sid)])).
Proof.
  split.
  - intros self hn c s Hh. destruct c; cbn [run_api].
    + exact (power_on_attributed self hn Hh s).
    + exact (power_off_attributed self hn Hh _ s).
    + exact (power_reset_attributed self hn Hh s).
    + exact (get_power_status_attributed self hn Hh s).
    + exact (get_system_info_attributed self hn Hh s).
    + exact (get_sensor_data_attributed self hn Hh s).
    + exact (get_system_event_log_int_attributed self hn Hh _ s).
    + exact (clear_system_event_log_attributed self hn Hh s).
    + exact (get_sel_info_attributed self hn Hh s).
    + exact (set_boot_device_str_attributed self hn Hh _ _ s).
    + exact (get_boot_device_attributed self hn Hh s).
    + exact (check_health_shape self hn Hh s).
  - intros env operation kwargs sid s _ Hne. now apply dispatch_entry.
Qed.

Lemma dict_set_fresh (d : dict) (k : string) (v : value) :
  has_key d k = false -> dict_set d k v = (d ++ [(k, v)])%list.
Proof.
  unfold has_key. induction d as [|[k' v'] d IH]; simpl; [reflexivity|].
  destruct (String.eqb k' k); [discriminate|].
  intros H. now rewrite IH.
Qed.

Lemma has_key_app (d1 d2 : dict) (k : string) :
  has_key (d1 ++ d2)%list k = has_key d1 k || has_key d2 k.
Proof.
  unfold has_key. induction d1 as [|[k' v'] d1 IH]; simpl; [reflexivity|].
  destruct (String.eqb k' k); [reflexivity | exact IH].
Qed.

Lemma dispatch_each_keys env operation kwargs ids s :
  dict_keys (fst (dispatch_each' env operation kwargs ids s)) = ids.
Proof.
  revert s; induction ids as [|sid ids IH]; intros s; simpl; [reflexivity|].
  destruct (dispatch_total env operation kwargs sid s) as (v & s1 & E). rewrite E.
  specialize (IH s1). destruct (dispatch_each' env operation kwargs ids s1).
  simpl in *. now rewrite IH.
Qed.

Lemma dispatch_each_app env operation kwargs l1 l2 s :
  dispatch_each' env operation kwargs (l1 ++ l2)%list s
  = ((fst (dispatch_each' env operation kwargs l1 s)
      ++ fst (dispatch_each' env operation kwargs l2
                (snd (dispatch_each' env operation kwargs l1 s))))%list,
     snd (dispatch_each' env operation kwargs l2
            (snd (dispatch_each' env operation kwargs l1 s)))).
Proof.
  revert s; induction l1 as [|sid l1 IH]; intros s; simpl.
  - now destruct (dispatch_each' env operation kwargs l2 s).
  - destruct (dispatch_total env operation kwargs sid s) as (v & s1 & E). rewrite E.
    rewrite IH. destruct (dispatch_each' env operation kwargs l1 s1). reflexivity.
Qed.

(** The loop of the broadcast stores the entries in the order of the
    identifiers, after those it started with. *)
Lemma dispatch_all_entries env operation kwargs ids results s :
  NoDup ids ->
  (forall id, In id ids -> has_key results id = false) ->
  dispatch_all World tool env operation kwargs ids results s
  = (Ok (results ++ fst (dispatch_each' env operation kwargs ids s))%list,
     snd (dispatch_each' env operation kwargs ids s)).
Proof.
  revert results s; induction ids as [|sid ids IH]; intros results s Hnd Hfresh; simpl.
  - now rewrite app_nil_r.
  - unfold bind.
    destruct (dispatch_total env operation kwargs sid s) as (v & s1 & E). rewrite E.
    inversion Hnd as [|? ? Hnotin Hnd']; subst.
    rewrite IH; [|assumption|].
    + rewrite dict_set_fresh by (apply Hfresh; now left).
      destruct (dispatch_each' env operation kwargs ids s1). simpl.
      now rewrite <- app_assoc.
    + intros id Hid. rewrite dict_set_fresh by (apply Hfresh; now left).
      rewrite has_key_app, (Hfresh id) by now right. simpl.
      unfold has_key. simpl. destruct (String.eqb_spec sid id); [subst; contradiction|].
      reflexivity.
Qed.

Lemma dispatch_each_mappings env operation kwargs ids s :
  operation <> "get_available_servers" ->
  Forall (fun r => exists d, r = VDict d)
    (dict_values (fst (dispatch_each' env operation kwargs ids s))).
Proof.
  intros Hne. revert s; induction ids as [|sid ids IH]; intros s; simpl; [constructor|].
  destruct (dispatch_entry env operation kwargs sid s Hne) as (d & s1 & E & _).
  rewrite E. specialize (IH s1).
  destruct (dispatch_each' env operation kwargs ids s1). simpl in *.
  constructor; eauto.
Qed.

Lemma count_successful_mappings (values : list value) :
  Forall (fun r => exists d, r = VDict d) values ->
  count_successful values = Ok (length (filter is_success values)).
Proof.
  induction 1 as [|r values [d ->] _ IH]; simpl; [reflexivity|].
  rewrite IH. simpl. unfold succeeded.
  destruct (dict_get d "success") as [v|]; simpl; [|reflexivity].
  destruct (truthy v); reflexivity.
Qed.

Lemma without_absent (x : string) (d : dict) :
  ~ In x (dict_keys d) -> without x d = d.
Proof.
  unfold without. induction d as [|[k v] d IH]; simpl; [reflexivity|].
  intros H. destruct (String.eqb_spec k x); [exfalso; auto|].
  simpl. rewrite IH; auto.
Qed.

Lemma without_app (x : string) (d1 d2 : dict) :
  without x (d1 ++ d2)%list = (without x d1 ++ without x d2)%list.
Proof. unfold without. apply filter_app. Qed.

Lemma dict_get_app_fresh (d1 d2 : dict) (k : string) :
  ~ In k (dict_keys d1) -> dict_get (d1 ++ d2)%list k = dict_get d2 k.
Proof.
  induction d1 as [|[k' v'] d1 IH]; simpl; [reflexivity|].
  intros H. destruct (String.eqb_spec k' k); [exfalso; auto|]. auto.
Qed.

(** *** When the tool has no memory *)

Section Memoryless.

Hypothesis Hpure : memoryless_tool World tool.

Lemma blind_ret {A} (a : A) : blind (ret World a).
Proof. intros s1 s2. reflexivity. Qed.

Lemma blind_lift {A} (r : result A) : blind (lift World r).
Proof. intros s1 s2. reflexivity. Qed.

Lemma blind_bind {A B} (m : M World A) (f : A -> M World B) :
  blind m -> (forall a, blind (f a)) -> blind (bind World m f).
Proof.
  intros Hm Hf s1 s2. unfold bind. specialize (Hm s1 s2).
  destruct (m s1) as [r1 t1], (m s2) as [r2 t2]. simpl in Hm. subst r2.
  destruct r1; [apply Hf | reflexivity].
Qed.

Lemma blind_try {A} (m : M World A) (h : exn -> M World A) :
  blind m -> (forall e, blind (h e)) -> blind (try_except World m h).
Proof.
  intros Hm Hh s1 s2. unfold try_except. specialize (Hm s1 s2).
  destruct (m s1) as [r1 t1], (m s2) as [r2 t2]. simpl in Hm. subst r2.
  destruct r1; [reflexivity | apply Hh].
Qed.

Lemma blind_subprocess_run cmd timeout : blind (subprocess_run World tool cmd timeout).
Proof.
  intros s1 s2. unfold subprocess_run.
  specialize (Hpure cmd timeout (world s1) (world s2)).
  destruct (tool cmd timeout (world s1)) as [o1 w1],
           (tool cmd timeout (world s2)) as [o2 w2].
  simpl in Hpure. subst o2. destruct o1; reflexivity.
Qed.

Ltac blind_step :=
  first
    [ apply blind_ret
    | apply blind_lift
    | apply blind_subprocess_run
    | apply blind_bind; [|intros]
    | apply blind_try; [|intros]
    | match goal with
      | |- blind (if ?b then _ else _) => destruct b
      | |- blind (match ?x with _ => _ end) => destruct x
      end ].

Lemma blind_execute self command timeout :
  blind (exec self command timeout).
Proof. unfold _execute_ipmi_command. repeat blind_step. Qed.

Ltac blind_op :=
  repeat first [ apply blind_execute | blind_step ].

Lemma blind_get_power_status self : blind (get_power_status World tool self).
Proof. unfold get_power_status. blind_op. Qed.

Lemma blind_public_method (name : string) (m : method World) self args :
  assoc (public_methods World tool) name = Some m ->
  blind (body World m self args).
Proof.
  intros Hm. unfold public_methods, assoc in Hm.
  repeat match type of Hm with
         | (if String.eqb ?k name then _ else _) = _ =>
             destruct (String.eqb k name);
             [ injection Hm as <-; cbn [body] | ]
         end; try discriminate;
    unfold as_value, power_on, power_off, power_reset, get_system_info,
      system_info_commands, get_sensor_data, get_system_event_log,
      clear_system_event_log, get_sel_info, set_boot_device, get_boot_device,
      check_health, start_server, stop_server, check_status, power_on, power_off;
    cbn [run_commands];
    repeat first [ apply blind_get_power_status | blind_op ].
Qed.

Lemma blind_dispatch env operation kwargs sid :
  blind (dispatch' env operation kwargs sid).
Proof.
  unfold dispatch, attempt. apply blind_try; [|intros; apply blind_ret].
  apply blind_bind; [apply blind_lift|]. intros svc. unfold getattr.
  destruct (assoc (public_methods World tool) operation) as [m|] eqn:Hm.
  - unfold call. apply blind_bind; [apply blind_lift|]. intros _.
    apply blind_bind; [apply blind_lift|]. intros args.
    now apply (blind_public_method operation).
  - destruct (assoc (data_attributes svc) operation); unfold call;
      [apply blind_lift | apply blind_ret].
Qed.

Lemma dispatch_each_blind env operation kwargs ids s1 s2 :
  fst (dispatch_each' env operation kwargs ids s1)
  = fst (dispatch_each' env operation kwargs ids s2).
Proof.
  revert s1 s2; induction ids as [|sid ids IH]; intros s1 s2; simpl; [reflexivity|].
  pose proof (blind_dispatch env operation kwargs sid s1 s2) as Hb.
  destruct (dispatch' env operation kwargs sid s1) as [r1 t1],
           (dispatch' env operation kwargs sid s2) as [r2 t2].
  simpl in Hb. subst r2. destruct r1 as [v|e]; [|reflexivity].
  specialize (IH t1 t2).
  destruct (dispatch_each' env operation kwargs ids t1),
           (dispatch_each' env operation kwargs ids t2).
  simpl in *. now rewrite IH.
Qed.

(** Without any server [x], the other servers get the entries they get
    with it. *)
Lemma broadcast_without_server env operation kwargs before x after s :
  NoDup (before ++ x :: after) ->
  without x (fst (dispatch_each' env operation kwargs (before ++ x :: after) s))
  = fst (dispatch_each' env operation kwargs (before ++ after) s).
Proof.
  intros Hnd. apply NoDup_remove_2 in Hnd.
  assert (Hb : ~ In x before) by (intros H; apply Hnd, in_or_app; now left).
  assert (Ha : ~ In x after) by (intros H; apply Hnd, in_or_app; now right).
  rewrite !dispatch_each_app. cbn [fst dispatch_each].
  set (s1 := snd (dispatch_each' env operation kwargs before s)).
  destruct (dispatch_total env operation kwargs x s1) as (v & s1' & E). rewrite E.
  pose proof (dispatch_each_keys env operation kwargs before s) as Kb.
  pose proof (dispatch_each_keys env operation kwargs after s1') as Ka.
  rewrite (dispatch_each_blind env operation kwargs after s1 s1').
  destruct (dispatch_each' env operation kwargs after s1') as [E2 s2].
  cbn [fst] in *.
  rewrite without_app, without_absent by now rewrite Kb.
  f_equal. unfold without at 1. cbn [filter fst]. rewrite String.eqb_refl.
  cbn [negb]. apply without_absent. now rewrite Ka.
Qed.

End Memoryless.

(** C2, as the code has it.  For every list of distinct registered
    identifiers and every operation name that does not begin with an
    underscore and is not [get_available_servers], the broadcast
    returns: one entry per identifier, in order; [total_servers] is the
    number of identifiers; [successful] is the number of entries whose
    success flag is true.  Whatever the attempt on one server raises,
    while the service is built or while the operation runs, is caught
    and becomes a failure entry with the text of the exception.  When
    the failing attempt ran no command (as when building the service
    raises), or when the outcome of the tool for an invocation does not
    depend on the invocations made before it, the entries of the other
    servers are exactly those of the broadcast over the registry without
    the failing server. *)
Theorem broadcast_accounts_for_every_server (self : MultiServerIPMIService)
    (env : Env) (operation : string) (kwargs : dict) (s : sys World) :
  NoDup (servers self) ->
  starts_with_underscore operation = false ->
  operation <> "get_available_servers" ->
  let results := fst (dispatch_each' env operation kwargs (servers self) s) in
  execute_on_all_servers World tool self env operation kwargs s
  = (Ok [("operation", VStr operation);
         ("total_servers", VInt (Z.of_nat (length (servers self))));
         ("successful",
          VInt (Z.of_nat (length (filter is_success (dict_values results)))));
         ("results", VDict results)],
     snd (dispatch_each' env operation kwargs (servers self) s))
  /\ dict_keys results = servers self
  /\ (forall sid s0 e s1,
        attempt World tool env operation kwargs sid s0 = (Raise e, s1) ->
        dispatch' env operation kwargs sid s0
        = (Ok (VDict [("success", VBool false); ("error", VStr (exn_str e));
                      ("server_id", VStr sid)]),
           s1))
  /\ (forall sid s0 e,
        get_service_for_server env sid = Raise e ->
        dispatch' env operation kwargs sid s0
        = (Ok (VDict [("success", VBool false); ("error", VStr (exn_str e));
                      ("server_id", VStr sid)]),
           s0))
  /\ (forall before x after e,
        servers self = (before ++ x :: after)%list ->
        let s1 := snd (dispatch_each' env operation kwargs before s) in
        attempt World tool env operation kwargs x s1 = (Raise e, s1) ->
        dict_get results x
        = Some (VDict [("success", VBool false); ("error", VStr (exn_str e));
                       ("server_id", VStr x)])
        /\ without x results
           = fst (dispatch_each' env operation kwargs (before ++ after)%list s))
  /\ (memoryless_tool World tool ->
      forall before x after,
        servers self = (before ++ x :: after)%list ->
        without x results
        = fst (dispatch_each' env operation kwargs (before ++ after)%list s)).
Proof.
  intros Hnd _ Hne results. repeat apply conj.
  - unfold execute_on_all_servers, bind, lift, ret.
    rewrite dispatch_all_entries by (auto; reflexivity).
    cbn [app]. fold results.
    rewrite count_successful_mappings by now apply dispatch_each_mappings.
    reflexivity.
  - apply dispatch_each_keys.
  - intros sid s0 e s1 E. exact (dispatch_catches _ _ _ _ _ _ _ E).
  - intros sid s0 e E.
    exact (dispatch_catches _ _ _ _ _ _ _
             (dispatch_construction_fails env operation kwargs sid s0 e E)).
  - intros before x after e Hsplit s1 E.
    rewrite Hsplit in Hnd. apply NoDup_remove_2 in Hnd.
    assert (Hb : ~ In x before) by (intros H; apply Hnd, in_or_app; now left).
    assert (Ha : ~ In x after) by (intros H; apply Hnd, in_or_app; now right).
    subst results. rewrite Hsplit, !dispatch_each_app. fold s1. cbn [fst].
    cbn [dispatch_each]. rewrite (dispatch_catches _ _ _ _ _ _ _ E).
    pose proof (dispatch_each_keys env operation kwargs before s) as Kb.
    pose proof (dispatch_each_keys env operation kwargs after s1) as Ka.
    destruct (dispatch_each' env operation kwargs after s1) as [E2 s2].
    cbn [fst] in *. split.
    + rewrite dict_get_app_fresh by now rewrite Kb.
      simpl. now rewrite String.eqb_refl.
    + rewrite without_app, without_absent by now rewrite Kb.
      f_equal. unfold without at 1. cbn [filter fst]. rewrite String.eqb_refl.
      cbn [negb]. apply without_absent. now rewrite Ka.
  - intros Hpure before x after Hsplit. subst results. rewrite Hsplit.
    apply (broadcast_without_server Hpure). now rewrite <- Hsplit.
Qed.

End ServiceProperties.

(** * The properties on concrete runs *)

Lemma execute_ipmi_command_normalizes_witness :
  (profile service_a = Some ("10.0.0.1", "u", "p")
   /\ _execute_ipmi_command script play service_a "sel list" 30
        (start [Completed 1 " partial " "boom "])
      = (Ok [("success", VBool false); ("output", VStr "partial");
             ("error", VStr "boom"); ("server_id", VStr "a");
             ("hostname", VStr "10.0.0.1")],
         {| world := [];
            calls := [((base_cmd_a ++ [VStr "sel"; VStr "list"])%list, 30%Z)] |}))
  /\ (IPMIService_init env_file (Some "b") = Ok service_b
      /\ config service_b = VDict [("username", VStr "u"); ("password", VStr "p")]
      /\ _execute_ipmi_command script play service_b "chassis status" 30
           (start [Completed 0 "System Power : on" ""])
         = (Raise (KeyError "hostname"), start [Completed 0 "System Power : on" ""])).
Proof.
  split; [split; [reflexivity|] | split; [reflexivity | split; [reflexivity|]]].
  - exact (proj1 (execute_ipmi_command_normalizes script play service_a "sel list" 30
                    (start [Completed 1 " partial " "boom "]))
             "10.0.0.1" "u" "p" eq_refl).
  - exact (proj2 (proj2 (execute_ipmi_command_normalizes script play service_b
                           "chassis status" 30
                           (start [Completed 0 "System Power : on" ""])))
             (KeyError "hostname") eq_refl).
Defined.

Lemma get_system_info_runs_four_commands_witness :
  (exists r1 s1 r2 s2 r3 s3 r4 s4,
      let s := start [Completed 0 "FRU ok" ""; Completed 1 "" "bmc down";
                      Completed 0 "System Power : on" ""; TimedOut "30 seconds"] in
      _execute_ipmi_command script play service_a "fru" 30 s = (Ok r1, s1)
      /\ _execute_ipmi_command script play service_a "bmc info" 30 s1 = (Ok r2, s2)
      /\ _execute_ipmi_command script play service_a "chassis status" 30 s2 = (Ok r3, s3)
      /\ _execute_ipmi_command script play service_a "fru print" 30 s3 = (Ok r4, s4)
      /\ get_system_info script play service_a s
         = (Ok [("success",
                 VBool (succeeded r1 && succeeded r2 && succeeded r3 && succeeded r4));
                ("system_info",
                 VDict [("fru", VDict r1); ("bmc_info", VDict r2);
                        ("chassis_status", VDict r3); ("system_info", VDict r4)]);
                ("server_id", VStr "a");
                ("hostname", VStr "10.0.0.1")],
            s4)
      /\ calls s4
         = [((base_cmd_a ++ [VStr "fru"])%list, 30%Z);
            ((base_cmd_a ++ [VStr "bmc"; VStr "info"])%list, 30%Z);
            ((base_cmd_a ++ [VStr "chassis"; VStr "status"])%list, 30%Z);
            ((base_cmd_a ++ [VStr "fru"; VStr "print"])%list, 30%Z)])
  /\ get_system_info script play service_b (start [Completed 0 "FRU ok" ""])
     = (Raise (KeyError "hostname"), start [Completed 0 "FRU ok" ""]).
Proof.
  split.
  - destruct (proj1 (get_system_info_runs_four_commands script play service_a
                       (start [Completed 0 "FRU ok" ""; Completed 1 "" "bmc down";
                               Completed 0 "System Power : on" ""; TimedOut "30 seconds"]))
                (VStr "10.0.0.1") eq_refl)
      as (r1 & s1 & r2 & s2 & r3 & s3 & r4 & s4 & E1 & E2 & E3 & E4 & Hinfo & Hcalls).
    exists r1, s1, r2, s2, r3, s3, r4, s4. cbv zeta.
    split; [exact E1|]. split; [exact E2|]. split; [exact E3|]. split; [exact E4|].
    split; [exact Hinfo|]. exact (Hcalls "10.0.0.1" "u" "p" eq_refl).
  - exact (proj2 (get_system_info_runs_four_commands script play service_b
                    (start [Completed 0 "FRU ok" ""]))
             (KeyError "hostname") eq_refl).
Defined.

(** On the server [b] of [env_file], which the constructor binds although
    its profile has no hostname, the runner and [get_system_info] raise
    and no command is run. *)
Lemma get_system_info_raises_without_hostname :
  IPMIService_init env_file (Some "b") = Ok service_b
  /\ get_system_info script play service_b
       (start [Completed 0 "FRU ok" ""; Completed 0 "BMC ok" "";
               Completed 0 "System Power : on" ""; Completed 0 "FRU ok" ""])
     = (Raise (KeyError "hostname"),
        start [Completed 0 "FRU ok" ""; Completed 0 "BMC ok" "";
               Completed 0 "System Power : on" ""; Completed 0 "FRU ok" ""]).
Proof. split; reflexivity. Qed.

Lemma set_boot_device_behaviour_witness :
  existsb (String.eqb (lower "usb")) valid_devices = false
  /\ set_boot_device script play service_a (VStr "usb") (VBool false)
       (start [Completed 0 "" ""])
     = (Ok [("success", VBool false);
            ("error",
             VStr "Invalid boot device 'usb'. Valid options: pxe, disk, cdrom, bios, floppy, safe");
            ("server_id", VStr "a");
            ("hostname", VStr "10.0.0.1")],
        start [Completed 0 "" ""])
  /\ existsb (String.eqb (lower "PXE")) valid_devices = true
  /\ set_boot_device script play service_a (VStr "PXE") (VBool false)
       (start [Failed "Invalid argument: PXE"])
     = (Ok [("success", VBool false); ("output", VStr "");
            ("error", VStr "Invalid argument: PXE"); ("server_id", VStr "a");
            ("hostname", VStr "10.0.0.1")],
        {| world := [];
           calls := [((base_cmd_a ++ [VStr "chassis"; VStr "bootdev"; VStr "PXE";
                                      VStr "options=efiboot"])%list, 30%Z)] |}).
Proof.
  split; [reflexivity|]. split.
  - exact (proj1 (set_boot_device_behaviour script play service_a "usb" false
                    "10.0.0.1" "u" "p" (start [Completed 0 "" ""]) eq_refl) eq_refl).
  - split; [reflexivity|].
    exact (proj2 (set_boot_device_behaviour script play service_a "PXE" false
                    "10.0.0.1" "u" "p" (start [Failed "Invalid argument: PXE"]) eq_refl)
             eq_refl).
Defined.

Lemma single_server_default_not_found_witness :
  IPMIService_init env_single (Some "default")
  = Raise (ValueError "Server 'default' not found in configuration")
  /\ (exists fleet,
        MultiServerIPMIService_init env_single = Ok fleet /\ servers fleet = ["default"])
  /\ (forall operation kwargs s,
        dispatch script play env_single operation kwargs "default" s
        = (Ok (VDict [("success", VBool false);
                      ("error", VStr "Server 'default' not found in configuration");
                      ("server_id", VStr "default")]),
           s)).
Proof.
  exact (single_server_default_not_found script play env_single
           [("hostname", VStr "10.0.0.1"); ("username", VStr "root");
            ("password", VStr "secret")]
           eq_refl eq_refl eq_refl).
Defined.

Lemma parsing_operations_derive_on_success_witness :
  (exists r s',
      get_power_status script play service_a (start [Completed 0 "Chassis Power is on" ""])
      = (Ok r, s')
      /\ has_key r "power_state" = true)
  /\ (exists raw s',
        _execute_ipmi_command script play service_a "sensor" 45
          (start [Completed 1 "" "Unable to establish session"])
        = (Ok raw, s')
        /\ get_sensor_data script play service_a
             (start [Completed 1 "" "Unable to establish session"])
           = (Ok raw, s')
        /\ has_key raw "sensors" = false).
Proof.
  split.
  - pose proof (proj1 (parsing_operations_derive_on_success script play service_a 50)
                  (start [Completed 0 "Chassis Power is on" ""])) as H.
    destruct H as (r & E & Hfields & _).
    exists r. eexists. split; [exact E|].
    exact (Hfields "power_state" (or_introl eq_refl)).
  - pose proof (proj1 (proj2 (parsing_operations_derive_on_success script play service_a 50))
                  (start [Completed 1 "" "Unable to establish session"])) as H.
    destruct H as (r & E & Hfields & Hraw & _).
    rewrite (Hraw eq_refl) in E.
    do 2 eexists. split; [reflexivity|]. split; [exact E | reflexivity].
Defined.

(** A successful health check names neither [server_id] nor [hostname]
    at the top of its result, and the entry synthesized for an
    unsupported operation has no [hostname]. *)
Lemma health_success_and_synthesized_entry_lack_fields :
  (exists r s',
      check_health script play service_a
        (start [Completed 0 "System Power : on" ""; Completed 0 "Chassis Power is on" ""])
      = (Ok r, s')
      /\ succeeded r = true
      /\ has_key r "server_id" = false
      /\ has_key r "hostname" = false)
  /\ (exists d s',
        dispatch script play env_multi "frobnicate" [] "a" (start []) = (Ok (VDict d), s')
        /\ has_key d "hostname" = false).
Proof.
  split; do 2 eexists; repeat split; reflexivity.
Qed.

Lemma results_name_server_and_host_witness :
  (exists r s',
      run_api script play service_a CheckHealth
        (start [Completed 0 "System Power : on" ""; Completed 0 "Chassis Power is on" ""])
      = (Ok r, s')
      /\ health_shape r = true)
  /\ (exists r s',
        run_api script play service_a (SetBootDevice "usb" false) (start [])
        = (Ok r, s')
        /\ attributed r = true)
  /\ (exists d s',
        dispatch script play env_multi "frobnicate" [] "a" (start []) = (Ok (VDict d), s')
        /\ (carries d = true
            \/ exists msg, d = [("success", VBool false); ("error", VStr msg);
                                ("server_id", VStr "a")])).
Proof.
  destruct (results_name_server_and_host script play) as [Hapi Hfleet].
  split; [|split].
  - exact (Hapi service_a (VStr "10.0.0.1") CheckHealth _ eq_refl).
  - exact (Hapi service_a (VStr "10.0.0.1") (SetBootDevice "usb" false) _ eq_refl).
  - apply Hfleet; [reflexivity | discriminate].
Defined.

Lemma servers_of_fleet_file_distinct : NoDup (servers fleet_file).
Proof.
  change (servers fleet_file) with ["a"; "b"; "c"].
  repeat constructor; simpl; intuition discriminate.
Defined.

(** The broadcast of [get_available_servers] raises instead of
    returning one result per server. *)
Lemma broadcast_of_get_available_servers_raises :
  NoDup (servers fleet_file)
  /\ execute_on_all_servers script play fleet_file env_file
       "get_available_servers" [] (start [])
     = (Raise (AttributeError "'list' object has no attribute 'get'"), start []).
Proof.
  split; [exact servers_of_fleet_file_distinct | reflexivity].
Qed.

Lemma broadcast_accounts_for_every_server_witness :
  let entry id host :=
    (id, VDict [("success", VBool true); ("output", VStr "Chassis Power Control: Up/On");
                ("error", VNone); ("server_id", VStr id); ("hostname", VStr host)]) in
  let failed :=
    ("b", VDict [("success", VBool false); ("error", VStr "'hostname'");
                 ("server_id", VStr "b")]) in
  NoDup (servers fleet_file)
  /\ memoryless_tool unit always_up
  /\ fst (execute_on_all_servers unit always_up fleet_file env_file "power_on" [] idle)
     = Ok [("operation", VStr "power_on");
           ("total_servers", VInt 3);
           ("successful", VInt 2);
           ("results", VDict [entry "a" "10.0.0.1"; failed; entry "c" "10.0.0.3"])]
  /\ attempt unit always_up env_file "power_on" [] "b"
       (snd (dispatch_each unit always_up env_file "power_on" [] ["a"] idle))
     = (Raise (KeyError "hostname"),
        snd (dispatch_each unit always_up env_file "power_on" [] ["a"] idle))
  /\ fst (dispatch_each unit always_up env_file "power_on" [] ["a"; "c"] idle)
     = [entry "a" "10.0.0.1"; entry "c" "10.0.0.3"]
  /\ fst (dispatch_each unit always_up env_file "power_on" [] ["b"; "c"] idle)
     = [failed; entry "c" "10.0.0.3"].
Proof.
  intros entry failed.
  assert (Hpure : memoryless_tool unit always_up) by (intros cmd t w w'; reflexivity).
  destruct (broadcast_accounts_for_every_server unit always_up fleet_file env_file
              "power_on" [] idle servers_of_fleet_file_distinct eq_refl
              ltac:(discriminate))
    as (Hrun & Hkeys & Hcatch & Hbuild & Hothers & Hmemoryless).
  split; [exact servers_of_fleet_file_distinct|].
  split; [exact Hpure|]. split; [|split; [|split]].
  - rewrite Hrun. reflexivity.
  - reflexivity.
  - destruct (Hothers ["a"] "b" ["c"] (KeyError "hostname") eq_refl eq_refl)
      as [_ Hwithout].
    simpl app in Hwithout. rewrite <- Hwithout. reflexivity.
  - change ["b"; "c"] with ([] ++ ["b"; "c"])%list at 1.
    rewrite <- (Hmemoryless Hpure [] "a" ["b"; "c"] eq_refl). reflexivity.
Defined.

(** * Further properties of the service *)

(** ** Splitting and trimming *)

Lemma split_on_no_sep (sep : ascii) (s : string) :
  has_char sep s = false -> split_on sep s = [s].
Proof.
  induction s as [|c s IH]; simpl; [reflexivity|].
  intros H. apply orb_false_iff in H as [Hc Hs].
  rewrite Hc, IH by assumption. reflexivity.
Qed.

Lemma split_on_app_sep (sep : ascii) (a rest : string) :
  has_char sep a = false ->
  split_on sep (a ++ String sep rest) = a :: split_on sep rest.
Proof.
  induction a as [|c a IH]; simpl.
  - intros _. now rewrite Ascii.eqb_refl.
  - intros H. apply orb_false_iff in H as [Hc Ha].
    rewrite Hc, IH by assumption. reflexivity.
Qed.

(** Splitting undoes joining when no field holds the separator. *)
Lemma split_on_join (sep : ascii) (fields : list string) :
  fields <> [] ->
  (forall f, In f fields -> has_char sep f = false) ->
  split_on sep (join (String sep "") fields) = fields.
Proof.
  induction fields as [|f fields IH]; intros Hne H; [contradiction|].
  destruct fields as [|g fields].
  - simpl. apply split_on_no_sep, H. now left.
  - change (join (String sep "") (f :: g :: fields))
      with (f ++ String sep (join (String sep "") (g :: fields))).
    rewrite split_on_app_sep by (apply H; now left).
    rewrite IH; [reflexivity | discriminate | intros; apply H; now right].
Qed.

Lemma split_on_length_has_char (sep : ascii) (s : string) :
  2 <= length (split_on sep s) -> has_char sep s = true.
Proof.
  intros H. destruct (has_char sep s) eqn:E; [reflexivity|].
  rewrite split_on_no_sep in H by assumption. simpl in H. lia.
Qed.

Lemma has_char_app (c : ascii) (a b : string) :
  has_char c (a ++ b) = has_char c a || has_char c b.
Proof.
  induction a as [|x a IH]; simpl; [reflexivity|].
  now rewrite IH, orb_assoc.
Qed.

Lemma has_char_join (c sep : ascii) (fields : list string) :
  Ascii.eqb sep c = false ->
  (forall f, In f fields -> has_char c f = false) ->
  has_char c (join (String sep "") fields) = false.
Proof.
  intros Hsep. induction fields as [|f fields IH]; intros H; [reflexivity|].
  destruct fields as [|g fields].
  - simpl. apply H. now left.
  - change (join (String sep "") (f :: g :: fields))
      with (f ++ String sep (join (String sep "") (g :: fields))).
    rewrite has_char_app. simpl. rewrite Hsep, (H f) by now left.
    simpl. apply IH. intros; apply H; now right.
Qed.

Lemma has_char_lstrip (c : ascii) (s : string) :
  is_space c = false -> has_char c (lstrip s) = has_char c s.
Proof.
  intros Hc. induction s as [|x s IH]; simpl; [reflexivity|].
  destruct (is_space x) eqn:Ex; [|reflexivity].
  rewrite IH. destruct (Ascii.eqb_spec x c); [congruence | reflexivity].
Qed.

Lemma has_char_rstrip (c : ascii) (s : string) :
  is_space c = false -> has_char c (rstrip s) = has_char c s.
Proof.
  intros Hc. induction s as [|x s IH]; simpl; [reflexivity|].
  destruct (rstrip s) as [|y r] eqn:Er.
  - simpl in IH. rewrite <- IH.
    destruct (is_space x) eqn:Ex; simpl.
    + destruct (Ascii.eqb_spec x c); [congruence | reflexivity].
    + now rewrite orb_false_r.
  - simpl in *. now rewrite IH.
Qed.

(** A text that holds a character other than a space is not blank. *)
Lemma strip_not_blank (c : ascii) (s : string) :
  is_space c = false -> has_char c s = true -> strip s <> "".
Proof.
  intros Hc Hs E.
  assert (H : has_char c (strip s) = true)
    by (unfold strip; now rewrite has_char_rstrip, has_char_lstrip).
  rewrite E in H. discriminate.
Qed.

(** ** The sensor table and the event log *)

Lemma parse_sensor_line_step (sensors : list value) (line : string) :
  parse_sensor_line sensors line
  = if sensor_line_kept line then (sensors ++ [sensor_entry line])%list else sensors.
Proof.
  unfold parse_sensor_line, sensor_line_kept, sensor_entry. rewrite length_map.
  destruct (3 <=? length (split_on "|" line)) eqn:E.
  - rewrite split_on_length_has_char; [reflexivity|].
    apply Nat.leb_le in E. lia.
  - now destruct (has_char "|" line).
Qed.

(** X1. The sensor parser returns, in order, one reading for every line
    that has at least 3 fields between bars, and nothing for any other
    line (no bar, or one bar only). *)
Theorem parse_sensor_output_kept_lines (output : string) :
  _parse_sensor_output output
  = map sensor_entry (filter sensor_line_kept (split_on newline output)).
Proof.
  unfold _parse_sensor_output.
  now rewrite (fold_left_append sensor_line_kept sensor_entry _ parse_sensor_line_step).
Qed.

Lemma item_or_empty_nth (parts : list string) (i : nat) :
  item_or_empty parts i = nth i parts "".
Proof.
  unfold item_or_empty. destruct (i <? length parts) eqn:E; [reflexivity|].
  apply Nat.ltb_ge in E. now rewrite nth_overflow.
Qed.

Lemma nth_map_strip (fields : list string) (i : nat) :
  nth i (map strip fields) "" = strip (nth i fields "").
Proof. exact (map_nth strip fields "" i). Qed.

Lemma single_line (line : string) :
  has_char newline line = false -> split_on newline line = [line].
Proof. apply split_on_no_sep. Qed.

Lemma parse_single_sensor_line (line : string) :
  has_char newline line = false ->
  sensor_line_kept line = true ->
  _parse_sensor_output line = [sensor_entry line].
Proof.
  intros Hnl Hkept. unfold _parse_sensor_output. rewrite single_line by assumption.
  simpl. now rewrite parse_sensor_line_step, Hkept.
Qed.

(** X2. A single line of 3 or more fields joined by bars, none of which
    holds a bar or a line break, parses to exactly one reading: its
    i-th key holds the trimmed i-th field, and the keys beyond the last
    field hold the empty string. *)
Theorem parse_sensor_line_round_trip (fields : list string) :
  3 <= length fields ->
  (forall f, In f fields -> has_char "|" f = false /\ has_char newline f = false) ->
  exists reading,
    _parse_sensor_output (join "|" fields) = [VDict reading]
    /\ dict_keys reading = sensor_keys
    /\ forall i key,
         nth_error sensor_keys i = Some key ->
         dict_get reading key
         = Some (VStr (if i <? length fields then strip (nth i fields "") else "")).
Proof.
  intros Hlen Hf.
  assert (Hsplit : split_on "|" (join "|" fields) = fields).
  { apply split_on_join; [destruct fields; [simpl in Hlen; lia | discriminate]|].
    intros f Hin. now apply Hf. }
  rewrite parse_single_sensor_line.
  - eexists. split; [reflexivity|]. split; [reflexivity|].
    intros i key Hi. rewrite Hsplit.
    assert (Hnth : forall j, (if j <? length fields then strip (nth j fields "") else "")
                             = nth j (map strip fields) "").
    { intros j. rewrite nth_map_strip. destruct (j <? length fields) eqn:E; [reflexivity|].
      apply Nat.ltb_ge in E. now rewrite nth_overflow. }
    rewrite Hnth.
    do 10 (destruct i as [|i]; [injection Hi as <-; simpl;
                                rewrite ?item_or_empty_nth; reflexivity|]).
    destruct i; discriminate.
  - apply has_char_join; [reflexivity | intros f Hin; now apply Hf].
  - unfold sensor_line_kept. rewrite Hsplit. now apply Nat.leb_le.
Qed.

Lemma parse_sensor_line_round_trip_witness :
  _parse_sensor_output "CPU Temp | 45.000 | degrees C"
  = [VDict [("name", VStr "CPU Temp"); ("value", VStr "45.000");
            ("unit", VStr "degrees C"); ("status", VStr ""); ("lower_nr", VStr "");
            ("lower_cr", VStr ""); ("lower_nc", VStr ""); ("upper_nc", VStr "");
            ("upper_cr", VStr ""); ("upper_nr", VStr "")]].
Proof.
  destruct (parse_sensor_line_round_trip ["CPU Temp "; " 45.000 "; " degrees C"])
    as (reading & Hparse & _).
  - simpl. lia.
  - intros f [<-|[<-|[<-|[]]]]; split; reflexivity.
  - reflexivity.
Defined.

Lemma parse_sel_lines (lines : list string) :
  fold_left parse_sel_line lines []
  = map sel_entry (filter sel_line_kept lines).
Proof.
  now rewrite (fold_left_append sel_line_kept sel_entry _ parse_sel_line_step).
Qed.

Lemma filter_length_le {A} (f : A -> bool) (l : list A) :
  length (filter f l) <= length l.
Proof.
  induction l as [|x l IH]; simpl; [lia|]. destruct (f x); simpl; lia.
Qed.

(** X3. For a limit [n >= 0] the event log parser returns at most [n]
    events and at most one event per raw line; with the limit 0 it
    returns no event. *)
Theorem parse_sel_output_bounded (output : string) (n : Z) :
  (0 <= n)%Z ->
  exists events,
    _parse_sel_output output (VInt n) = Ok events
    /\ length events <= Z.to_nat n
    /\ length events <= length (split_on newline output)
    /\ (n = 0%Z -> events = []).
Proof.
  intros Hn. unfold _parse_sel_output, slice_to, take_int. cbn [rbind].
  apply Z.leb_le in Hn. rewrite Hn. rewrite parse_sel_lines.
  eexists. split; [reflexivity|]. rewrite length_map.
  pose proof (filter_length_le sel_line_kept
                (firstn (Z.to_nat n) (split_on newline output))) as Hle.
  rewrite length_firstn in Hle. repeat split; try lia.
  intros ->. reflexivity.
Qed.

Lemma parse_sel_output_bounded_witness :
  exists events,
    _parse_sel_output
      (String.concat (String newline "")
         ["1 | 01/02/2024 | 10:00:00 | Fan 1 | Lower Critical | Asserted";
          "2 | 01/02/2024 | 10:01:00 | Fan 2 | Lower Critical | Asserted";
          "3 | 01/02/2024 | 10:05:00 | Temp | Upper Critical | Asserted"])
      (VInt 2)
    = Ok events
    /\ length events <= 2.
Proof.
  destruct (parse_sel_output_bounded
              (String.concat (String newline "")
                 ["1 | 01/02/2024 | 10:00:00 | Fan 1 | Lower Critical | Asserted";
                  "2 | 01/02/2024 | 10:01:00 | Fan 2 | Lower Critical | Asserted";
                  "3 | 01/02/2024 | 10:05:00 | Temp | Upper Critical | Asserted"])
              2 ltac:(lia))
    as (events & Hparse & Hlimit & _).
  exists events. split; [exact Hparse | exact Hlimit].
Defined.

(** X4. A single line [id|date|time|sensor|...] of 4 or more fields,
    none of which holds a bar or a line break, parses under any limit
    of at least 1 to exactly one event: the identifier, the sensor, the
    event and the value are the trimmed fields (the empty string when
    the line has no fifth or sixth field) and the timestamp is the
    trimmed date, a space, and the trimmed time. *)
Theorem parse_sel_line_round_trip (id date time sensor : string) (more : list string)
    (n : Z) :
  (1 <= n)%Z ->
  (forall f, In f (id :: date :: time :: sensor :: more) ->
             has_char "|" f = false /\ has_char newline f = false) ->
  _parse_sel_output (join "|" (id :: date :: time :: sensor :: more)) (VInt n)
  = Ok [VDict [("id", VStr (strip id));
               ("timestamp", VStr (strip date ++ " " ++ strip time));
               ("sensor", VStr (strip sensor));
               ("event", VStr (strip (nth 0 more "")));
               ("value", VStr (strip (nth 1 more "")))]].
Proof.
  intros Hn Hf. set (fields := id :: date :: time :: sensor :: more).
  assert (Hsplit : split_on "|" (join "|" fields) = fields).
  { apply split_on_join; [discriminate|]. intros f Hin. now apply Hf. }
  assert (Hnl : has_char newline (join "|" fields) = false).
  { apply has_char_join; [reflexivity | intros f Hin; now apply Hf]. }
  assert (Hbar : has_char "|" (join "|" fields) = true).
  { apply split_on_length_has_char. rewrite Hsplit. simpl. lia. }
  unfold _parse_sel_output, slice_to, take_int. cbn [rbind].
  replace (0 <=? n)%Z with true by (symmetry; apply Z.leb_le; lia).
  rewrite single_line by assumption.
  destruct (Z.to_nat n) as [|k] eqn:Ek; [lia|]. cbn [firstn].
  rewrite firstn_nil. cbn [fold_left].
  rewrite parse_sel_line_step. unfold sel_line_kept, sel_entry. rewrite Hsplit.
  destruct (String.eqb_spec (strip (join "|" fields)) "") as [E|_].
  - exfalso. revert E. now apply (strip_not_blank "|").
  - simpl. unfold event_of_parts. simpl.
    rewrite !item_or_empty_nth. simpl. rewrite !nth_map_strip. reflexivity.
Qed.

Lemma parse_sel_line_round_trip_witness :
  _parse_sel_output "7 | 01/02/2024 | 10:00:00 | Fan 1 | Lower Critical" (VInt 50)
  = Ok [VDict [("id", VStr "7"); ("timestamp", VStr "01/02/2024 10:00:00");
               ("sensor", VStr "Fan 1"); ("event", VStr "Lower Critical");
               ("value", VStr "")]].
Proof.
  apply (parse_sel_line_round_trip "7 " " 01/02/2024 " " 10:00:00 " " Fan 1 "
           [" Lower Critical"] 50).
  - lia.
  - intros f [<-|[<-|[<-|[<-|[<-|[]]]]]]; split; reflexivity.
Defined.

(** ** The boot parameters *)

Lemma split_first_none (sep : ascii) (s : string) :
  has_char sep s = false -> split_first sep s = None.
Proof.
  induction s as [|c s IH]; simpl; [reflexivity|].
  intros H. apply orb_false_iff in H as [Hc Hs].
  now rewrite Hc, IH.
Qed.

Lemma split_first_app (sep : ascii) (key val : string) :
  has_char sep key = false ->
  split_first sep (key ++ String sep val) = Some (key, val).
Proof.
  induction key as [|c key IH]; simpl.
  - intros _. now rewrite Ascii.eqb_refl.
  - intros H. apply orb_false_iff in H as [Hc Hk].
    now rewrite Hc, IH.
Qed.

Lemma parse_boot_line_step (boot_info : dict) (line : string) :
  parse_boot_line boot_info line
  = match split_first ":" line with
    | Some (key, val) => dict_set boot_info (boot_key key) (VStr (strip val))
    | None => boot_info
    end.
Proof.
  unfold parse_boot_line, boot_key. destruct (has_char ":" line) eqn:E; [reflexivity|].
  now rewrite split_first_none.
Qed.

Lemma lower_char_replace_space (c : ascii) :
  lower_char (if Ascii.eqb (lower_char c) " " then "_"%char else lower_char c)
  = (if Ascii.eqb (lower_char c) " " then "_"%char else lower_char c).
Proof.
  destruct c as [[] [] [] [] [] [] [] []]; reflexivity.
Qed.

Lemma boot_key_lower (key : string) : lower (boot_key key) = boot_key key.
Proof.
  unfold boot_key. induction (strip key) as [|c s IH]; simpl; [reflexivity|].
  now rewrite lower_char_replace_space, IH.
Qed.

Lemma boot_key_no_space (key : string) : has_char " " (boot_key key) = false.
Proof.
  unfold boot_key. induction (lower (strip key)) as [|c s IH]; simpl; [reflexivity|].
  rewrite IH. destruct (Ascii.eqb_spec c " "); [reflexivity|].
  destruct (Ascii.eqb_spec c " "); [contradiction | reflexivity].
Qed.

Lemma dict_set_keys_in (d : dict) (k k' : string) (v : value) :
  In k' (dict_keys (dict_set d k v)) -> k' = k \/ In k' (dict_keys d).
Proof.
  rewrite dict_set_keys. destruct (has_key d k); [auto|].
  intros H. apply in_app_or in H as [H|[<-|[]]]; auto.
Qed.

(** X5. Every key of the parsed boot parameters is normalised: it holds
    no space and no letter that lower-casing would change. *)
Theorem parse_boot_device_output_keys (output k : string) :
  In k (dict_keys (_parse_boot_device_output output)) ->
  has_char " " k = false /\ lower k = k.
Proof.
  unfold _parse_boot_device_output.
  assert (H : forall lines d,
             (forall k', In k' (dict_keys d) -> has_char " " k' = false /\ lower k' = k') ->
             In k (dict_keys (fold_left parse_boot_line lines d)) ->
             has_char " " k = false /\ lower k = k).
  { induction lines as [|line lines IH]; intros d Hd; simpl; [apply Hd|].
    apply IH. intros k'. rewrite parse_boot_line_step.
    destruct (split_first ":" line) as [[key val]|]; [|apply Hd].
    intros Hin. apply dict_set_keys_in in Hin as [->|Hin]; [|now apply Hd].
    split; [apply boot_key_no_space | apply boot_key_lower]. }
  apply H. intros k' [].
Qed.

Lemma parse_boot_device_output_keys_witness :
  let output := String.concat (String newline "")
                  ["Boot parameter version: 1";
                   "Boot Flags :";
                   "   - Boot Device Selector : Force PXE"] in
  In "-_boot_device_selector" (dict_keys (_parse_boot_device_output output))
  /\ has_char " " "-_boot_device_selector" = false
  /\ lower "-_boot_device_selector" = "-_boot_device_selector".
Proof.
  intros output.
  assert (Hin : In "-_boot_device_selector" (dict_keys (_parse_boot_device_output output)))
    by (simpl; tauto).
  split; [exact Hin|].
  exact (parse_boot_device_output_keys output _ Hin).
Defined.

Lemma parse_boot_line_other (d : dict) (k line : string) :
  ~ stored_as k line ->
  dict_get (parse_boot_line d line) k = dict_get d k.
Proof.
  intros H. rewrite parse_boot_line_step.
  destruct (split_first ":" line) as [[key val]|] eqn:E; [|reflexivity].
  apply dict_get_set_other. intros Heq. apply H. unfold stored_as. eauto.
Qed.

Lemma parse_boot_rest_other (k : string) (post : list string) (d : dict) :
  (forall line, In line post -> ~ stored_as k line) ->
  dict_get (fold_left parse_boot_line post d) k = dict_get d k.
Proof.
  revert d; induction post as [|line post IH]; intros d H; simpl; [reflexivity|].
  rewrite IH by (intros l Hl; apply H; now right).
  apply parse_boot_line_other, H. now left.
Qed.

(** X6. In the parsed boot parameters, a line [key:value] whose key
    holds no colon is found under its normalised key with the trimmed
    text after the first colon (further colons stay in the value),
    provided no later line is stored under the same key; and a key
    under which no line is stored (lines without a colon store nothing)
    is absent. *)
Theorem parse_boot_device_output_lookup (output : string) :
  (forall pre key val post,
      split_on newline output = (pre ++ (key ++ String ":" val)%string :: post)%list ->
      has_char ":" key = false ->
      (forall line, In line post -> ~ stored_as (boot_key key) line) ->
      dict_get (_parse_boot_device_output output) (boot_key key)
      = Some (VStr (strip val)))
  /\ (forall k,
        (forall line, In line (split_on newline output) -> ~ stored_as k line) ->
        dict_get (_parse_boot_device_output output) k = None).
Proof.
  unfold _parse_boot_device_output. split.
  - intros pre key val post Hsplit Hkey Hpost.
    rewrite Hsplit, fold_left_app. simpl.
    rewrite parse_boot_rest_other by exact Hpost.
    rewrite parse_boot_line_step, split_first_app by assumption.
    apply dict_get_set_same.
  - intros k H. now rewrite parse_boot_rest_other.
Qed.

Lemma parse_boot_device_output_lookup_witness :
  let output := String.concat (String newline "")
                  ["Boot parameter data: 8000:0000"; "no colon here"] in
  dict_get (_parse_boot_device_output output) "boot_parameter_data"
  = Some (VStr "8000:0000")
  /\ dict_get (_parse_boot_device_output output) "no_colon_here" = None.
Proof.
  intros output. split.
  - apply (proj1 (parse_boot_device_output_lookup output)
             [] "Boot parameter data" " 8000:0000" ["no colon here"]);
      [reflexivity | reflexivity |].
    intros line [<-|[]] (key & val & Hsplit & _). discriminate.
  - apply (proj2 (parse_boot_device_output_lookup output)).
    intros line [<-|[<-|[]]] (key & val & Hsplit & Hkey).
    + injection Hsplit as <- <-. discriminate.
    + discriminate.
Defined.

(** ** The runner and the operations, continued *)

Section MoreServiceProperties.

Variable World : Type.
Variable tool : list value -> Z -> World -> proc_outcome * World.

Local Abbreviation exec := (_execute_ipmi_command World tool).

(** X7. When the bound configuration has a hostname but lacks the
    username, or has both but lacks the password, or holds a username
    that is not a string, the runner returns a failure whose error
    names the problem, and the tool is not run. *)
Theorem runner_without_credentials (self : IPMIService) (command : string)
    (timeout : Z) (d : dict) (h : string) (s : sys World) :
  config self = VDict d ->
  dict_get d "hostname" = Some (VStr h) ->
  let failure error :=
    (Ok [("success", VBool false); ("output", VStr ""); ("error", VStr error);
         ("server_id", server_id_value self); ("hostname", VStr h)], s) in
  (dict_get d "username" = None ->
   exec self command timeout s = failure "'username'")
  /\ (forall u,
        dict_get d "username" = Some u ->
        dict_get d "password" = None ->
        exec self command timeout s = failure "'password'")
  /\ (forall u pw,
        dict_get d "username" = Some u ->
        dict_get d "password" = Some pw ->
        (forall text, u <> VStr text) ->
        exec self command timeout s
        = failure ("sequence item 6: expected str instance, " ++ type_name u ++ " found")).
Proof.
  intros Hc Hh failure. subst failure.
  unfold _execute_ipmi_command, try_except, bind, lift, ret, py_getitem.
  rewrite Hc, Hh. repeat split.
  - intros Hu. now rewrite Hu.
  - intros u Hu Hp. now rewrite Hu, Hp.
  - intros u pw Hu Hp Hnot. rewrite Hu, Hp.
    unfold py_join, ipmitool_cmd. cbn [app py_join_from rbind].
    destruct u; try reflexivity. now destruct (Hnot s0).
Qed.

(** X8. On a connection profile [power_off] runs the tool exactly once,
    with a timeout of 30 seconds: the hard command [chassis power off]
    when [force] is truthy (any non-empty string, also ["false"]), the
    graceful command [chassis power soft] otherwise. *)
Theorem power_off_hard_or_soft (self : IPMIService) (force : value)
    (h u p : string) (s : sys World) :
  profile self = Some (h, u, p) ->
  let cmd := [VStr "ipmitool"; VStr "-I"; VStr "lanplus"; VStr "-H"; VStr h;
              VStr "-U"; VStr u; VStr "-P"; VStr p; VStr "chassis"; VStr "power";
              VStr (if truthy force then "off" else "soft")] in
  power_off World tool self force s
  = (Ok (normalized self (VStr h) (fst (tool cmd 30%Z (world s)))),
     {| world := snd (tool cmd 30%Z (world s));
        calls := (calls s ++ [(cmd, 30%Z)])%list |}).
Proof.
  intros Hp cmd. subst cmd. unfold power_off.
  destruct (truthy force); now rewrite (execute_on_profile _ _ _ _ _ _ _ _ _ Hp).
Qed.

(** X9. On a connection profile the health check first runs [chassis
    status].  If that fails, the check fails with the error of that
    command and nothing else is run.  If it succeeds, the check runs
    [chassis power status] and succeeds whatever the second command
    gives: its details hold [power_status] exactly when the second
    command succeeded. *)
Theorem check_health_probes (self : IPMIService) (h u p : string) (s : sys World) :
  profile self = Some (h, u, p) ->
  let cmd command := ipmitool_cmd (VStr h) (VStr u) (VStr p) command in
  let details output :=
    [("ipmi_connection", VStr "healthy"); ("chassis_status", output);
     ("server_id", server_id_value self); ("hostname", VStr h)] in
  exists r1 s1,
    exec self "chassis status" 30 s = (Ok r1, s1)
    /\ calls s1 = (calls s ++ [(cmd "chassis status", 30%Z)])%list
    /\ (succeeded r1 = false ->
        exists error,
          dict_get r1 "error" = Some error
          /\ check_health World tool self s
             = (Ok [("success", VBool false); ("error", error);
                    ("server_id", server_id_value self); ("hostname", VStr h)],
                s1))
    /\ (succeeded r1 = true ->
        exists output r2 s2,
          dict_get r1 "output" = Some output
          /\ exec self "chassis power status" 30 s1 = (Ok r2, s2)
          /\ calls s2 = (calls s ++ [(cmd "chassis status", 30%Z);
                                     (cmd "chassis power status", 30%Z)])%list
          /\ (succeeded r2 = false ->
              check_health World tool self s
              = (Ok [("success", VBool true); ("details", VDict (details output))], s2))
          /\ (succeeded r2 = true ->
              exists text,
                dict_get r2 "output" = Some (VStr text)
                /\ check_health World tool self s
                   = (Ok [("success", VBool true);
                          ("details",
                           VDict (details output
                                  ++ [("power_status", VStr (power_state_of text))])%list)],
                      s2))).
Proof.
  intros Hp cmd details. subst cmd details. cbv beta.
  destruct (profile_fields _ _ _ _ Hp) as (Hh & _).
  pose proof (execute_on_profile World tool self "chassis status" 30 h u p s Hp) as X1.
  set (s1 := {| world := snd (tool (ipmitool_cmd (VStr h) (VStr u) (VStr p)
                                     "chassis status") 30%Z (world s));
                calls := (calls s ++ [(ipmitool_cmd (VStr h) (VStr u) (VStr p)
                                         "chassis status", 30%Z)])%list |}) in *.
  pose proof (execute_on_profile World tool self "chassis power status" 30 h u p s1 Hp)
    as X2.
  set (s2 := {| world := snd (tool (ipmitool_cmd (VStr h) (VStr u) (VStr p)
                                     "chassis power status") 30%Z (world s1));
                calls := (calls s1 ++ [(ipmitool_cmd (VStr h) (VStr u) (VStr p)
                                          "chassis power status", 30%Z)])%list |}) in *.
  destruct (normalized_shape self (VStr h)
              (fst (tool (ipmitool_cmd (VStr h) (VStr u) (VStr p) "chassis status")
                      30%Z (world s))))
    as (b1 & out1 & err1 & E1).
  destruct (normalized_shape self (VStr h)
              (fst (tool (ipmitool_cmd (VStr h) (VStr u) (VStr p) "chassis power status")
                      30%Z (world s1))))
    as (b2 & out2 & err2 & E2).
  rewrite E1 in X1. rewrite E2 in X2.
  exists (command_result self b1 out1 err1 (VStr h)), s1.
  split; [exact X1|]. split; [reflexivity|]. split.
  - intros Hfail. assert (b1 = false) by exact Hfail. subst b1.
    exists err1. split; [reflexivity|].
    unfold check_health, try_except, bind, lift, ret.
    rewrite X1, getitem_success, getitem_error, Hh. reflexivity.
  - intros Hok. assert (b1 = true) by exact Hok. subst b1.
    exists (VStr out1), (command_result self b2 out2 err2 (VStr h)), s2.
    split; [reflexivity|]. split; [exact X2|].
    split; [cbn [calls s2 s1]; now rewrite <- app_assoc|].
    split.
    + intros Hfail. assert (b2 = false) by exact Hfail. subst b2.
      unfold check_health, get_power_status, try_except, bind, lift, ret.
      rewrite X1, getitem_success, getitem_output, Hh.
      cbv beta iota delta [truthy]. rewrite X2, getitem_success.
      cbv beta iota delta [truthy]. rewrite getitem_success. reflexivity.
    + intros Hok2. assert (b2 = true) by exact Hok2. subst b2.
      exists out2. split; [reflexivity|].
      unfold check_health, get_power_status, try_except, bind, lift, ret.
      rewrite X1, getitem_success, getitem_output, Hh.
      cbv beta iota delta [truthy]. rewrite X2, getitem_success, getitem_output.
      cbv beta iota delta [truthy str_of]. reflexivity.
Qed.

End MoreServiceProperties.

(** ** Loading the configuration *)

(** X10. A configuration file that exists decides the configuration
    alone: two environments that show the same file at the path give
    the same result, whatever their variables hold. *)
Theorem load_config_file_overrides_environment (env env' : Env) (path : string) :
  file_at env path = file_at env' path ->
  file_at env path <> NoFile ->
  _load_config env path = _load_config env' path.
Proof.
  intros Hsame Hfile. unfold _load_config. rewrite <- Hsame.
  destruct (file_at env path); [contradiction | reflexivity | reflexivity].
Qed.

Lemma load_config_file_overrides_environment_witness :
  _load_config env_file default_config_path
  = _load_config
      {| environ := environ env_single; file_at := file_at env_file |}
      default_config_path.
Proof.
  apply load_config_file_overrides_environment; [reflexivity | discriminate].
Defined.

(** X11. A configuration file that holds a JSON object is checked for
    keys only.  With a [servers] key, the value under it is the
    registry, whatever it is.  Without one, the object itself is the
    single-server configuration when it has the keys [hostname],
    [username] and [password], whatever their values; otherwise the
    load raises a [ValueError] that names the first of the three keys
    that is missing. *)
Theorem load_config_file_checks_keys (env : Env) (path : string) (d : dict) :
  file_at env path = Json (VDict d) ->
  (forall registry,
      dict_get d "servers" = Some registry ->
      _load_config env path = Ok registry)
  /\ (dict_get d "servers" = None ->
      _load_config env path
      = match find (fun field => negb (has_key d field)) required_fields with
        | Some field => Raise (ValueError ("Missing required field: " ++ field))
        | None => Ok (VDict d)
        end).
Proof.
  intros Hfile. unfold _load_config. rewrite Hfile. cbn [py_in rbind].
  unfold has_key at 1. unfold has_key at 1. split.
  - intros registry Hs. rewrite Hs. cbn [py_getitem]. now rewrite Hs.
  - intros Hs. rewrite Hs. unfold required_fields.
    cbn [check_required_fields py_in rbind find].
    destruct (has_key d "hostname"); [|reflexivity].
    destruct (has_key d "username"); [|reflexivity].
    destruct (has_key d "password"); reflexivity.
Qed.

Lemma load_config_file_checks_keys_witness :
  let file d := {| environ := fun _ => None; file_at := fun _ => Json (VDict d) |} in
  _load_config (file [("servers", VList [])]) default_config_path = Ok (VList [])
  /\ _load_config (file [("hostname", VStr ""); ("password", VNone)]) default_config_path
     = Raise (ValueError "Missing required field: username")
  /\ _load_config
       (file [("hostname", VStr ""); ("username", VNone); ("password", VInt 7)])
       default_config_path
     = Ok (VDict [("hostname", VStr ""); ("username", VNone); ("password", VInt 7)]).
Proof.
  intros file. split; [|split].
  - exact (proj1 (load_config_file_checks_keys (file [("servers", VList [])])
                    default_config_path _ eq_refl) (VList []) eq_refl).
  - exact (proj2 (load_config_file_checks_keys
                    (file [("hostname", VStr ""); ("password", VNone)])
                    default_config_path _ eq_refl) eq_refl).
  - exact (proj2 (load_config_file_checks_keys
                    (file [("hostname", VStr ""); ("username", VNone); ("password", VInt 7)])
                    default_config_path _ eq_refl) eq_refl).
Defined.

(** X12. Without a configuration file and without a multi-server value
    (unset or empty), the configuration is read from the three
    single-server variables.  It loads when all three are set and not
    empty, and is then exactly their values; otherwise the load raises
    an exception whose text lists exactly the fields whose variable is
    unset or empty, in the order hostname, username, password. *)
Theorem load_config_single_server_variables (env : Env) (path : string) :
  file_at env path = NoFile ->
  unset_or_empty env "IPMI_HOSTS" = true ->
  let missing :=
    map fst (filter (fun fv => unset_or_empty env (snd fv)) single_server_variables) in
  _load_config env path
  = match missing with
    | [] => Ok (VDict [("hostname", VStr (environ_get env "IPMI_HOST" ""));
                       ("username", VStr (environ_get env "IPMI_USER" ""));
                       ("password", VStr (environ_get env "IPMI_PASSWORD" ""))])
    | _ :: _ =>
        Raise (PlainException
                 ("Missing required environment variables: " ++ repr_list missing
                  ++ ". Please set IPMI_HOST, IPMI_USER, and IPMI_PASSWORD environment variables or provide a config file at "
                  ++ path))
    end.
Proof.
  intros Hfile Hhosts missing. subst missing.
  unfold _load_config. rewrite Hfile.
  assert (Hsingle :
            _load_single_server_env env path
            = match map fst (filter (fun fv => unset_or_empty env (snd fv))
                               single_server_variables) with
              | [] => Ok (VDict [("hostname", VStr (environ_get env "IPMI_HOST" ""));
                                 ("username", VStr (environ_get env "IPMI_USER" ""));
                                 ("password", VStr (environ_get env "IPMI_PASSWORD" ""))])
              | _ :: _ =>
                  Raise (PlainException
                           ("Missing required environment variables: "
                            ++ repr_list
                                 (map fst (filter (fun fv => unset_or_empty env (snd fv))
                                             single_server_variables))
                            ++ ". Please set IPMI_HOST, IPMI_USER, and IPMI_PASSWORD environment variables or provide a config file at "
                            ++ path))
              end).
  { unfold _load_single_server_env, single_server_variables, required_fields,
      unset_or_empty, environ_value, environ_get.
    cbn [filter dict_get String.eqb Ascii.eqb Bool.eqb snd fst map].
    destruct (environ env "IPMI_HOST") as [hv|]; cbn [truthy negb];
      destruct (environ env "IPMI_USER") as [uv|]; cbn [truthy negb];
        destruct (environ env "IPMI_PASSWORD") as [pv|]; cbn [truthy negb];
          repeat match goal with
                 | |- context [String.eqb ?x ""] =>
                     is_var x; destruct (String.eqb x "")
                 end;
          cbn [negb map fst]; reflexivity. }
  unfold unset_or_empty in Hhosts.
  destruct (environ env "IPMI_HOSTS") as [hosts|]; [|exact Hsingle].
  cbn [truthy]. rewrite Hhosts. exact Hsingle.
Qed.

Lemma load_config_single_server_variables_witness :
  let env := {| environ := fun k => if String.eqb k "IPMI_USER" then Some "" else
                                    if String.eqb k "IPMI_HOST" then Some "10.0.0.1" else None;
                file_at := fun _ => NoFile |} in
  _load_config env_single default_config_path
  = Ok (VDict [("hostname", VStr "10.0.0.1"); ("username", VStr "root");
               ("password", VStr "secret")])
  /\ _load_config env "/etc/ipmi/config.json"
     = Raise (PlainException
                "Missing required environment variables: ['username', 'password']. Please set IPMI_HOST, IPMI_USER, and IPMI_PASSWORD environment variables or provide a config file at /etc/ipmi/config.json").
Proof.
  intros env. split.
  - exact (load_config_single_server_variables env_single default_config_path
             eq_refl eq_refl).
  - exact (load_config_single_server_variables env "/etc/ipmi/config.json"
             eq_refl eq_refl).
Defined.

(** ** Building a service *)

(** X13. On a registry that is a mapping: a non-empty server id that is
    a key binds the service to the value under it, and one that is not
    a key raises a [ValueError] that names it (never a [KeyError]);
    without an id (none, or the empty string) a registry with a
    [hostname] key is itself the profile and the id stays as given,
    any other registry binds its first entry and takes its key as the
    id, and an empty registry raises [StopIteration]. *)
Theorem init_binds_profile (env : Env) (d : dict) :
  let path := environ_get env "IPMI_CONFIG_PATH" default_config_path in
  _load_config env path = Ok (VDict d) ->
  (forall id,
      id <> "" ->
      IPMIService_init env (Some id)
      = match dict_get d id with
        | Some bound =>
            Ok {| config_path := path; server_id := Some id;
                  servers_config := VDict d; config := bound |}
        | None => Raise (ValueError ("Server '" ++ id ++ "' not found in configuration"))
        end)
  /\ (forall sid,
        sid = None \/ sid = Some "" ->
        IPMIService_init env sid
        = if has_key d "hostname"
          then Ok {| config_path := path; server_id := sid;
                     servers_config := VDict d; config := VDict d |}
          else match d with
               | [] => Raise StopIteration
               | (first_server, bound) :: _ =>
                   Ok {| config_path := path; server_id := Some first_server;
                         servers_config := VDict d; config := bound |}
               end).
Proof.
  intros path Hload. subst path. unfold IPMIService_init. rewrite Hload.
  cbn [rbind]. split.
  - intros id Hid. cbn [given]. apply String.eqb_neq in Hid. rewrite Hid.
    cbn [negb py_in rbind py_getitem]. unfold has_key.
    destruct (dict_get d id); reflexivity.
  - intros sid [-> | ->]; cbn [given String.eqb negb is_single_server];
      (destruct (has_key d "hostname"); [reflexivity|]);
      cbn [py_keys rbind]; destruct d as [|[k v] d]; try reflexivity;
      cbn [dict_keys map fst py_getitem dict_get]; rewrite String.eqb_refl; reflexivity.
Qed.

Lemma init_binds_profile_witness :
  IPMIService_init env_multi (Some "b")
  = Ok {| config_path := default_config_path; server_id := Some "b";
          servers_config :=
            VDict (_parse_multi_server_env env_multi
                     "a:10.0.0.1:u:p,b:10.0.0.2,c:10.0.0.3:u3:p3");
          config := VDict [("hostname", VStr "10.0.0.2"); ("username", VStr "admin");
                           ("password", VStr "admin")] |}
  /\ IPMIService_init env_multi (Some "z")
     = Raise (ValueError "Server 'z' not found in configuration")
  /\ (exists service,
        IPMIService_init env_multi (Some "") = Ok service
        /\ server_id service = Some "a").
Proof.
  destruct (init_binds_profile env_multi
              (_parse_multi_server_env env_multi
                 "a:10.0.0.1:u:p,b:10.0.0.2,c:10.0.0.3:u3:p3") eq_refl)
    as [Hid Hdefault].
  split; [|split].
  - exact (Hid "b" ltac:(discriminate)).
  - exact (Hid "z" ltac:(discriminate)).
  - eexists. split; [exact (Hdefault (Some "") (or_intror eq_refl)) | reflexivity].
Defined.

Lemma parse_nothing_accepted (env : Env) (entries : list string) (d : dict) :
  (forall e, In e entries ->
             length (split_on ":" (strip e)) <> 2 /\ length (split_on ":" (strip e)) < 4) ->
  fold_left (parse_host_config env) entries d = d.
Proof.
  revert d; induction entries as [|e entries IH]; intros d H; simpl; [reflexivity|].
  rewrite IH by (intros e' He'; apply H; now right).
  destruct (H e (or_introl eq_refl)) as [H2 H4].
  unfold parse_host_config.
  destruct (4 <=? length (split_on ":" (strip e))) eqn:E4.
  - apply Nat.leb_le in E4. lia.
  - destruct (length (split_on ":" (strip e)) =? 2) eqn:E2; [|reflexivity].
    apply Nat.eqb_eq in E2. contradiction.
Qed.

(** X14. Without a configuration file, a multi-server value that is not
    empty but has no entry of 2 parts or of 4 or more leaves the
    registry empty: the default service and the dispatcher cannot be
    built ([StopIteration]), whatever the single-server variables
    hold, and every server id is unknown. *)
Theorem empty_registry_cannot_be_used (env : Env) (ipmi_hosts : string) :
  file_at env (environ_get env "IPMI_CONFIG_PATH" default_config_path) = NoFile ->
  environ env "IPMI_HOSTS" = Some ipmi_hosts ->
  ipmi_hosts <> "" ->
  (forall e, In e (split_on "," ipmi_hosts) ->
             length (split_on ":" (strip e)) <> 2 /\ length (split_on ":" (strip e)) < 4) ->
  IPMIService_init env None = Raise StopIteration
  /\ MultiServerIPMIService_init env = Raise StopIteration
  /\ (forall id,
        id <> "" ->
        IPMIService_init env (Some id)
        = Raise (ValueError ("Server '" ++ id ++ "' not found in configuration"))).
Proof.
  intros Hfile Hhosts Hne Hnone.
  assert (Hload : _load_config env (environ_get env "IPMI_CONFIG_PATH" default_config_path)
                  = Ok (VDict [])).
  { unfold _load_config. rewrite Hfile, Hhosts. cbn [truthy].
    apply String.eqb_neq in Hne. rewrite Hne. cbn [negb].
    unfold _parse_multi_server_env. now rewrite parse_nothing_accepted. }
  assert (Hinit : IPMIService_init env None = Raise StopIteration).
  { unfold IPMIService_init. rewrite Hload. reflexivity. }
  split; [exact Hinit|]. split.
  - unfold MultiServerIPMIService_init. now rewrite Hinit.
  - intros id Hid. unfold IPMIService_init. rewrite Hload. cbn [rbind given].
    apply String.eqb_neq in Hid. rewrite Hid. reflexivity.
Qed.

Lemma empty_registry_cannot_be_used_witness :
  let env := {| environ := fun k =>
                  if String.eqb k "IPMI_HOSTS" then Some "10.0.0.1, a:10.0.0.2:admin"
                  else if String.eqb k "IPMI_HOST" then Some "10.0.0.1"
                  else if String.eqb k "IPMI_USER" then Some "root"
                  else if String.eqb k "IPMI_PASSWORD" then Some "secret"
                  else None;
                file_at := fun _ => NoFile |} in
  IPMIService_init env None = Raise StopIteration
  /\ MultiServerIPMIService_init env = Raise StopIteration.
Proof.
  intros env.
  destruct (empty_registry_cannot_be_used env "10.0.0.1, a:10.0.0.2:admin")
    as (Hdefault & Hfleet & _); [reflexivity | reflexivity | discriminate | | auto].
  intros e [<-|[<-|[]]]; simpl; split; (discriminate || lia).
Defined.

Section RegistryToTool.

Variable World : Type.
Variable tool : list value -> Z -> World -> proc_outcome * World.

(** X15. Without a configuration file, an entry [id:host:user:pass] of
    the multi-server value (4 parts or more, a non-empty id, no later
    accepted entry with the same id) reaches the tool unchanged: the
    service built for [id] exists, and every command it runs is one
    invocation [ipmitool -I lanplus -H host -U user -P pass ...] whose
    result names [id] and [host]. *)
Theorem registry_entry_reaches_tool (env : Env) (ipmi_hosts : string)
    (pre post rest : list string) (e id h u p command : string) (timeout : Z)
    (s : sys World) :
  file_at env (environ_get env "IPMI_CONFIG_PATH" default_config_path) = NoFile ->
  environ env "IPMI_HOSTS" = Some ipmi_hosts ->
  ipmi_hosts <> "" ->
  split_on "," ipmi_hosts = (pre ++ e :: post)%list ->
  split_on ":" (strip e) = id :: h :: u :: p :: rest ->
  id <> "" ->
  (forall e', In e' post -> ~ accepted_as id e') ->
  exists service r s',
    IPMIService_init env (Some id) = Ok service
    /\ _execute_ipmi_command World tool service command timeout s = (Ok r, s')
    /\ calls s'
       = (calls s
          ++ [(([VStr "ipmitool"; VStr "-I"; VStr "lanplus"; VStr "-H"; VStr h;
                 VStr "-U"; VStr u; VStr "-P"; VStr p]
                ++ map VStr (split_ws command))%list, timeout)])%list
    /\ dict_get r "server_id" = Some (VStr id)
    /\ dict_get r "hostname" = Some (VStr h).
Proof.
  intros Hfile Hhosts Hne Hsplit Hparts Hid Hpost.
  assert (Hload : _load_config env (environ_get env "IPMI_CONFIG_PATH" default_config_path)
                  = Ok (VDict (_parse_multi_server_env env ipmi_hosts))).
  { unfold _load_config. rewrite Hfile, Hhosts. cbn [truthy].
    apply String.eqb_neq in Hne. now rewrite Hne. }
  assert (Hget : dict_get (_parse_multi_server_env env ipmi_hosts) id
                 = Some (VDict [("hostname", VStr h); ("username", VStr u);
                                ("password", VStr p)])).
  { unfold _parse_multi_server_env. rewrite Hsplit, fold_left_app. simpl.
    rewrite parse_rest_other by exact Hpost.
    unfold parse_host_config. rewrite Hparts. simpl. apply dict_get_set_same. }
  assert (Hinit : IPMIService_init env (Some id)
                  = Ok {| config_path := environ_get env "IPMI_CONFIG_PATH" default_config_path;
                          server_id := Some id;
                          servers_config := VDict (_parse_multi_server_env env ipmi_hosts);
                          config := VDict [("hostname", VStr h); ("username", VStr u);
                                           ("password", VStr p)] |}).
  { unfold IPMIService_init. rewrite Hload. cbn [rbind given].
    apply String.eqb_neq in Hid. rewrite Hid. cbn [negb py_in rbind py_getitem].
    unfold has_key. now rewrite Hget. }
  do 3 eexists. split; [exact Hinit|]. split.
  - apply (execute_on_profile World tool _ command timeout h u p s). reflexivity.
  - split; [reflexivity|].
    match goal with
    | |- context [normalized ?a ?b ?c] =>
        destruct (normalized_shape a b c) as (b0 & out & err & ->)
    end.
    split; reflexivity.
Qed.

Lemma check_keywords_refuses (m : method World) (keywords : list string) (k : string) :
  In k keywords ->
  existsb (String.eqb k) (map fst (params World m)) = false ->
  exists e, check_keywords World m keywords = Raise e.
Proof.
  intros Hin Hk. induction keywords as [|k' keywords IH]; [contradiction|].
  simpl. destruct (String.eqb k' "self"); [eauto|].
  destruct (existsb (String.eqb k') (map fst (params World m))) eqn:E; [|eauto].
  destruct Hin as [->|Hin]; [congruence | auto].
Qed.

Lemma dispatch_each_refused (env : Env) (operation : string) (kwargs : dict)
    (ids : list string) (s : sys World) :
  (forall sid s0,
      exists d, dispatch World tool env operation kwargs sid s0 = (Ok (VDict d), s0)
                /\ succeeded d = false) ->
  snd (dispatch_each World tool env operation kwargs ids s) = s
  /\ Forall (fun r => (exists d, r = VDict d) /\ is_success r = false)
       (dict_values (fst (dispatch_each World tool env operation kwargs ids s))).
Proof.
  intros H. induction ids as [|sid ids [IHs IHf]]; simpl; [split; [reflexivity|constructor]|].
  destruct (H sid s) as (d & E & Hd). rewrite E.
  destruct (dispatch_each World tool env operation kwargs ids s) as [entries s2].
  simpl in *. split; [assumption|]. constructor; [|assumption].
  split; [eauto | exact Hd].
Qed.

Lemma count_successful_none (values : list value) :
  Forall (fun r => (exists d, r = VDict d) /\ is_success r = false) values ->
  count_successful values = Ok 0.
Proof.
  induction 1 as [|r values [[d ->] Hr] _ IH]; simpl; [reflexivity|].
  rewrite IH. simpl in *. unfold succeeded in Hr.
  destruct (dict_get d "success") as [v|]; simpl; [now rewrite Hr | reflexivity].
Qed.

(** X16. A broadcast whose operation name is not a method, or is a
    method given a keyword it does not take, runs no command at all:
    every registered server gets a failure entry, [successful] is 0 and
    the state of the world is untouched.  The operation names meant are
    those that do not begin with an underscore. *)
Theorem refused_broadcast_runs_nothing (self : MultiServerIPMIService) (env : Env)
    (operation : string) (kwargs : dict) (s : sys World) :
  NoDup (servers self) ->
  starts_with_underscore operation = false ->
  match assoc (public_methods World tool) operation with
  | Some m =>
      exists k, In k (dict_keys kwargs)
                /\ existsb (String.eqb k) (map fst (params World m)) = false
  | None => True
  end ->
  exists results,
    execute_on_all_servers World tool self env operation kwargs s
    = (Ok [("operation", VStr operation);
           ("total_servers", VInt (Z.of_nat (length (servers self))));
           ("successful", VInt 0);
           ("results", VDict results)],
       s)
    /\ dict_keys results = servers self
    /\ forall r, In r (dict_values results) -> is_success r = false.
Proof.
  intros Hnd _ Hrefused.
  assert (Hd : forall sid s0,
             exists d, dispatch World tool env operation kwargs sid s0 = (Ok (VDict d), s0)
                       /\ succeeded d = false).
  { intros sid s0. unfold dispatch, attempt, try_except, bind, lift, ret.
    destruct (get_service_for_server env sid) as [svc|e];
      [|unfold failure_entry; eauto].
    unfold getattr.
    destruct (assoc (public_methods World tool) operation) as [m|].
    - destruct Hrefused as (k & Hin & Hk).
      destruct (check_keywords_refuses m _ k Hin Hk) as [e He].
      unfold call, bind, lift. rewrite He. unfold failure_entry. eauto.
    - destruct (assoc (data_attributes svc) operation);
        unfold call, lift, failure_entry; eauto. }
  destruct (dispatch_each_refused env operation kwargs (servers self) s Hd) as [Hs Hf].
  exists (fst (dispatch_each World tool env operation kwargs (servers self) s)).
  split; [|split].
  - unfold execute_on_all_servers, bind, lift, ret.
    rewrite dispatch_all_entries by (auto; reflexivity).
    cbn [app]. rewrite Hs, count_successful_none by assumption. reflexivity.
  - apply dispatch_each_keys.
  - intros r Hr. rewrite Forall_forall in Hf. now apply Hf.
Qed.

End RegistryToTool.

Lemma registry_entry_reaches_tool_witness :
  exists service r s',
    IPMIService_init env_multi (Some "c") = Ok service
    /\ _execute_ipmi_command unit always_up service "chassis  power on" 30 idle = (Ok r, s')
    /\ calls s'
       = [([VStr "ipmitool"; VStr "-I"; VStr "lanplus"; VStr "-H"; VStr "10.0.0.3";
            VStr "-U"; VStr "u3"; VStr "-P"; VStr "p3"; VStr "chassis"; VStr "power";
            VStr "on"], 30%Z)]
    /\ dict_get r "server_id" = Some (VStr "c")
    /\ dict_get r "hostname" = Some (VStr "10.0.0.3").
Proof.
  apply (registry_entry_reaches_tool unit always_up env_multi
           "a:10.0.0.1:u:p,b:10.0.0.2,c:10.0.0.3:u3:p3"
           ["a:10.0.0.1:u:p"; "b:10.0.0.2"] [] [] "c:10.0.0.3:u3:p3"
           "c" "10.0.0.3" "u3" "p3" "chassis  power on" 30 idle);
    try reflexivity; try discriminate.
  intros e' [].
Defined.

Lemma refused_broadcast_runs_nothing_witness :
  exists results,
    execute_on_all_servers unit always_up fleet_file env_file "power_on"
      [("force", VBool true)] idle
    = (Ok [("operation", VStr "power_on"); ("total_servers", VInt 3);
           ("successful", VInt 0); ("results", VDict results)],
       idle)
    /\ dict_keys results = ["a"; "b"; "c"]
    /\ forall r, In r (dict_values results) -> is_success r = false.
Proof.
  apply (refused_broadcast_runs_nothing unit always_up fleet_file env_file "power_on"
           [("force", VBool true)] idle servers_of_fleet_file_distinct eq_refl).
  exists "force". split; [now left | reflexivity].
Defined.

(** * Properties of the HTTP front end *)

(** X17. The two module-level services are available together or not
    at all: when the dispatcher can be built, the default service is
    available too and is the dispatcher's own base service; when it
    cannot, both are [None]. *)
Theorem init_services_together (env : Env) :
  (forall multi,
      MultiServerIPMIService_init env = Ok multi ->
      init_services env
      = {| multi_server_service := Some multi;
           ipmi_service := Some (base_service multi) |})
  /\ (forall e,
        MultiServerIPMIService_init env = Raise e ->
        init_services env = no_services).
Proof.
  unfold init_services. split.
  - intros multi Hm. rewrite Hm. revert Hm. unfold MultiServerIPMIService_init.
    destruct (IPMIService_init env None) as [base|]; [|discriminate]. cbn [rbind].
    destruct (get_available_servers base); [|discriminate]. cbn [rbind].
    now intros [= <-].
  - intros e Hm. now rewrite Hm.
Qed.

Lemma init_services_together_witness :
  init_services env_file
  = {| multi_server_service := Some fleet_file;
       ipmi_service := Some (base_service fleet_file) |}
  /\ init_services {| environ := fun _ => None; file_at := fun _ => NoFile |}
     = no_services.
Proof.
  split.
  - exact (proj1 (init_services_together env_file) fleet_file eq_refl).
  - exact (proj2 (init_services_together
                    {| environ := fun _ => None; file_at := fun _ => NoFile |})
             _ eq_refl).
Defined.

(** X18. The server of a request.  A request that is not JSON names no
    server, whatever its query string holds.  In a JSON request a
    non-empty [server_id] of the query string wins and the body is not
    read (it may even be invalid); without one, the [server_id] of a
    JSON object is taken as it is, and [None] when the object has none. *)
Theorem handle_server_parameter_sources (req : request) :
  (payload req = NotJson -> handle_server_parameter req = Ok VNone)
  /\ (forall id,
        payload req <> NotJson ->
        args req "server_id" = Some id ->
        id <> "" ->
        handle_server_parameter req = Ok (VStr id))
  /\ (forall document,
        payload req = JsonBody (VDict document) ->
        args req "server_id" = None \/ args req "server_id" = Some "" ->
        handle_server_parameter req
        = Ok (match dict_get document "server_id" with
              | Some v => v
              | None => VNone
              end)).
Proof.
  unfold handle_server_parameter, args_get. repeat split.
  - now intros ->.
  - intros id Hjson Hq Hid. rewrite Hq. cbn [truthy].
    apply String.eqb_neq in Hid. rewrite Hid.
    destruct (payload req); [contradiction | reflexivity | reflexivity].
  - intros document Hp [Hq|Hq]; rewrite Hp, Hq; reflexivity.
Qed.

Lemma handle_server_parameter_sources_witness :
  let query k := if String.eqb k "server_id" then Some "b" else None in
  handle_server_parameter {| args := query; payload := NotJson |} = Ok VNone
  /\ handle_server_parameter {| args := query; payload := InvalidBody "400 Bad Request" |}
     = Ok (VStr "b")
  /\ handle_server_parameter
       {| args := fun _ => None;
          payload := JsonBody (VDict [("server_id", VStr "c")]) |}
     = Ok (VStr "c").
Proof.
  intros query. split; [|split].
  - exact (proj1 (handle_server_parameter_sources
                    {| args := query; payload := NotJson |}) eq_refl).
  - apply (proj1 (proj2 (handle_server_parameter_sources
                           {| args := query; payload := InvalidBody "400 Bad Request" |})));
      [discriminate | reflexivity | discriminate].
  - exact (proj2 (proj2 (handle_server_parameter_sources
                           {| args := fun _ => None;
                              payload := JsonBody (VDict [("server_id", VStr "c")]) |}))
             [("server_id", VStr "c")] eq_refl (or_introl eq_refl)).
Defined.

Lemma filter_partition_length {A} (f : A -> bool) (l : list A) :
  length l = length (filter f l) + length (filter (fun x => negb (f x)) l).
Proof.
  induction l as [|x l IH]; simpl; [reflexivity|].
  destruct (f x); simpl; lia.
Qed.

Section ControllerProperties.

Variable World : Type.
Variable tool : list value -> Z -> World -> proc_outcome * World.

Lemma broadcast_entries (service : MultiServerIPMIService) (env : Env)
    (operation : string) (kwargs : dict) (s : sys World) :
  NoDup (servers service) ->
  operation <> "get_available_servers" ->
  let results := fst (dispatch_each World tool env operation kwargs (servers service) s) in
  execute_on_all_servers World tool service env operation kwargs s
  = (Ok [("operation", VStr operation);
         ("total_servers", VInt (Z.of_nat (length results)));
         ("successful",
          VInt (Z.of_nat (length (filter is_success (dict_values results)))));
         ("results", VDict results)],
     snd (dispatch_each World tool env operation kwargs (servers service) s)).
Proof.
  intros Hnd Hne results. unfold execute_on_all_servers, bind, lift, ret.
  rewrite dispatch_all_entries by (auto; reflexivity).
  cbn [app]. fold results.
  rewrite count_successful_mappings by now apply dispatch_each_mappings.
  assert (Hlen : length results = length (servers service)).
  { rewrite <- (dispatch_each_keys World tool env operation kwargs (servers service) s).
    unfold dict_keys. now rewrite length_map. }
  now rewrite Hlen.
Qed.

Lemma bulk_summary_counts (operation : string) (results : dict) :
  bulk_summary [("operation", VStr operation);
                ("total_servers", VInt (Z.of_nat (length results)));
                ("successful",
                 VInt (Z.of_nat (length (filter is_success (dict_values results)))));
                ("results", VDict results)]
  = Ok (VDict [("total_servers", VInt (Z.of_nat (length results)));
               ("successful",
                VInt (Z.of_nat (length (filter is_success (dict_values results)))));
               ("failed",
                VInt (Z.of_nat (length (filter (fun r => negb (is_success r))
                                          (dict_values results)))))]).
Proof.
  assert (Hz : (Z.of_nat (length results)
                - Z.of_nat (length (filter is_success (dict_values results))))%Z
               = Z.of_nat (length (filter (fun r => negb (is_success r))
                                     (dict_values results)))).
  { pose proof (filter_partition_length is_success (dict_values results)) as H.
    unfold dict_values in H at 1. rewrite length_map in H. lia. }
  unfold bulk_summary. cbn [py_getitem dict_get String.eqb Ascii.eqb Bool.eqb rbind
                            py_sub as_int].
  now rewrite Hz.
Qed.

(** X19. The three routes that act on every server without reading the
    request (power on, sensor readings, power status) never raise.
    When the dispatcher is available they answer 200 with status
    [success], however many servers failed, even all of them; the
    summary counts the entries, those whose success flag is true, and
    the others as [failed].  When it is not available they answer 500
    and run nothing. *)
Theorem bulk_routes_answer (ctl : services) (env : Env) (s : sys World) :
  (forall service,
      multi_server_service ctl = Some service ->
      NoDup (servers service) ->
      let run operation := dispatch_each World tool env operation [] (servers service) s in
      bulk_power_on World tool ctl env s
      = (Ok (bulk_answer [("operation", VStr "bulk_power_on")] (fst (run "power_on"))),
         snd (run "power_on"))
      /\ bulk_sensor_readings World tool ctl env s
         = (Ok (bulk_answer [("operation", VStr "bulk_sensor_readings")]
                  (fst (run "get_sensor_data"))),
            snd (run "get_sensor_data"))
      /\ all_servers_status World tool ctl env s
         = (Ok (bulk_answer [("operation", VStr "get_power_status")]
                  (fst (run "get_power_status"))),
            snd (run "get_power_status")))
  /\ (multi_server_service ctl = None ->
      bulk_power_on World tool ctl env s = (Ok service_unavailable, s)
      /\ bulk_sensor_readings World tool ctl env s = (Ok service_unavailable, s)
      /\ all_servers_status World tool ctl env s = (Ok service_unavailable, s)
      /\ list_servers World ctl s = (Ok service_unavailable, s)).
Proof.
  split.
  - intros service Hs Hnd run. subst run. cbv beta.
    unfold bulk_power_on, bulk_sensor_readings, all_servers_status, get_servers_status,
      try_except, bind, lift, ret.
    rewrite Hs.
    rewrite !broadcast_entries by (auto; discriminate).
    rewrite !bulk_summary_counts.
    repeat split; reflexivity.
  - intros Hs.
    unfold bulk_power_on, bulk_sensor_readings, all_servers_status, list_servers,
      try_except, ret.
    rewrite Hs. repeat split; reflexivity.
Qed.

(** X20. Powering off every server reads [force] from the request: a
    request that is not JSON, or a JSON object without [force], powers
    off gracefully ([force] false); a JSON object hands its [force] to
    every server as it is; a JSON body that is not an object, or does
    not parse, is answered 500 and no server is touched. *)
Theorem bulk_power_off_reads_force (ctl : services) (service : MultiServerIPMIService)
    (env : Env) (req : request) (s : sys World) :
  multi_server_service ctl = Some service ->
  NoDup (servers service) ->
  let run force :=
    dispatch_each World tool env "power_off" [("force", force)] (servers service) s in
  let powered force :=
    (Ok (bulk_answer [("operation", VStr "bulk_power_off"); ("force", force)]
           (fst (run force))),
     snd (run force)) in
  (payload req = NotJson ->
   bulk_power_off World tool ctl env req s = powered (VBool false))
  /\ (forall document,
        payload req = JsonBody (VDict document) ->
        bulk_power_off World tool ctl env req s
        = powered (match dict_get document "force" with
                   | Some force => force
                   | None => VBool false
                   end))
  /\ (forall document,
        payload req = JsonBody document ->
        (forall d, document <> VDict d) ->
        bulk_power_off World tool ctl env req s
        = (Ok (route_error (AttributeError ("'" ++ type_name document
                                            ++ "' object has no attribute 'get'"))),
           s))
  /\ (forall msg,
        payload req = InvalidBody msg ->
        bulk_power_off World tool ctl env req s = (Ok (route_error (OtherError msg)), s)).
Proof.
  intros Hs Hnd run powered. subst run powered. cbv beta.
  unfold bulk_power_off, try_except, bind, lift, ret. rewrite Hs.
  split; [|split; [|split]].
  - intros ->. rewrite broadcast_entries by (auto; discriminate).
    now rewrite bulk_summary_counts.
  - intros document ->. cbn [py_get].
    rewrite broadcast_entries by (auto; discriminate).
    now rewrite bulk_summary_counts.
  - intros document -> Hnot.
    destruct document; try reflexivity. now destruct (Hnot d).
  - now intros msg ->.
Qed.

(** The lookup of ["default"] in a single-server configuration. *)
Lemma default_dispatch_fails (env : Env) (d : dict) (operation : string) (kwargs : dict)
    (s : sys World) :
  _load_config env (environ_get env "IPMI_CONFIG_PATH" default_config_path) = Ok (VDict d) ->
  has_key d "default" = false ->
  dispatch World tool env operation kwargs "default" s
  = (Ok (VDict [("success", VBool false);
                ("error", VStr "Server 'default' not found in configuration");
                ("server_id", VStr "default")]),
     s).
Proof.
  intros Hload Hdef.
  unfold dispatch, attempt, try_except, bind, lift, get_service_for_server,
    IPMIService_init.
  rewrite Hload. simpl. now rewrite Hdef.
Qed.

(** X21. In single-server mode (the loaded configuration is a mapping
    with a [hostname] field and no field called [default]) the services
    are available, the list of servers is [default], and the three
    routes that act on every server answer 200 with status [success]
    while reporting one server, none successful and one failed, and
    without running the tool. *)
Theorem single_server_bulk_routes (env : Env) (d : dict) (s : sys World) :
  _load_config env (environ_get env "IPMI_CONFIG_PATH" default_config_path) = Ok (VDict d) ->
  has_key d "hostname" = true ->
  has_key d "default" = false ->
  let ctl := init_services env in
  let answered operation :=
    (Ok (VDict [("status", VStr "success"); ("operation", VStr operation);
                ("summary", VDict [("total_servers", VInt 1); ("successful", VInt 0);
                                   ("failed", VInt 1)]);
                ("results",
                 VDict [("default",
                         VDict [("success", VBool false);
                                ("error",
                                 VStr "Server 'default' not found in configuration");
                                ("server_id", VStr "default")])])], 200%Z),
     s) in
  list_servers World ctl s
  = (Ok (VDict [("status", VStr "success"); ("servers", VList [VStr "default"]);
                ("count", VInt 1)], 200%Z), s)
  /\ bulk_power_on World tool ctl env s = answered "bulk_power_on"
  /\ bulk_sensor_readings World tool ctl env s = answered "bulk_sensor_readings"
  /\ all_servers_status World tool ctl env s = answered "get_power_status".
Proof.
  intros Hload Hhost Hdef ctl answered. subst ctl answered. cbv beta.
  assert (Hctl : exists base,
             init_services env
             = {| multi_server_service :=
                    Some {| base_service := base; servers := ["default"] |};
                  ipmi_service := Some base |}).
  { unfold init_services, MultiServerIPMIService_init, IPMIService_init,
      get_available_servers.
    rewrite Hload. simpl. rewrite Hhost. simpl. rewrite Hhost. simpl. eauto. }
  destruct Hctl as [base ->].
  unfold list_servers, bulk_power_on, bulk_sensor_readings, all_servers_status,
    get_servers_status, execute_on_all_servers, try_except, bind, lift, ret.
  cbn [multi_server_service servers dispatch_all].
  unfold bind, ret. rewrite !(default_dispatch_fails env d) by assumption.
  repeat split; reflexivity.
Qed.

End ControllerProperties.

(** * The further properties on concrete runs *)

Lemma runner_without_credentials_witness :
  let service d := {| config_path := default_config_path; server_id := Some "b";
                      servers_config := VDict []; config := VDict d |} in
  _execute_ipmi_command script play
    (service [("hostname", VStr "10.0.0.2"); ("password", VStr "p")])
    "chassis status" 30 (start [Completed 0 "ok" ""])
  = (Ok [("success", VBool false); ("output", VStr ""); ("error", VStr "'username'");
         ("server_id", VStr "b"); ("hostname", VStr "10.0.0.2")],
     start [Completed 0 "ok" ""])
  /\ _execute_ipmi_command script play
       (service [("hostname", VStr "10.0.0.2"); ("username", VStr "u")])
       "chassis status" 30 (start [Completed 0 "ok" ""])
     = (Ok [("success", VBool false); ("output", VStr ""); ("error", VStr "'password'");
            ("server_id", VStr "b"); ("hostname", VStr "10.0.0.2")],
        start [Completed 0 "ok" ""])
  /\ _execute_ipmi_command script play
       (service [("hostname", VStr "10.0.0.2"); ("username", VNone);
                 ("password", VStr "p")])
       "chassis status" 30 (start [Completed 0 "ok" ""])
     = (Ok [("success", VBool false); ("output", VStr "");
            ("error", VStr "sequence item 6: expected str instance, NoneType found");
            ("server_id", VStr "b"); ("hostname", VStr "10.0.0.2")],
        start [Completed 0 "ok" ""]).
Proof.
  intros service. split; [|split].
  - exact (proj1 (runner_without_credentials script play
                    (service [("hostname", VStr "10.0.0.2"); ("password", VStr "p")])
                    "chassis status" 30 _ "10.0.0.2" (start [Completed 0 "ok" ""])
                    eq_refl eq_refl) eq_refl).
  - exact (proj1 (proj2 (runner_without_credentials script play
                           (service [("hostname", VStr "10.0.0.2"); ("username", VStr "u")])
                           "chassis status" 30 _ "10.0.0.2" (start [Completed 0 "ok" ""])
                           eq_refl eq_refl)) (VStr "u") eq_refl eq_refl).
  - apply (proj2 (proj2 (runner_without_credentials script play
                           (service [("hostname", VStr "10.0.0.2"); ("username", VNone);
                                     ("password", VStr "p")])
                           "chassis status" 30 _ "10.0.0.2" (start [Completed 0 "ok" ""])
                           eq_refl eq_refl)) VNone (VStr "p") eq_refl eq_refl).
    discriminate.
Defined.

Lemma power_off_hard_or_soft_witness :
  snd (power_off script play service_a (VStr "false") (start [Completed 0 "" ""]))
  = {| world := [];
       calls := [((base_cmd_a ++ [VStr "chassis"; VStr "power"; VStr "off"])%list, 30%Z)] |}
  /\ snd (power_off script play service_a (VBool false) (start [Completed 0 "" ""]))
     = {| world := [];
          calls := [((base_cmd_a ++ [VStr "chassis"; VStr "power"; VStr "soft"])%list,
                     30%Z)] |}.
Proof.
  split.
  - now rewrite (power_off_hard_or_soft script play service_a (VStr "false")
                   "10.0.0.1" "u" "p" _ eq_refl).
  - now rewrite (power_off_hard_or_soft script play service_a (VBool false)
                   "10.0.0.1" "u" "p" _ eq_refl).
Defined.

Lemma check_health_probes_witness :
  exists r1 s1,
    _execute_ipmi_command script play service_a "chassis status" 30
      (start [Completed 0 "System Power : on" ""; TimedOut "30 seconds"])
    = (Ok r1, s1)
    /\ succeeded r1 = true
    /\ check_health script play service_a
         (start [Completed 0 "System Power : on" ""; TimedOut "30 seconds"])
       = (Ok [("success", VBool true);
              ("details",
               VDict [("ipmi_connection", VStr "healthy");
                      ("chassis_status", VStr "System Power : on");
                      ("server_id", VStr "a"); ("hostname", VStr "10.0.0.1")])],
          {| world := [];
             calls := [((base_cmd_a ++ [VStr "chassis"; VStr "status"])%list, 30%Z);
                       ((base_cmd_a ++ [VStr "chassis"; VStr "power"; VStr "status"])%list,
                        30%Z)] |}).
Proof.
  destruct (check_health_probes script play service_a "10.0.0.1" "u" "p"
              (start [Completed 0 "System Power : on" ""; TimedOut "30 seconds"]) eq_refl)
    as (r1 & s1 & Hrun & Hcalls & Hfail & Hok).
  exists r1, s1. split; [exact Hrun|].
  assert (Hr1 : succeeded r1 = true) by (injection Hrun as <- _; reflexivity).
  split; [exact Hr1|].
  destruct (Hok Hr1) as (output & r2 & s2 & Hout & Hrun2 & Hcalls2 & Hfail2 & _).
  assert (Hr2 : succeeded r2 = false) by (injection Hrun as _ <-; injection Hrun2 as <- _;
                                          reflexivity).
  rewrite (Hfail2 Hr2).
  injection Hrun as <- <-. injection Hrun2 as _ <-. injection Hout as <-. reflexivity.
Defined.

Lemma bulk_routes_answer_witness :
  fst (bulk_power_on unit always_up (init_services env_file) env_file idle)
  = Ok (VDict [("status", VStr "success"); ("operation", VStr "bulk_power_on");
               ("summary", VDict [("total_servers", VInt 3); ("successful", VInt 2);
                                  ("failed", VInt 1)]);
               ("results",
                VDict (fst (dispatch_each unit always_up env_file "power_on" []
                              ["a"; "b"; "c"] idle)))], 200%Z)
  /\ bulk_power_on unit always_up no_services env_file idle
     = (Ok service_unavailable, idle).
Proof.
  destruct (bulk_routes_answer unit always_up (init_services env_file) env_file idle)
    as [Hup _].
  destruct (Hup fleet_file eq_refl servers_of_fleet_file_distinct) as (Hon & _).
  split.
  - rewrite Hon. reflexivity.
  - exact (proj1 (proj2 (bulk_routes_answer unit always_up no_services env_file idle)
                    eq_refl)).
Defined.

Lemma bulk_power_off_reads_force_witness :
  let ctl := init_services env_file in
  let req document := {| args := fun _ => None; payload := JsonBody document |} in
  fst (bulk_power_off unit always_up ctl env_file
         (req (VDict [("force", VStr "false")])) idle)
  = Ok (bulk_answer [("operation", VStr "bulk_power_off"); ("force", VStr "false")]
          (fst (dispatch_each unit always_up env_file "power_off"
                  [("force", VStr "false")] ["a"; "b"; "c"] idle)))
  /\ bulk_power_off unit always_up ctl env_file (req (VList [])) idle
     = (Ok (VDict [("status", VStr "error");
                   ("message", VStr "'list' object has no attribute 'get'")], 500%Z),
        idle).
Proof.
  intros ctl req.
  split.
  - destruct (bulk_power_off_reads_force unit always_up ctl fleet_file env_file
                (req (VDict [("force", VStr "false")])) idle eq_refl
                servers_of_fleet_file_distinct) as (_ & Hobj & _).
    rewrite (Hobj [("force", VStr "false")] eq_refl). reflexivity.
  - destruct (bulk_power_off_reads_force unit always_up ctl fleet_file env_file
                (req (VList [])) idle eq_refl servers_of_fleet_file_distinct)
      as (_ & _ & Hother & _).
    rewrite (Hother (VList []) eq_refl); [reflexivity | discriminate].
Defined.

Lemma single_server_bulk_routes_witness :
  bulk_power_on script play (init_services env_single) env_single
    (start [Completed 0 "Chassis Power Control: Up/On" ""])
  = (Ok (VDict [("status", VStr "success"); ("operation", VStr "bulk_power_on");
                ("summary", VDict [("total_servers", VInt 1); ("successful", VInt 0);
                                   ("failed", VInt 1)]);
                ("results",
                 VDict [("default",
                         VDict [("success", VBool false);
                                ("error",
                                 VStr "Server 'default' not found in configuration");
                                ("server_id", VStr "default")])])], 200%Z),
     start [Completed 0 "Chassis Power Control: Up/On" ""]).
Proof.
  exact (proj1 (proj2 (single_server_bulk_routes script play env_single
                         [("hostname", VStr "10.0.0.1"); ("username", VStr "root");
                          ("password", VStr "secret")]
                         (start [Completed 0 "Chassis Power Control: Up/On" ""])
                         eq_refl eq_refl eq_refl))).
Defined.

(** * The default server and the listed servers *)

Lemma dict_set_head (d : dict) (k0 k : string) (v0 v : value) :
  exists v', exists d', dict_set ((k0, v0) :: d) k v = (k0, v') :: d'.
Proof.
  simpl. destruct (String.eqb_spec k0 k); [subst|]; eauto.
Qed.

Lemma parse_keeps_first (env : Env) (entries : list string) (k0 : string) (v0 : value)
    (d : dict) :
  exists v' d', fold_left (parse_host_config env) entries ((k0, v0) :: d) = (k0, v') :: d'.
Proof.
  revert v0 d; induction entries as [|e entries IH]; intros v0 d; simpl; [eauto|].
  assert (H : exists v' d', parse_host_config env ((k0, v0) :: d) e = (k0, v') :: d').
  { unfold parse_host_config.
    repeat match goal with
           | |- context [if ?b then _ else _] => destruct b
           end; eauto using dict_set_head. }
  destruct H as (v' & d' & ->). apply IH.
Qed.

(** X22. Without a configuration file, when no accepted entry of the
    multi-server value is named [hostname], the service built without
    a server id is bound to the first accepted entry: its id is the
    first part of the first entry that has 2 parts or 4 or more, and
    its profile is the one the registry holds under that id. *)
Theorem default_server_is_first_accepted (env : Env) (ipmi_hosts : string)
    (pre post : list string) (e id : string) :
  file_at env (environ_get env "IPMI_CONFIG_PATH" default_config_path) = NoFile ->
  environ env "IPMI_HOSTS" = Some ipmi_hosts ->
  ipmi_hosts <> "" ->
  split_on "," ipmi_hosts = (pre ++ e :: post)%list ->
  (forall e', In e' pre ->
              length (split_on ":" (strip e')) <> 2 /\ length (split_on ":" (strip e')) < 4) ->
  accepted_as id e ->
  (forall e', In e' (split_on "," ipmi_hosts) -> ~ accepted_as "hostname" e') ->
  exists service bound,
    IPMIService_init env None = Ok service
    /\ server_id service = Some id
    /\ dict_get (_parse_multi_server_env env ipmi_hosts) id = Some bound
    /\ config service = bound.
Proof.
  intros Hfile Hhosts Hne Hsplit Hpre [Hlen Hid] Hnohost.
  assert (Hload : _load_config env (environ_get env "IPMI_CONFIG_PATH" default_config_path)
                  = Ok (VDict (_parse_multi_server_env env ipmi_hosts))).
  { unfold _load_config. rewrite Hfile, Hhosts. cbn [truthy].
    apply String.eqb_neq in Hne. now rewrite Hne. }
  assert (Hmulti : has_key (_parse_multi_server_env env ipmi_hosts) "hostname" = false).
  { unfold has_key, _parse_multi_server_env.
    now rewrite parse_rest_other by exact Hnohost. }
  assert (Hfirst : exists v d,
             _parse_multi_server_env env ipmi_hosts = (id, v) :: d).
  { unfold _parse_multi_server_env. rewrite Hsplit, fold_left_app.
    rewrite (parse_nothing_accepted env pre []) by exact Hpre. cbn [fold_left].
    assert (Hstep : exists v, parse_host_config env [] e = [(id, v)]).
    { unfold parse_host_config.
      destruct (4 <=? length (split_on ":" (strip e))) eqn:E4;
        [rewrite Hid; simpl; eauto|].
      apply Nat.leb_gt in E4.
      destruct Hlen as [H2|H4]; [|lia]. rewrite H2. rewrite Hid. simpl. eauto. }
    destruct Hstep as [v ->]. apply parse_keeps_first. }
  destruct Hfirst as (v & d & Hreg).
  unfold IPMIService_init. rewrite Hload. cbn [rbind given is_single_server].
  rewrite Hmulti. rewrite Hreg. cbn [py_keys dict_keys map fst rbind py_getitem dict_get].
  rewrite String.eqb_refl. cbn [rbind].
  do 2 eexists. split; [reflexivity|]. split; [reflexivity|].
  split; reflexivity.
Qed.

Lemma default_server_is_first_accepted_witness :
  let env := {| environ := fun k =>
                  if String.eqb k "IPMI_HOSTS"
                  then Some "oops,b:10.0.0.2,a:10.0.0.1:u:p" else None;
                file_at := fun _ => NoFile |} in
  exists service,
    IPMIService_init env None = Ok service
    /\ server_id service = Some "b"
    /\ config service = VDict [("hostname", VStr "10.0.0.2"); ("username", VStr "admin");
                               ("password", VStr "admin")].
Proof.
  intros env.
  destruct (default_server_is_first_accepted env "oops,b:10.0.0.2,a:10.0.0.1:u:p"
              ["oops"] ["a:10.0.0.1:u:p"] "b:10.0.0.2" "b")
    as (service & bound & Hinit & Hid & Hget & Hconfig);
    try reflexivity; try discriminate.
  - intros e' [<-|[]]. simpl. split; [discriminate | lia].
  - split; [now left | reflexivity].
  - intros e' [<-|[<-|[<-|[]]]] [_ Hname]; discriminate.
  - exists service. split; [exact Hinit|]. split; [exact Hid|].
    rewrite Hconfig. injection Hget as <-. reflexivity.
Defined.

(** X23. When the registry is a mapping without a [hostname] key
    (multi-server mode), every id it lists other than the empty string
    can be built, and the service is bound to the value the registry
    holds under that id; the empty string, when listed, builds the
    service of the first entry instead of its own. *)
Theorem listed_servers_can_be_built (env : Env) (d : dict) :
  _load_config env (environ_get env "IPMI_CONFIG_PATH" default_config_path) = Ok (VDict d) ->
  has_key d "hostname" = false ->
  (forall id,
      In id (dict_keys d) ->
      id <> "" ->
      exists service bound,
        get_service_for_server env id = Ok service
        /\ server_id service = Some id
        /\ dict_get d id = Some bound
        /\ config service = bound)
  /\ (In "" (dict_keys d) ->
      exists service first_server bound rest,
        get_service_for_server env "" = Ok service
        /\ d = (first_server, bound) :: rest
        /\ server_id service = Some first_server
        /\ config service = bound).
Proof.
  intros Hload Hmulti. unfold get_service_for_server, IPMIService_init.
  rewrite Hload. cbn [rbind]. split.
  - intros id Hin Hid. cbn [given]. apply String.eqb_neq in Hid. rewrite Hid.
    cbn [negb py_in rbind py_getitem].
    apply has_key_in_keys in Hin. rewrite Hin. cbn [negb]. unfold has_key in Hin.
    destruct (dict_get d id) as [bound|]; [|discriminate].
    do 2 eexists. repeat split; reflexivity.
  - intros Hin. cbn [given String.eqb negb is_single_server]. rewrite Hmulti.
    destruct d as [|[k v] d]; [contradiction|].
    cbn [py_keys dict_keys map fst rbind py_getitem dict_get].
    rewrite String.eqb_refl. cbn [rbind].
    do 4 eexists. repeat split; reflexivity.
Qed.

Lemma listed_servers_can_be_built_witness :
  let env := {| environ := fun k =>
                  if String.eqb k "IPMI_HOSTS" then Some "a:10.0.0.1,:10.0.0.9" else None;
                file_at := fun _ => NoFile |} in
  (exists service,
      get_service_for_server env "a" = Ok service /\ server_id service = Some "a")
  /\ (exists service,
        get_service_for_server env "" = Ok service /\ server_id service = Some "a").
Proof.
  intros env.
  destruct (listed_servers_can_be_built env
              (_parse_multi_server_env env "a:10.0.0.1,:10.0.0.9") eq_refl eq_refl)
    as [Hlisted Hempty].
  split.
  - destruct (Hlisted "a") as (service & bound & Hbuild & Hid & _);
      [simpl; tauto | discriminate |].
    exists service. split; assumption.
  - destruct Hempty as (service & first_server & bound & rest & Hbuild & Hd & Hid & _);
      [simpl; tauto|].
    exists service. split; [exact Hbuild|]. rewrite Hid. now injection Hd as <- _ _.
Defined.

(** * The derived fields of the sensor and event log operations *)

Section DerivedFields.

Variable World : Type.
Variable tool : list value -> Z -> World -> proc_outcome * World.

(** X24. With a hostname in the bound configuration, the sensor and the
    event log operations return; on success the derived list is the
    parse of the returned [output] field and the derived count is the
    length of that list.  A limit that is a string is only looked at
    after a successful command: the event log operation then raises a
    [TypeError], the tool having been run, while a failed command is
    returned as it is. *)
Theorem derived_counts_agree (self : IPMIService) (hn : value) (limit : Z)
    (text : string) (s : sys World) :
  py_getitem (config self) "hostname" = Ok hn ->
  (exists r s',
      get_sensor_data World tool self s = (Ok r, s')
      /\ (succeeded r = true ->
          exists out,
            dict_get r "output" = Some (VStr out)
            /\ dict_get r "sensors" = Some (VList (_parse_sensor_output out))
            /\ dict_get r "sensor_count"
               = Some (VInt (Z.of_nat (length (_parse_sensor_output out))))))
  /\ (exists r s',
        get_system_event_log World tool self (VInt limit) s = (Ok r, s')
        /\ (succeeded r = true ->
            exists out events,
              dict_get r "output" = Some (VStr out)
              /\ _parse_sel_output out (VInt limit) = Ok events
              /\ dict_get r "events" = Some (VList events)
              /\ dict_get r "event_count" = Some (VInt (Z.of_nat (length events)))))
  /\ (exists raw s',
        _execute_ipmi_command World tool self "sel list" 30 s = (Ok raw, s')
        /\ get_system_event_log World tool self (VStr text) s
           = (if succeeded raw
              then Raise (TypeError
                     "slice indices must be integers or None or have an __index__ method")
              else Ok raw,
              s')).
Proof.
  intros Hh. split; [|split].
  - destruct (execute_total World tool self "sensor" 45 hn s Hh)
      as (b & out & err & s' & E).
    unfold get_sensor_data, bind, lift, ret. rewrite E.
    rewrite getitem_success. cbn [truthy]. destruct b.
    + rewrite getitem_output. cbn [str_of]. do 2 eexists. split; [reflexivity|].
      intros _. exists out. repeat split; reflexivity.
    + do 2 eexists. split; [reflexivity|]. intros H. discriminate H.
  - destruct (execute_total World tool self "sel list" 30 hn s Hh)
      as (b & out & err & s' & E).
    unfold get_system_event_log, bind, lift, ret. rewrite E.
    rewrite getitem_success. cbn [truthy]. destruct b.
    + rewrite getitem_output. cbn [str_of _parse_sel_output slice_to rbind].
      do 2 eexists. split; [reflexivity|].
      intros _. exists out. eexists. repeat split; reflexivity.
    + do 2 eexists. split; [reflexivity|]. intros H. discriminate H.
  - destruct (execute_total World tool self "sel list" 30 hn s Hh)
      as (b & out & err & s' & E).
    do 2 eexists. split; [exact E|].
    unfold get_system_event_log, bind, lift, ret. rewrite E.
    rewrite getitem_success. cbn [truthy]. destruct b.
    + rewrite getitem_output. reflexivity.
    + reflexivity.
Qed.

End DerivedFields.

Lemma derived_counts_agree_witness :
  exists r s',
    get_sensor_data (list proc_outcome) play service_a (start [Completed 0 "CPU Temp | 40 | degrees C | ok" ""])
    = (Ok r, s')
    /\ dict_get r "sensor_count" = Some (VInt 1).
Proof.
  destruct (derived_counts_agree (list proc_outcome) play service_a (VStr "10.0.0.1") 5 "x"
              (start [Completed 0 "CPU Temp | 40 | degrees C | ok" ""]) eq_refl)
    as [(r & s' & Hrun & Hcount) _].
  exists r, s'. split; [exact Hrun|].
  assert (Hs : succeeded r = true).
  { revert Hrun. vm_compute. intros H. injection H as <- _. reflexivity. }
  destruct (Hcount Hs) as (out & Hout & _ & Hn).
  rewrite Hn. revert Hrun Hout. vm_compute. intros H. injection H as <- _.
  intros Hout. injection Hout as <-. reflexivity.
Defined.
